(** * Sampling and scoring engine of the inspection apps

    A shallow embedding of the sample-size resolvers, the observation
    ledger and the score computations found in

    - [src/unnamed/part_000]  (module [TechSpector]),
    - [src/index.tsx], first app, lines 1-1490  (module [ActionPlan]),
    - [src/index.tsx], third app, lines 2130-3828  (module [FieldGuide]).

    Modelling conventions.

    - A JavaScript number is an integer ([Z]) where it holds a count, an
      index or a number of units; [NaN] is [None] where [parseInt] can
      produce it.  Weights and scores are modelled twice.  In the modules
      [TechSpector64], [ActionPlan64] and [FieldGuide64] they are IEEE 754
      doubles ([Binary64]), computed operation for operation as the engine
      computes them: what is said about digits, sums and thresholds is said
      there.  In [TechSpector], [ActionPlan] and [FieldGuide] they are the
      exact rationals ([Q]) that the doubles approximate; these modules
      carry the statements that rounding to the nearest double preserves
      (order, bounds, two runs on the same numbers).
    - A JavaScript object used as a dictionary is an insertion-ordered
      association list ([Js.object]): [Object.entries] walks it front to
      back, the spread-and-set [{...prev, [key]: v}] overwrites in place or
      appends.  Keys are plain data: integer-like keys (which the engine
      would enumerate first) and names inherited from [Object.prototype]
      are outside the model.
    - React state is passed explicitly: an updater handed to a state setter
      is a function from the previous state to the next one. *)

From Stdlib Require Import ZArith QArith Qround Qminmax Qabs.
From Stdlib Require Import List String Ascii Bool Lia Lqa DecimalString.
From Stdlib Require DecimalPos.
From Stdlib Require Import SpecFloat.
Import ListNotations.

Local Open Scope Z_scope.

(** ** JavaScript primitives used by the engine *)

Module Js.

(** How a call ends: with a value, or with a thrown error of a given
    name. *)
Inductive completion (A : Type) : Type :=
| Normal (v : A)
| Throw (name : string).
Arguments Normal {A} v.
Arguments Throw {A} name.

(** A body built from [return] statements alone, with no [throw] and no
    operation that can raise, ends normally. *)
Definition returns {A : Type} (v : A) : completion A := Normal v.

Definition bind {A B : Type} (c : completion A) (k : A -> completion B)
  : completion B :=
  match c with
  | Normal v => k v
  | Throw name => Throw name
  end.

(** Reading a property of a value that may be [undefined]: a [TypeError]
    when it is. *)
Definition deref {A : Type} (x : option A) : completion A :=
  match x with
  | Some v => Normal v
  | None => Throw "TypeError"
  end.

(** *** Strings *)

(** [s.split(sep)] for a one-character separator. *)
Fixpoint split (sep : ascii) (s : string) : list string :=
  match s with
  | EmptyString => [EmptyString]
  | String c rest =>
      if Ascii.eqb c sep then EmptyString :: split sep rest
      else match split sep rest with
           | [] => [String c EmptyString]
           | hd :: tl => String c hd :: tl
           end
  end.

Definition isWhiteSpace (c : ascii) : bool :=
  let n := Z.of_N (N_of_ascii c) in
  ((9 <=? n) && (n <=? 13)) || (n =? 32).

Definition digitValue (c : ascii) : option Z :=
  let n := Z.of_N (N_of_ascii c) in
  if (48 <=? n) && (n <=? 57) then Some (n - 48) else None.

Fixpoint trimStart (s : string) : string :=
  match s with
  | String c rest => if isWhiteSpace c then trimStart rest else s
  | EmptyString => EmptyString
  end.

(** Longest prefix of decimal digits, read as a number; [None] when the
    prefix is empty. *)
Fixpoint digits (s : string) (acc : option Z) : option Z :=
  match s with
  | String c rest =>
      match digitValue c with
      | Some d =>
          digits rest (Some (10 * match acc with Some a => a | None => 0 end + d))
      | None => acc
      end
  | EmptyString => acc
  end.

(** [parseInt(x, 10)]: leading white space (the ASCII part of it), a sign,
    then the longest run of digits; an [undefined] argument reads as the
    text "undefined" and so gives [NaN]. *)
Definition parseInt (x : option string) : option Z :=
  match x with
  | None => None
  | Some s =>
      match trimStart s with
      | String "-" rest => option_map Z.opp (digits rest None)
      | String "+" rest => digits rest None
      | t => digits t None
      end
  end.

(** [xs[i]] for an array and a number: [undefined] off the ends and at
    [NaN]. *)
Definition index {A : Type} (xs : list A) (i : option Z) : option A :=
  match i with
  | Some z => if z <? 0 then None else nth_error xs (Z.to_nat z)
  | None => None
  end.

(** *** Numbers *)

(** [String(n)] for an integer. *)
Definition toString (n : Z) : string :=
  NilZero.string_of_int (Z.to_int n).

Fixpoint padStart (width : nat) (s : string) : string :=
  match width with
  | O => s
  | S w =>
      if Nat.ltb (String.length s) width then padStart w (String "0" s)
      else s
  end.

Definition Qltb (x y : Q) : bool := negb (Qle_bool y x).

(** [toFixed(f)] of a number whose exact value is [x]: the integer nearest
    to [|x| * 10^f], the larger one on a tie, printed with [f] decimals; a
    minus sign when [x < 0]. *)
Definition toFixed (f : nat) (x : Q) : string :=
  let scale := 10 ^ Z.of_nat f in
  let n := Qfloor (Qabs x * inject_Z scale + (1 # 2)) in
  let whole := toString (n / scale) in
  let frac := padStart f (toString (n mod scale)) in
  ((if Qltb x 0 then "-" else "") ++
   whole ++ (if Nat.eqb f 0 then "" else "." ++ frac))%string.

(** *** Objects as dictionaries *)

Definition object (V : Type) : Type := list (string * V).

(** [o[k]] *)
Fixpoint get {V : Type} (o : object V) (k : string) : option V :=
  match o with
  | [] => None
  | (k', v) :: rest => if String.eqb k' k then Some v else get rest k
  end.

(** [{...o, [k]: v}] *)
Fixpoint set {V : Type} (o : object V) (k : string) (v : V) : object V :=
  match o with
  | [] => [(k, v)]
  | (k', v') :: rest =>
      if String.eqb k' k then (k', v) :: rest else (k', v') :: set rest k v
  end.

(** [Object.entries(o)], [Object.keys(o)], [Object.values(o)] *)
Definition entries {V : Type} (o : object V) : list (string * V) := o.
Definition keys {V : Type} (o : object V) : list string := map fst o.
Definition values {V : Type} (o : object V) : list V := map snd o.

(** [x || 0] on a number that may be [undefined]. *)
Definition orZero (x : option Z) : Z :=
  match x with
  | Some n => n
  | None => 0
  end.

(** [delete o[k]] on a copy of [o]. *)
Definition delete {V : Type} (o : object V) (k : string) : object V :=
  filter (fun entry => negb (String.eqb (fst entry) k)) o.

(** [xs.includes(s)] for an array of strings. *)
Definition includes (xs : list string) (s : string) : bool :=
  existsb (String.eqb s) xs.

(** [xs.find(p)] *)
Definition find {A : Type} (p : A -> bool) (xs : list A) : option A :=
  List.find p xs.

(** [a === b] for two strings of which the second may be [undefined]. *)
Definition sameText (a : string) (b : option string) : bool :=
  match b with
  | Some s => String.eqb a s
  | None => false
  end.

(** [`${x}`] for a string that may be [undefined]. *)
Definition show (x : option string) : string :=
  match x with
  | Some s => s
  | None => "undefined"
  end.

End Js.

(** ** The defect catalog

    [DEFECT_DATA] is read-only configuration: two arrays of categories, each
    category an array of items, each item an object from severity tier to an
    array of defects.  The [requirement] and [education] texts of an item
    are never read by the engine and are left out. *)

Module Catalog.

Record Defect : Type := {
  description : string;
  weight : Q;
  lt : option bool          (* [lt?: boolean] *)
}.

Record Defects : Type := {
  low : option (list Defect);
  moderate : option (list Defect);
  severe : option (list Defect)
}.

Record Item : Type := {
  name : string;
  defects : Defects
}.

Record Category : Type := {
  category : string;
  items : list Item
}.

Record DefectData : Type := {
  outside : list Category;
  inside : list Category
}.

(** [item.defects[severity]] with a tier name that may be [undefined]. *)
Definition tier (d : Defects) (severity : option string) : option (list Defect) :=
  match severity with
  | Some s =>
      if String.eqb s "low" then low d
      else if String.eqb s "moderate" then moderate d
      else if String.eqb s "severe" then severe d
      else None
  | None => None
  end.

(** Truthiness of the optional flag. *)
Definition truthy (b : option bool) : bool :=
  match b with
  | Some true => true
  | _ => false
  end.

Definition defect (d : string) (w : Q) : Defect :=
  {| description := d; weight := w; lt := None |}.

Definition defectLT (d : string) (w : Q) : Defect :=
  {| description := d; weight := w; lt := Some true |}.

(** The first category of each array of [DEFECT_DATA] in
    [src/unnamed/part_000] (lines 33-55 and 395-487), entry for entry. *)
Definition siteAppeal : Category :=
  {| category := "Site / Appeal";
     items :=
       [ {| name := "Litter";
            defects :=
              {| low := Some
                   [ defect "10 small items (food wrapper, paper, etc.) noted within 100sf area" 0.1;
                     defect "Any large item discarded incorrectly (furniture, etc.)" 0.1 ];
                 moderate := None; severe := None |} |};
         {| name := "Site Drainage";
            defects :=
              {| low := Some
                   [ defect "Evidence of clogged drains (culvert, swale, ditch, etc.)" 0.1 ];
                 moderate := Some
                   [ defect "Provided grate/cover no longer secure or missing" 0.2 ];
                 severe := None |} |} ] |}.

Definition moderateOnly (n : string) (ds : list Defect) : Item :=
  {| name := n; defects := {| low := None; moderate := Some ds; severe := None |} |}.

Definition restroomKitchenLaundry : Category :=
  {| category := "Restroom | Kitchen | Laundry";
     items :=
       [ moderateOnly "Bath Ventilation"
           [ defect "Inop or missing and no window present" 0.23;
             defect "Missing or damaged vent cover" 0.23;
             defect "Obstruction noted" 0.23 ];
         moderateOnly "Cabinets"
           [ defect "50% of cabinets or components missing/ damaged/inop" 0.23 ];
         moderateOnly "Countertops"
           [ defect "No food prep area" 0.23;
             defect ">=10% of top has exposed substrate" 0.23 ];
         moderateOnly "Grab Bars"
           [ defect "Slightly loose" 0.23 ];
         moderateOnly "Refrigerator"
           [ defect "Not cooling adequately" 0.23;
             defect "Seal sagging, torn or detached impacting function" 0.23;
             defect "Component damaged or missing (handle, drawers, etc.) impacting function" 0.23 ];
         moderateOnly "Kitchen Ventilation"
           [ defect "Filter missing or damaged" 0.23;
             defect "Vent is inoperable or part or/fully blocked" 0.23;
             defect "Exhaust duct not securely attached or missing" 0.23 ];
         {| name := "Range / Oven";
            defects :=
              {| low := Some [ defect "1 burner or more (or oven) not producing heat" 0.1 ];
                 moderate := Some [ defect "Component missing (knob, grate, oven seal, etc.)" 0.23 ];
                 severe := None |} |};
         {| name := "Shower/Tub & Hardware";
            defects :=
              {| low := Some
                   [ defect "Component (stopper, curtain, etc.) damaged or missing and does NOT impact function" 0.1;
                     defect "<50% discoloration" 0.1 ];
                 moderate := Some
                   [ defect "Component (diverter, head, handle, leak, door, etc.) damaged and impacts function" 0.23;
                     defect ">=50% discoloration" 0.23;
                     defect "Shower or tub can't be used in private" 0.23 ];
                 severe := Some
                   [ defect "Tub/shower is inoperable" 0.65;
                     defect "Drain fully clogged" 0.65 ] |} |};
         {| name := "Sink";
            defects :=
              {| low := Some
                   [ defect "Missing or inoperable stopper/strainer" 0.1;
                     defect "Leak outside of basin (around handles, etc.)" 0.1 ];
                 moderate := Some
                   [ defect "Missing or inoperable handles" 0.23;
                     defect "Won't hold water (sink damaged)" 0.23;
                     defect "Drain clogged" 0.23;
                     defect "Pulled away from wall" 0.23 ];
                 severe := None |} |};
         {| name := "Toilet";
            defects :=
              {| low := Some
                   [ defect "Continues to 'run' after flushing - or- tank lid or other component damaged or missing that do not impact function" 0.1 ];
                 moderate := Some
                   [ defect "Base is not secure" 0.23;
                     defect "Seat or flush handle is broken, loose or missing - impacts function" 0.23;
                     defect "Toilet can't be used in private" 0.23 ];
                 severe := Some
                   [ defectLT "Toilet missing" 2.50;
                     defect "Doesn't flush or refill correctly" 0.65 ] |} |} ] |}.

(** A catalog holding those two categories; a key whose category index is 0
    addresses the same defect here and in the full [DEFECT_DATA]. *)
Definition firstCategories : DefectData :=
  {| outside := [siteAppeal]; inside := [restroomKitchenLaundry] |}.

End Catalog.

(** ** [src/unnamed/part_000]: setup, ledger and score of the [App] component *)

Module TechSpector.
Import Catalog.

(** *** Sample size (lines 850-868) *)

Definition calculateSampleSize (numUnits : Z) : Z :=
  if numUnits <=? 0 then 0
  else if numUnits =? 1 then 1
  else if numUnits <=? 10 then Z.min numUnits 4
  else if numUnits <=? 20 then 6
  else if numUnits <=? 30 then 7
  else if numUnits <=? 40 then 8
  else if numUnits <=? 50 then 9
  else if numUnits <=? 60 then 10
  else if numUnits <=? 70 then 11
  else if numUnits <=? 80 then 12
  else if numUnits <=? 90 then 13
  else if numUnits <=? 100 then 14
  else if numUnits <=? 200 then 17
  else if numUnits <=? 300 then 19
  else if numUnits <=? 400 then 20
  else if numUnits <=? 500 then 21
  else 23.

(** *** Component state (lines 752-776) *)

Record Note : Type := {
  text : string;
  audio : option string;     (* [Blob], by handle *)
  audioURL : option string;
  photo : option string;     (* [File], by handle *)
  photoURL : option string
}.

Definition DefectCounts : Type := Js.object Z.
Definition Notes : Type := Js.object Note.

Record State : Type := {
  totalUnits : string;
  sampleSize : Z;
  defectCounts : DefectCounts;
  notes : Notes
}.

Definition setTotalUnits (v : string) (st : State) : State :=
  {| totalUnits := v; sampleSize := sampleSize st;
     defectCounts := defectCounts st; notes := notes st |}.

Definition setSampleSize (n : Z) (st : State) : State :=
  {| totalUnits := totalUnits st; sampleSize := n;
     defectCounts := defectCounts st; notes := notes st |}.

Definition setDefectCounts (f : DefectCounts -> DefectCounts) (st : State) : State :=
  {| totalUnits := totalUnits st; sampleSize := sampleSize st;
     defectCounts := f (defectCounts st); notes := notes st |}.

Definition setNotes (f : Notes -> Notes) (st : State) : State :=
  {| totalUnits := totalUnits st; sampleSize := sampleSize st;
     defectCounts := defectCounts st; notes := f (notes st) |}.

(** Lines 870-879. *)
Definition handleTotalUnitsChange (value : string) (st : State) : State :=
  let st := setTotalUnits value st in
  match Js.parseInt (Some value) with
  | Some numUnits =>
      if 0 <? numUnits then setSampleSize (calculateSampleSize numUnits) st
      else setSampleSize 0 st
  | None => setSampleSize 0 st
  end.

(** *** Ledger (lines 1076-1088) *)

Definition updateDefectCount (key : string) (change : Z) : State -> State :=
  setDefectCounts (fun prev =>
    let newCount := Js.orZero (Js.get prev key) + change in
    Js.set prev key (Z.max 0 newCount)).

(** [{ ...prev[key], text: text }] *)
Definition withText (old : option Note) (t : string) : Note :=
  match old with
  | Some n =>
      {| text := t; audio := audio n; audioURL := audioURL n;
         photo := photo n; photoURL := photoURL n |}
  | None =>
      {| text := t; audio := None; audioURL := None;
         photo := None; photoURL := None |}
  end.

Definition updateNoteText (key : string) (t : string) : State -> State :=
  setNotes (fun prev => Js.set prev key (withText (Js.get prev key) t)).

(** The count shown for a key (line 1311): [defectCounts[key] || 0]. *)
Definition countAt (st : State) (key : string) : Z :=
  Js.orZero (Js.get (defectCounts st) key).

(** The state [startInspection] leaves behind for 100 units (lines
    885-896): empty ledger, no notes. *)
Definition emptyState : State :=
  {| totalUnits := "100"; sampleSize := 14; defectCounts := []; notes := [] |}.

(** *** Score (lines 1090-1134) *)

(** The three variables the loop over the ledger assigns to. *)
Module Loop.
Record vars : Type := {
  outsideWeight : Q;
  insideWeight : Q;
  lifeThreateningDefects : list string
}.
End Loop.

Definition isOutside (location : option string) : bool :=
  match location with
  | Some s => String.eqb s "outside"
  | None => false
  end.

(** [key.split('-')[0]] *)
Definition locationOf (key : string) : option string :=
  nth_error (Js.split "-" key) 0.

(** Lines 1097-1101: from a key to the item and defect it addresses;
    [None] is an [undefined] defect. *)
Definition lookup (DEFECT_DATA : DefectData) (key : string) : option (Item * Defect) :=
  let parts := Js.split "-" key in
  let location := nth_error parts 0 in
  let catIndex := nth_error parts 1 in
  let itemIndex := nth_error parts 2 in
  let severity := nth_error parts 3 in
  let defectIndex := nth_error parts 4 in
  let defectList :=
    if isOutside location then outside DEFECT_DATA else inside DEFECT_DATA in
  match Js.index defectList (Js.parseInt catIndex) with
  | None => None
  | Some category =>
      match Js.index (items category) (Js.parseInt itemIndex) with
      | None => None
      | Some item =>
          match tier (defects item) severity with
          | None => None
          | Some ds =>
              match Js.index ds (Js.parseInt defectIndex) with
              | None => None
              | Some defect => Some (item, defect)
              end
          end
      end
  end.

(** The text pushed for a life-threatening defect (line 1111). *)
Definition finding (item : Item) (defect : Defect) (count : Z) : string :=
  (name item ++ ": " ++ description defect ++ " (x" ++ Js.toString count ++ ")")%string.

(** One turn of the [forEach] callback (lines 1095-1115). *)
Definition visit (DEFECT_DATA : DefectData) (acc : Loop.vars) (entry : string * Z)
  : Loop.vars :=
  let (key, count) := entry in
  if 0 <? count then
    match lookup DEFECT_DATA key with
    | Some (item, defect) =>
        let totalWeight := (weight defect * inject_Z count)%Q in
        let ow :=
          if isOutside (locationOf key)
          then (Loop.outsideWeight acc + totalWeight)%Q
          else Loop.outsideWeight acc in
        let iw :=
          if isOutside (locationOf key)
          then Loop.insideWeight acc
          else (Loop.insideWeight acc + totalWeight)%Q in
        let found :=
          if truthy (lt defect)
          then Loop.lifeThreateningDefects acc ++ [finding item defect count]
          else Loop.lifeThreateningDefects acc in
        {| Loop.outsideWeight := ow; Loop.insideWeight := iw;
           Loop.lifeThreateningDefects := found |}
    | None => acc
    end
  else acc.

Definition start : Loop.vars :=
  {| Loop.outsideWeight := 0; Loop.insideWeight := 0;
     Loop.lifeThreateningDefects := [] |}.

Definition tally (DEFECT_DATA : DefectData) (defectCounts : DefectCounts) : Loop.vars :=
  fold_left (visit DEFECT_DATA) (Js.entries defectCounts) start.

(** [n > 0 ? n : 1], with [NaN > 0] false. *)
Definition positiveOr1 (n : option Z) : Z :=
  match n with
  | Some z => if 0 <? z then z else 1
  | None => 1
  end.

Section Score.
Variable DEFECT_DATA : DefectData.
Variable defectCounts : DefectCounts.
Variable totalUnits : string.
Variable sampleSize : Z.

Definition outsideWeight : Q := Loop.outsideWeight (tally DEFECT_DATA defectCounts).
Definition insideWeight : Q := Loop.insideWeight (tally DEFECT_DATA defectCounts).

Definition numUnits : option Z := Js.parseInt (Some totalUnits).

Definition unitWeight : Q :=
  (insideWeight / inject_Z (positiveOr1 (Some sampleSize)))
  * inject_Z (positiveOr1 numUnits).

Definition totalDeductions : Q := outsideWeight + unitWeight.

(** The number [finalScore] of line 1120, before it is formatted. *)
Definition finalScoreValue : Q := Qmax 0 (100 - totalDeductions).

Definition insideScoreVal : Q := Qmax 0 (100 - unitWeight).

Record Score : Type := {
  outsideScore : string;
  insideScore : string;
  finalScore : string;
  failing : bool;
  lifeThreateningDefects : list string
}.

Definition score : Score :=
  let found := Loop.lifeThreateningDefects (tally DEFECT_DATA defectCounts) in
  {| outsideScore := Js.toFixed 2 (Qmax 0 (100 - outsideWeight));
     insideScore := Js.toFixed 2 insideScoreVal;
     finalScore := Js.toFixed 2 finalScoreValue;
     failing :=
       Js.Qltb finalScoreValue 60
       || Qle_bool 30 unitWeight
       || Qle_bool 40 outsideWeight
       || (0 <? Z.of_nat (List.length found));
     lifeThreateningDefects := found |}.

End Score.

(** *** The list of recorded defects (lines 1136-1160)

    The second memo of the component walks the same ledger and resolves the
    same keys, without optional chaining. *)

Module Row.
Record t : Type := {
  defect : option Defect;      (* the spread [...defect] *)
  itemName : string;
  severity : option string;
  count : Z;
  note : string;
  location : string
}.
End Row.

Definition collect (DEFECT_DATA : DefectData) (notes : Notes)
  (key : string) (count : Z) : Js.completion Row.t :=
  let parts := Js.split "-" key in
  let location := nth_error parts 0 in
  let catIndex := nth_error parts 1 in
  let itemIndex := nth_error parts 2 in
  let severity := nth_error parts 3 in
  let defectIndex := nth_error parts 4 in
  let defectList :=
    if isOutside location then outside DEFECT_DATA else inside DEFECT_DATA in
  Js.bind (Js.deref (Js.index defectList (Js.parseInt catIndex))) (fun category =>
  Js.bind (Js.deref (Js.index (items category) (Js.parseInt itemIndex))) (fun item =>
  Js.bind (Js.deref (tier (defects item) severity)) (fun ds =>
  let defect := Js.index ds (Js.parseInt defectIndex) in
  let noteText :=
    match Js.get notes key with
    | Some n => text n
    | None => ""%string
    end in
  Js.Normal
    {| Row.defect := defect;
       Row.itemName := name item;
       Row.severity := severity;
       Row.count := count;
       Row.note := noteText;
       Row.location :=
         if String.prefix "outside" key then "Outside"%string
         else ("Unit " ++ match nth_error parts 5 with
                          | Some u => u
                          | None => "undefined"
                          end)%string |}))).

Fixpoint collectFrom (DEFECT_DATA : DefectData) (notes : Notes)
  (entries : list (string * Z)) (defects : list Row.t)
  : Js.completion (list Row.t) :=
  match entries with
  | [] => Js.Normal defects
  | (key, count) :: rest =>
      if 0 <? count then
        Js.bind (collect DEFECT_DATA notes key count) (fun row =>
        collectFrom DEFECT_DATA notes rest (defects ++ [row]))
      else collectFrom DEFECT_DATA notes rest defects
  end.

Definition collectedDefects (DEFECT_DATA : DefectData)
  (defectCounts : DefectCounts) (notes : Notes) : Js.completion (list Row.t) :=
  collectFrom DEFECT_DATA notes (Js.entries defectCounts) [].

(** The memo as the component evaluates it: on the ledger, the unit total
    and the sample size of the current state (its dependency list, line
    1134). *)
Definition scoreIn (DEFECT_DATA : DefectData) (st : State) : Score :=
  score DEFECT_DATA (defectCounts st) (totalUnits st) (sampleSize st).

(** *** Keys made by the inspection screen (lines 1293-1294 and 1309)

    [categoryIndex], [itemIndex] and [defectIndex] are the positions handed
    out by [Array.prototype.map]. *)

Definition baseKey (location : string) (categoryIndex itemIndex : nat) : string :=
  (location ++ "-" ++ Js.toString (Z.of_nat categoryIndex)
            ++ "-" ++ Js.toString (Z.of_nat itemIndex))%string.

Definition unitSpecificKey (location : string) (selectedUnit : Z)
  (categoryIndex itemIndex : nat) (severity : string) (defectIndex : nat) : string :=
  if String.eqb location "inside"
  then (baseKey location categoryIndex itemIndex ++ "-" ++ severity
          ++ "-" ++ Js.toString (Z.of_nat defectIndex)
          ++ "-" ++ Js.toString selectedUnit)%string
  else (baseKey location categoryIndex itemIndex ++ "-" ++ severity
          ++ "-" ++ Js.toString (Z.of_nat defectIndex))%string.

(** The categories the inspection screen lists for a tab (line 1407). *)
Definition dataOf (DEFECT_DATA : DefectData) (activeTab : string) : list Category :=
  if String.eqb activeTab "outside" then outside DEFECT_DATA else inside DEFECT_DATA.

(** The units offered by the selector (lines 1419-1421):
    [[...Array(sampleSize)].map((_, i) => i + 1)]. *)
Definition unitOptions (sampleSize : Z) : list Z :=
  map (fun i => Z.of_nat i + 1) (seq 0 (Z.to_nat sampleSize)).

(** *** Setup (lines 885-896)

    The screen shown and the time of the last save live beside the state
    above. *)

Record View : Type := {
  screen : string;
  lastSaved : option string;
  state : State
}.

Definition startInspection (v : View) : View :=
  match Js.parseInt (Some (totalUnits (state v))) with
  | Some n =>
      if 0 <? n
      then {| screen := "inspection"; lastSaved := None;
              state := setNotes (fun _ => []) (setDefectCounts (fun _ => []) (state v)) |}
      else v
  | None => v
  end.

(** *** Notes and photos (lines 996-1027, 1144) *)

(** [notes[key]?.text || ''] *)
Definition noteText (notes : Notes) (key : string) : string :=
  match Js.get notes key with
  | Some n => text n
  | None => ""
  end.

(** [photoURL] is what [URL.createObjectURL(file)] answered. *)
Definition handlePhotoUpload (key file photoURL' : string) : State -> State :=
  setNotes (fun prev =>
    Js.set prev key
      {| text := noteText prev key;
         audio := match Js.get prev key with Some n => audio n | None => None end;
         audioURL := match Js.get prev key with Some n => audioURL n | None => None end;
         photo := Some file;
         photoURL := Some photoURL' |}).

Definition removePhoto (key : string) : State -> State :=
  setNotes (fun prev =>
    match Js.get prev key with
    | None => prev
    | Some existingNote =>
        Js.set prev key
          {| text := text existingNote;
             audio := audio existingNote; audioURL := audioURL existingNote;
             photo := None; photoURL := None |}
    end).

(** *** Draft (lines 794-847) *)

Definition textOnly (t : string) : Note :=
  {| text := t; audio := None; audioURL := None; photo := None; photoURL := None |}.

(** The notes written to the draft: the text of every note that has some. *)
Definition notesToSave (notes : Notes) : Notes :=
  fold_left
    (fun acc key =>
       match Js.get notes key with
       | Some n =>
           if String.eqb (text n) "" then acc else Js.set acc key (textOnly (text n))
       | None => acc
       end)
    (Js.keys notes) [].

Module Draft.
Record t : Type := {
  totalUnits : string;
  sampleSize : Z;
  defectCounts : DefectCounts;
  notes : Notes
}.
End Draft.

(** The object [JSON.stringify] is given every 30 seconds; the property
    texts and the time stamp are left out. *)
Definition draftOf (st : State) : Draft.t :=
  {| Draft.totalUnits := totalUnits st;
     Draft.sampleSize := sampleSize st;
     Draft.defectCounts := defectCounts st;
     Draft.notes := notesToSave (notes st) |}.

(** The setters called when a saved draft is taken back (lines 801-805);
    what [JSON.parse] reads is taken to be the object that was written. *)
Definition restore (draft : Draft.t) (st : State) : State :=
  setNotes (fun _ => Draft.notes draft)
    (setDefectCounts (fun _ => Draft.defectCounts draft)
       (setSampleSize (Draft.sampleSize draft)
          (setTotalUnits (Draft.totalUnits draft) st))).

(** *** Severity filter of the report (lines 1473-1479) *)

Definition handleFilterToggle (severity : string) (prev : list string) : list string :=
  if Js.includes prev severity
  then filter (fun s => negb (String.eqb s severity)) prev
  else prev ++ [severity].

(** The initial filters (line 780). *)
Definition allSeverities : list string := ["low"; "moderate"; "severe"]%string.

End TechSpector.

(** ** [src/index.tsx], first app: sample size and score of [App] *)

Module ActionPlan.

(** Lines 702-716. *)
Definition calculateSampleSize (totalUnits : Z) : Z :=
  if totalUnits <=? 0 then 0
  else if totalUnits =? 1 then 1
  else if (2 <=? totalUnits) && (totalUnits <=? 8) then 2
  else if (9 <=? totalUnits) && (totalUnits <=? 15) then 3
  else if (16 <=? totalUnits) && (totalUnits <=? 25) then 4
  else if (26 <=? totalUnits) && (totalUnits <=? 40) then 5
  else if (41 <=? totalUnits) && (totalUnits <=? 65) then 6
  else if (66 <=? totalUnits) && (totalUnits <=? 90) then 7
  else if (91 <=? totalUnits) && (totalUnits <=? 150) then 8
  else if (151 <=? totalUnits) && (totalUnits <=? 280) then 10
  else if (281 <=? totalUnits) && (totalUnits <=? 500) then 11
  else if (501 <=? totalUnits) && (totalUnits <=? 1200) then 15
  else 19.

(** A value of [InspectionState.defects] (line 746). *)
Record LedgerEntry : Type := {
  count : Z;
  weight : Q;
  lt : bool;
  description : string;
  name : string;
  category : string;
  severity : string
}.

Record Score : Type := {
  numeric : string;
  grade : string;
  ltCount : Z;              (* the field [lt] of the returned object *)
  pass : bool
}.

Section Score.
Variable defects : Js.object LedgerEntry.

Definition totalDeductions : Q :=
  fold_left (fun acc defect => acc + inject_Z (count defect) * weight defect)%Q
            (Js.values defects) 0%Q.

Definition lifeThreateningDefects : Z :=
  Z.of_nat (List.length
    (filter (fun d => lt d && (0 <? count d)) (Js.values defects))).

Definition finalScore : Q := Qmax 0 (100 - totalDeductions).

Definition letterGrade : string :=
  if Qle_bool 90 finalScore then "A"
  else if Qle_bool 80 finalScore then "B"
  else if Qle_bool 70 finalScore then "C"
  else if Qle_bool 60 finalScore then "D"
  else "F".

(** Lines 837-853. *)
Definition score : Score :=
  {| numeric := Js.toFixed 1 finalScore;
     grade := letterGrade;
     ltCount := lifeThreateningDefects;
     pass := Qle_bool 60 finalScore && (lifeThreateningDefects =? 0) |}.

End Score.

(** *** Setup form (lines 1075-1097) *)

Record Details : Type := {
  d_propertyName : string;    (* [propertyName] *)
  d_totalUnits : Z;           (* [totalUnits] *)
  d_yearBuilt : Z             (* [yearBuilt] *)
}.

(** [parseInt(value, 10) || 0] *)
Definition numberOr0 (value : string) : Z :=
  match Js.parseInt (Some value) with
  | Some n => n
  | None => 0
  end.

(** [handleChange] for an input called [name]; the form has the three
    inputs below. *)
Definition handleChange (name value : string) (prev : Details) : Details :=
  if String.eqb name "propertyName"
  then {| d_propertyName := value; d_totalUnits := d_totalUnits prev;
          d_yearBuilt := d_yearBuilt prev |}
  else if String.eqb name "totalUnits"
  then {| d_propertyName := d_propertyName prev; d_totalUnits := numberOr0 value;
          d_yearBuilt := d_yearBuilt prev |}
  else if String.eqb name "yearBuilt"
  then {| d_propertyName := d_propertyName prev; d_totalUnits := d_totalUnits prev;
          d_yearBuilt := numberOr0 value |}
  else prev.

(** [handleSubmit]: the details handed to [onStart], if any. *)
Definition handleSubmit (details : Details) : option Details :=
  if negb (String.eqb (d_propertyName details) "")
     && (0 <? d_totalUnits details) && (1800 <? d_yearBuilt details)
  then Some details
  else None.

(** [Array.from({ length: sampleSize }, (_, i) => i + 1)] (line 1130). *)
Definition unitOptions (totalUnits : Z) : list Z :=
  map (fun i => Z.of_nat i + 1) (seq 0 (Z.to_nat (calculateSampleSize totalUnits))).

(** *** Ledger (lines 742-751, 879-913) *)

Record AudioNote : Type := {
  url : string;
  transcribedText : option string
}.

Record InspectionState : Type := {
  propertyName : string;
  totalUnits : Z;
  yearBuilt : Z;
  status : string;
  defects : Js.object LedgerEntry;
  notes : Js.object string;
  photos : Js.object string;
  audio : Js.object AudioNote
}.

Definition withDefects (ds : Js.object LedgerEntry) (prev : InspectionState)
  : InspectionState :=
  {| propertyName := propertyName prev; totalUnits := totalUnits prev;
     yearBuilt := yearBuilt prev; status := status prev;
     defects := ds; notes := notes prev; photos := photos prev;
     audio := audio prev |}.

Definition withNotes (ns : Js.object string) (prev : InspectionState)
  : InspectionState :=
  {| propertyName := propertyName prev; totalUnits := totalUnits prev;
     yearBuilt := yearBuilt prev; status := status prev;
     defects := defects prev; notes := ns; photos := photos prev;
     audio := audio prev |}.

(** [(DEFECT_DATA as any)[location]] *)
Definition area (DEFECT_DATA : Catalog.DefectData) (location : option string)
  : option (list Catalog.Category) :=
  match location with
  | Some s =>
      if String.eqb s "outside" then Some (Catalog.outside DEFECT_DATA)
      else if String.eqb s "inside" then Some (Catalog.inside DEFECT_DATA)
      else None
  | None => None
  end.

(** Line 880: the catalog entry behind an item key, found by the name of
    the item; [None] inside a normal completion is an [undefined]
    [defectInfo]. *)
Definition defectInfo (DEFECT_DATA : Catalog.DefectData)
  (itemKey severity : string) (defectIndex : Z)
  : Js.completion (option Catalog.Defect) :=
  let parts := Js.split "." itemKey in
  Js.bind (Js.deref (area DEFECT_DATA (nth_error parts 0))) (fun categories =>
  Js.bind (Js.deref
             (Js.find (fun i => Js.sameText (Catalog.name i) (nth_error parts 2))
                      (flat_map Catalog.items categories))) (fun found =>
  Js.bind (Js.deref (Catalog.tier (Catalog.defects found) (Some severity))) (fun ds =>
  Js.Normal (Js.index ds (Some defectIndex))))).

Definition defectKeyOf (itemKey severity : string) (defectIndex : Z) : string :=
  (itemKey ++ "." ++ severity ++ "." ++ Js.toString defectIndex)%string.

(** [currentDefect ? currentDefect.count : 0] *)
Definition currentCount (ds : Js.object LedgerEntry) (defectKey : string) : Z :=
  match Js.get ds defectKey with
  | Some currentDefect => count currentDefect
  | None => 0
  end.

Definition handleCountChange (DEFECT_DATA : Catalog.DefectData)
  (itemKey severity : string) (defectIndex delta : Z) (prev : InspectionState)
  : Js.completion InspectionState :=
  Js.bind (defectInfo DEFECT_DATA itemKey severity defectIndex) (fun info =>
  let defectKey := defectKeyOf itemKey severity defectIndex in
  let parts := Js.split "." itemKey in
  let newCount := Z.max 0 (currentCount (defects prev) defectKey + delta) in
  if 0 <? newCount then
    Js.bind (Js.deref info) (fun d =>
    Js.Normal
      (withDefects
         (Js.set (defects prev) defectKey
            {| count := newCount;
               weight := Catalog.weight d;
               lt := Catalog.truthy (Catalog.lt d);
               description := Catalog.description d;
               name := Js.show (nth_error parts 2);
               category := Js.show (nth_error parts 1);
               severity := severity |})
         prev))
  else Js.Normal (withDefects (Js.delete (defects prev) defectKey) prev)).

Definition handleNotesChange (defectKey text : string) (prev : InspectionState)
  : InspectionState :=
  withNotes (Js.set (notes prev) defectKey text) prev.

(** *** Keys made by the inspection screen (lines 1250-1252, 1264)

    The items of the catalog carry no [category] field, so the template
    prints [undefined] in its place. *)
Definition locationKey (location : string) (unit : Z) : string :=
  if String.eqb location "outside" then "outside"
  else ("unit-" ++ Js.toString unit)%string.

Definition itemKeyOf (location : string) (unit : Z) (item : Catalog.Item) : string :=
  (location ++ "." ++ Js.show None ++ "." ++ Catalog.name item
            ++ "." ++ locationKey location unit)%string.

(** *** Report rows (lines 1337-1343)

    [{ key, ...value, location: key.split('.')[3] }], kept when the count is
    positive. *)

Record ReportRow : Type := {
  r_key : string;
  r_value : LedgerEntry;
  r_location : option string
}.

Definition allDefects (ds : Js.object LedgerEntry) : list ReportRow :=
  filter (fun d => 0 <? count (r_value d))
         (map (fun entry =>
                 {| r_key := fst entry; r_value := snd entry;
                    r_location := nth_error (Js.split "." (fst entry)) 3 |})
              (Js.entries ds)).

(** The state the component starts from (lines 764-773); [year] is the
    current year. *)
Definition initialState (year : Z) : InspectionState :=
  {| propertyName := ""; totalUnits := 1; yearBuilt := year; status := "setup";
     defects := []; notes := []; photos := []; audio := [] |}.

End ActionPlan.

(** ** [src/index.tsx], third app: sample size and running score *)

Module FieldGuide.

(** Lines 3375-3387. *)
Definition getSampleSize (units : Z) : Z :=
  if units =? 1 then 1 else if units <=? 2 then 2 else if units <=? 3 then 3
  else if units <=? 4 then 4 else if units <=? 5 then 5 else if units <=? 7 then 6
  else if units <=? 8 then 7 else if units <=? 10 then 8 else if units <=? 12 then 9
  else if units <=? 14 then 10 else if units <=? 16 then 11 else if units <=? 18 then 12
  else if units <=? 21 then 13 else if units <=? 24 then 14 else if units <=? 27 then 15
  else if units <=? 30 then 16 else if units <=? 35 then 17 else if units <=? 39 then 18
  else if units <=? 45 then 19 else if units <=? 51 then 20 else if units <=? 59 then 21
  else if units <=? 67 then 22 else if units <=? 78 then 23 else if units <=? 92 then 24
  else if units <=? 110 then 25 else if units <=? 120 then 26 else if units <=? 166 then 27
  else if units <=? 214 then 28 else if units <=? 295 then 29 else if units <=? 455 then 30
  else if units <=? 920 then 31 else 32.

(** The [sampleSize] memo of [SetupScreen] (lines 3436-3439), the only
    caller of [getSampleSize]. *)
Definition setupSampleSize (totalUnits : string) : Z :=
  match Js.parseInt (Some totalUnits) with
  | Some num => if 0 <? num then getSampleSize num else 0
  | None => 0
  end.

(** An element of [inspection.loggedDefects] (lines 3577-3588). *)
Record LoggedDefect : Type := {
  area : string;
  unitIndex : option Z;
  category : string;
  item : string;
  severity : string;
  description : string;
  weight : Q;
  lt : bool;
  key : string
}.

Record Inspection : Type := {
  totalUnits : Z;
  sampleSize : Z;
  loggedDefects : list LoggedDefect;
  defectNotes : Js.object string
}.

Section Score.
Variable inspection : Inspection.

Definition totalWeight : Q :=
  fold_left (fun sum d => sum + weight d)%Q (loggedDefects inspection) 0%Q.

Definition deduction : Q :=
  if 0 <? sampleSize inspection
  then totalWeight / inject_Z (sampleSize inspection)
  else 0.

Definition unitWeight : Q :=
  fold_left (fun sum d => sum + weight d)%Q
            (filter (fun d => String.eqb (area d) "unit") (loggedDefects inspection))
            0%Q.

(** The memo of [InspectionScreen] (lines 3619-3630). *)
Definition reacScore : string := Js.toFixed 2 (Qmax 0 (100 - deduction)).
Definition unitScore : string := Js.toFixed 2 unitWeight.

End Score.

(** *** Catalog of the third app: three areas (lines 2135-3372) *)

Record DefectData : Type := {
  outside : list Catalog.Category;
  inside : list Catalog.Category;
  unit : list Catalog.Category
}.

(** [DEFECT_DATA[activeTab]] *)
Definition areaOf (DEFECT_DATA : DefectData) (activeTab : string)
  : option (list Catalog.Category) :=
  if String.eqb activeTab "outside" then Some (outside DEFECT_DATA)
  else if String.eqb activeTab "inside" then Some (inside DEFECT_DATA)
  else if String.eqb activeTab "unit" then Some (unit DEFECT_DATA)
  else None.

(** *** The table shown on the setup screen (lines 3389-3402) *)

Record Row : Type := {
  total : Z + string;
  sample : Z
}.

Definition exactly (n s : Z) : Row := {| total := inl n; sample := s |}.
Definition range (t : string) (s : Z) : Row := {| total := inr t; sample := s |}.

Definition sampleSizeData : list Row :=
  [ exactly 1 1; exactly 2 2; exactly 3 3;
    exactly 4 4; exactly 5 5; range "6-7" 6;
    range "8" 7; range "9-10" 8; range "11-12" 9;
    range "13-14" 10; range "15-16" 11; range "17-18" 12;
    range "19-21" 13; range "22-24" 14; range "25-27" 15;
    range "28-30" 16; range "31-35" 17; range "36-39" 18;
    range "40-45" 19; range "46-51" 20; range "52-59" 21;
    range "60-67" 22; range "68-78" 23; range "79-92" 24;
    range "93-110" 25; range "111-120" 26; range "121-166" 27;
    range "167-214" 28; range "215-295" 29; range "296-455" 30;
    range "456-920" 31; range "921+" 32 ].

(** *** Setup (lines 3441-3447, 3788-3796) *)

(** [handleSubmit] followed by [handleStart]: the inspection created, if
    any. *)
Definition handleSubmit (totalUnits : string) : option Inspection :=
  match Js.parseInt (Some totalUnits) with
  | Some num =>
      if 0 <? num
      then Some {| totalUnits := num; sampleSize := setupSampleSize totalUnits;
                   loggedDefects := []; defectNotes := [] |}
      else None
  | None => None
  end.

(** *** Logging (lines 3575-3617) *)

Definition withLogged (ds : list LoggedDefect) (prev : Inspection) : Inspection :=
  {| totalUnits := totalUnits prev; sampleSize := sampleSize prev;
     loggedDefects := ds; defectNotes := defectNotes prev |}.

Definition keyOf (itemName severity : string) (defectIndex : Z) : string :=
  (itemName ++ "-" ++ severity ++ "-" ++ Js.toString defectIndex)%string.

(** The new entry lacks [id], a list key made from the clock and a random
    number.  [activeTab] and [currentUnit] are the state of the screen. *)
Definition addDefect (DEFECT_DATA : DefectData) (activeTab : string) (currentUnit : Z)
  (itemName severity' : string) (defectIndex : Z) (defect : Catalog.Defect)
  (prev : Inspection) : Js.completion Inspection :=
  Js.bind (Js.deref (areaOf DEFECT_DATA activeTab)) (fun categories =>
  Js.bind (Js.deref
             (Js.find (fun c => existsb (fun i => String.eqb (Catalog.name i) itemName)
                                        (Catalog.items c))
                      categories)) (fun c =>
  Js.Normal
    (withLogged
       (loggedDefects prev ++
        [ {| area := activeTab;
             unitIndex := if String.eqb activeTab "unit" then Some currentUnit else None;
             category := Catalog.category c;
             item := itemName;
             severity := severity';
             description := Catalog.description defect;
             weight := Catalog.weight defect;
             lt := Catalog.truthy (Catalog.lt defect);
             key := keyOf itemName severity' defectIndex |} ])
       prev))).

(** The loop of [removeDefect]: from position [i - 1] down to 0, the first
    position whose entry carries the key. *)
Fixpoint scanDown (key' : string) (ds : list LoggedDefect) (i : nat) : option nat :=
  match i with
  | O => None
  | S j =>
      match nth_error ds j with
      | Some d => if String.eqb (key d) key' then Some j else scanDown key' ds j
      | None => scanDown key' ds j
      end
  end.

(** [xs.splice(i, 1)] *)
Definition splice1 {A : Type} (xs : list A) (i : nat) : list A :=
  firstn i xs ++ skipn (S i) xs.

Definition removeDefect (key' : string) (prev : Inspection) : Inspection :=
  match scanDown key' (loggedDefects prev) (List.length (loggedDefects prev)) with
  | Some indexToRemove => withLogged (splice1 (loggedDefects prev) indexToRemove) prev
  | None => withLogged (loggedDefects prev) prev
  end.

Definition updateDefectNote (defectKey note : string) (prev : Inspection) : Inspection :=
  {| totalUnits := totalUnits prev; sampleSize := sampleSize prev;
     loggedDefects := loggedDefects prev;
     defectNotes := Js.set (defectNotes prev) defectKey note |}.

(** *** What the screen shows (lines 3524-3525, 3633-3637) *)

Definition sameUnit (a : option Z) (b : Z) : bool :=
  match a with
  | Some n => n =? b
  | None => false
  end.

Definition loggedDefectsForCurrentScope (activeTab : string) (currentUnit : Z)
  (ds : list LoggedDefect) : list LoggedDefect :=
  filter (fun d => String.eqb (area d) activeTab
                   && (negb (String.eqb activeTab "unit") || sameUnit (unitIndex d) currentUnit))
         ds.

(** [loggedDefects.filter(d => d.key === key).length] *)
Definition countOf (key' : string) (ds : list LoggedDefect) : nat :=
  List.length (filter (fun d => String.eqb (key d) key') ds).

(** *** Report (lines 3702-3714) *)

Definition reacScoreValue (inspection : Inspection) : Q :=
  Qmax 0 (100 - deduction inspection).

Definition unitScoreStatus (inspection : Inspection) : string :=
  if Qle_bool 30 (unitWeight inspection) then "Fail" else "Pass".

(** *** A piece of the catalog of the third app

    The first category of [outside] (lines 2136-2154, the same entries as in
    the other two apps) and the first two items of the first category of
    [unit] (lines 2947-2961). *)

Definition bathroomKitchenLaundry : Catalog.Category :=
  {| Catalog.category := "Bathroom Kitchen | Laundry";
     Catalog.items :=
       [ Catalog.moderateOnly "Bath Ventilation"
           [ Catalog.defect "Inop or missing and no window present" 0.25;
             Catalog.defect "Missing or damaged vent cover" 0.25;
             Catalog.defect "Obstruction noted" 0.25 ];
         Catalog.moderateOnly "Cabinets"
           [ Catalog.defect "50% of cabinets or components missing/ damaged/inop" 0.25 ] ] |}.

Definition firstCategories : DefectData :=
  {| outside := [Catalog.siteAppeal]; inside := []; unit := [bathroomKitchenLaundry] |}.

(** What [addDefect] logs for the defect of "Cabinets" in a unit. *)
Definition loggedCabinets (currentUnit : Z) : LoggedDefect :=
  {| area := "unit"; unitIndex := Some currentUnit;
     category := "Bathroom Kitchen | Laundry"; item := "Cabinets";
     severity := "moderate";
     description := "50% of cabinets or components missing/ damaged/inop";
     weight := 0.25; lt := false; key := "Cabinets-moderate-0" |}.


Definition loggedOven (currentUnit : Z) : LoggedDefect :=
  {| area := "unit"; unitIndex := Some currentUnit;
     category := "Bathroom Kitchen | Laundry"; item := "Range / Oven";
     severity := "severe";
     description := "100% of burners or oven not producing heat";
     weight := 0.7; lt := false; key := "Range / Oven-severe-0" |}.

(** The inspection [handleSubmit] creates for 100 units. *)
Definition started100 : Inspection :=
  {| totalUnits := 100; sampleSize := 25; loggedDefects := []; defectNotes := [] |}.

End FieldGuide.

(** ** The critical findings of the specification (section 4.4, step 5)

    The occurrences of the ledger of [part_000] joined with the catalog, and
    the findings among them, in ledger order. *)

Module Spec.
Import Catalog.

Inductive Scope : Type :=
| common
| unit (n : option Z).

(** A ledger entry joined with the catalog entry its key addresses. *)
Record Occurrence : Type := {
  scope : Scope;
  count : Z;
  itemName : string;
  definition : Defect
}.

Definition scopeOf (key : string) : Scope :=
  if TechSpector.isOutside (TechSpector.locationOf key) then common
  else unit (Js.parseInt (nth_error (Js.split "-" key) 5)).

Definition join (DEFECT_DATA : DefectData) (entry : string * Z) : list Occurrence :=
  match TechSpector.lookup DEFECT_DATA (fst entry) with
  | Some (item, d) =>
      [ {| scope := scopeOf (fst entry); count := snd entry;
           itemName := name item; definition := d |} ]
  | None => []
  end.


Definition isCritical (o : Occurrence) : bool :=
  (0 <? count o) && truthy (lt (definition o)).



End Spec.

(** ** Numbers as the engine holds them: IEEE 754 binary64

    Every number of the source is a double.  The operations below are those
    of [SpecFloat] at a precision of 53 bits: each one returns the double
    nearest to the exact result, ties to the even mantissa. *)

Module Binary64.

Definition prec : Z := 53.
Definition emax : Z := 1024.

Definition t : Type := spec_float.

Definition NaN : t := S754_nan.

(** The double of an integer (a count, a number of units, a literal such
    as [100]). *)
Definition ofZ (n : Z) : t := binary_normalize prec emax n 0 false.

(** The double of a decimal literal of the source, such as [0.23]: the
    double nearest to the literal's value. *)
Definition ofQ (q : Q) : t :=
  match Qnum q with
  | Z0 => S754_zero false
  | Zpos n =>
      let '(m, e, l) := SFdiv_core_binary prec emax (Zpos n) 0 (Zpos (Qden q)) 0 in
      binary_round_aux prec emax false m e l
  | Zneg n =>
      let '(m, e, l) := SFdiv_core_binary prec emax (Zpos n) 0 (Zpos (Qden q)) 0 in
      binary_round_aux prec emax true m e l
  end.

Definition add : t -> t -> t := SFadd prec emax.
Definition sub : t -> t -> t := SFsub prec emax.
Definition mul : t -> t -> t := SFmul prec emax.
Definition div : t -> t -> t := SFdiv prec emax.

(** [a < b] and [a <= b]; false when either side is [NaN]. *)
Definition ltb : t -> t -> bool := SFltb.
Definition leb : t -> t -> bool := SFleb.

(** [Math.max(a, b)]: [NaN] when either is, and [+0] above [-0]. *)
Definition max (a b : t) : t :=
  match SFcompare a b with
  | None => NaN
  | Some Lt => b
  | Some Gt => a
  | Some Eq =>
      match a with
      | S754_zero true => b
      | _ => a
      end
  end.

(** The exact value of a finite double. *)
Definition toQ (x : t) : option Q :=
  match x with
  | S754_zero _ => Some 0%Q
  | S754_finite s m e =>
      let n := if s then Zneg m else Zpos m in
      Some (match e with
            | Z0 => inject_Z n
            | Zpos p => inject_Z (n * 2 ^ Zpos p)
            | Zneg p => Qmake n (2 ^ p)
            end)
  | _ => None
  end.

(** What [toFixed] answers: decimal digits, or, from [10^21] upwards, the
    text [String(x)] of the number, which is kept here as the number. *)
Inductive text : Type :=
| Digits (s : string)
| Exponential (x : t).

(** [x.toFixed(f)]: the digits are those of the exact value of the double,
    rounded to [f] decimals with the larger neighbour on a tie. *)
Definition toFixed (f : nat) (x : t) : text :=
  match x with
  | S754_nan => Digits "NaN"
  | S754_infinity false => Digits "Infinity"
  | S754_infinity true => Digits "-Infinity"
  | _ =>
      match toQ x with
      | Some q =>
          if Qle_bool (inject_Z (10 ^ 21)) (Qabs q) then Exponential x
          else Digits (Js.toFixed f q)
      | None => Digits "NaN"
      end
  end.

End Binary64.

(** ** The three score computations in binary64

    The same statements as in the modules above, the numbers being doubles.
    A weight is the double of the catalog literal, a count the double of the
    integer kept in the ledger. *)

Module TechSpector64.
Import Catalog.

Module Loop.
Record vars : Type := {
  outsideWeight : Binary64.t;
  insideWeight : Binary64.t;
  lifeThreateningDefects : list string
}.
End Loop.

(** One turn of the [forEach] callback (lines 1095-1115). *)
Definition visit (DEFECT_DATA : DefectData) (acc : Loop.vars) (entry : string * Z)
  : Loop.vars :=
  let (key, count) := entry in
  if 0 <? count then
    match TechSpector.lookup DEFECT_DATA key with
    | Some (item, defect) =>
        let totalWeight :=
          Binary64.mul (Binary64.ofQ (weight defect)) (Binary64.ofZ count) in
        let ow :=
          if TechSpector.isOutside (TechSpector.locationOf key)
          then Binary64.add (Loop.outsideWeight acc) totalWeight
          else Loop.outsideWeight acc in
        let iw :=
          if TechSpector.isOutside (TechSpector.locationOf key)
          then Loop.insideWeight acc
          else Binary64.add (Loop.insideWeight acc) totalWeight in
        let found :=
          if truthy (lt defect)
          then Loop.lifeThreateningDefects acc ++ [TechSpector.finding item defect count]
          else Loop.lifeThreateningDefects acc in
        {| Loop.outsideWeight := ow; Loop.insideWeight := iw;
           Loop.lifeThreateningDefects := found |}
    | None => acc
    end
  else acc.

Definition start : Loop.vars :=
  {| Loop.outsideWeight := Binary64.ofZ 0; Loop.insideWeight := Binary64.ofZ 0;
     Loop.lifeThreateningDefects := [] |}.

Definition tally (DEFECT_DATA : DefectData) (defectCounts : TechSpector.DefectCounts)
  : Loop.vars :=
  fold_left (visit DEFECT_DATA) (Js.entries defectCounts) start.

Section Score.
Variable DEFECT_DATA : DefectData.
Variable defectCounts : TechSpector.DefectCounts.
Variable totalUnits : string.
Variable sampleSize : Z.

Definition outsideWeight : Binary64.t :=
  Loop.outsideWeight (tally DEFECT_DATA defectCounts).
Definition insideWeight : Binary64.t :=
  Loop.insideWeight (tally DEFECT_DATA defectCounts).

(** Line 1118. *)
Definition unitWeight : Binary64.t :=
  Binary64.mul
    (Binary64.div insideWeight
                  (Binary64.ofZ (TechSpector.positiveOr1 (Some sampleSize))))
    (Binary64.ofZ (TechSpector.positiveOr1 (Js.parseInt (Some totalUnits)))).

Definition totalDeductions : Binary64.t := Binary64.add outsideWeight unitWeight.

(** The number [finalScore] of line 1120, before it is formatted. *)
Definition finalScoreValue : Binary64.t :=
  Binary64.max (Binary64.ofZ 0) (Binary64.sub (Binary64.ofZ 100) totalDeductions).

Definition insideScoreVal : Binary64.t :=
  Binary64.max (Binary64.ofZ 0) (Binary64.sub (Binary64.ofZ 100) unitWeight).

Record Score : Type := {
  outsideScore : Binary64.text;
  insideScore : Binary64.text;
  finalScore : Binary64.text;
  failing : bool;
  lifeThreateningDefects : list string
}.

Definition score : Score :=
  let found := Loop.lifeThreateningDefects (tally DEFECT_DATA defectCounts) in
  {| outsideScore :=
       Binary64.toFixed 2
         (Binary64.max (Binary64.ofZ 0) (Binary64.sub (Binary64.ofZ 100) outsideWeight));
     insideScore := Binary64.toFixed 2 insideScoreVal;
     finalScore := Binary64.toFixed 2 finalScoreValue;
     failing :=
       Binary64.ltb finalScoreValue (Binary64.ofZ 60)
       || Binary64.leb (Binary64.ofZ 30) unitWeight
       || Binary64.leb (Binary64.ofZ 40) outsideWeight
       || (0 <? Z.of_nat (List.length found));
     lifeThreateningDefects := found |}.

End Score.

End TechSpector64.

Module ActionPlan64.

Record Score : Type := {
  numeric : Binary64.text;
  grade : string;
  ltCount : Z;              (* the field [lt] of the returned object *)
  pass : bool
}.

Section Score.
Variable defects : Js.object ActionPlan.LedgerEntry.

Definition totalDeductions : Binary64.t :=
  fold_left
    (fun acc defect =>
       Binary64.add acc
         (Binary64.mul (Binary64.ofZ (ActionPlan.count defect))
                       (Binary64.ofQ (ActionPlan.weight defect))))
    (Js.values defects) (Binary64.ofZ 0).

Definition finalScore : Binary64.t :=
  Binary64.max (Binary64.ofZ 0) (Binary64.sub (Binary64.ofZ 100) totalDeductions).

Definition letterGrade : string :=
  if Binary64.leb (Binary64.ofZ 90) finalScore then "A"
  else if Binary64.leb (Binary64.ofZ 80) finalScore then "B"
  else if Binary64.leb (Binary64.ofZ 70) finalScore then "C"
  else if Binary64.leb (Binary64.ofZ 60) finalScore then "D"
  else "F".

(** Lines 837-853. *)
Definition score : Score :=
  {| numeric := Binary64.toFixed 1 finalScore;
     grade := letterGrade;
     ltCount := ActionPlan.lifeThreateningDefects defects;
     pass := Binary64.leb (Binary64.ofZ 60) finalScore
             && (ActionPlan.lifeThreateningDefects defects =? 0) |}.

End Score.

End ActionPlan64.

Module FieldGuide64.

Section Score.
Variable inspection : FieldGuide.Inspection.

Definition totalWeight : Binary64.t :=
  fold_left (fun sum d => Binary64.add sum (Binary64.ofQ (FieldGuide.weight d)))
            (FieldGuide.loggedDefects inspection) (Binary64.ofZ 0).

Definition deduction : Binary64.t :=
  if 0 <? FieldGuide.sampleSize inspection
  then Binary64.div totalWeight (Binary64.ofZ (FieldGuide.sampleSize inspection))
  else Binary64.ofZ 0.

Definition unitWeight : Binary64.t :=
  fold_left (fun sum d => Binary64.add sum (Binary64.ofQ (FieldGuide.weight d)))
            (filter (fun d => String.eqb (FieldGuide.area d) "unit")
                    (FieldGuide.loggedDefects inspection))
            (Binary64.ofZ 0).

(** The memo of [ReportScreen] (lines 3702-3714) and what the summary cards
    print (lines 3739 and 3743). *)
Definition reacScore : Binary64.t :=
  Binary64.max (Binary64.ofZ 0) (Binary64.sub (Binary64.ofZ 100) deduction).

Definition unitScoreStatus : string :=
  if Binary64.leb (Binary64.ofZ 30) unitWeight then "Fail" else "Pass".

Definition reacScoreShown : Binary64.text := Binary64.toFixed 2 reacScore.
Definition unitScoreShown : Binary64.text := Binary64.toFixed 2 unitWeight.

End Score.

End FieldGuide64.

(** ** The scoring engine in the words of the specification, on typed keys

    Sections 3, 4.2, 4.3 and 4.4: scopes, observation keys, the catalog
    lookup and the deduction formulas, written without reference to the
    code and for any arithmetic, so that the formulas can be read both in
    exact arithmetic and in binary64. *)

Module Engine.

Inductive Scope : Type :=
| common
| unit (n : Z).

Inductive SeverityTier : Type :=
| low
| moderate
| severe.

Record ObservationKey : Type := {
  scope : Scope;
  categoryIndex : nat;
  itemIndex : nat;
  severityTier : SeverityTier;
  defectIndex : nat
}.

Record Observation : Type := {
  key : ObservationKey;
  count : Z
}.

(** The part of the catalog a scope is inspected against. *)
Definition categories (catalog : Catalog.DefectData) (s : Scope)
  : list Catalog.Category :=
  match s with
  | common => Catalog.outside catalog
  | unit _ => Catalog.inside catalog
  end.

Definition tier (d : Catalog.Defects) (t : SeverityTier)
  : option (list Catalog.Defect) :=
  match t with
  | low => Catalog.low d
  | moderate => Catalog.moderate d
  | severe => Catalog.severe d
  end.

(** Section 4.3: category index, item index, severity tier, defect index.
    [None] stands for a dangling reference. *)
Definition resolve (catalog : Catalog.DefectData) (k : ObservationKey)
  : option (Catalog.Item * Catalog.Defect) :=
  match nth_error (categories catalog (scope k)) (categoryIndex k) with
  | None => None
  | Some c =>
      match nth_error (Catalog.items c) (itemIndex k) with
      | None => None
      | Some i =>
          match tier (Catalog.defects i) (severityTier k) with
          | None => None
          | Some ds =>
              match nth_error ds (defectIndex k) with
              | None => None
              | Some d => Some (i, d)
              end
          end
      end
  end.

(** [occurrences()]: the observations with a positive count. *)
Definition occurrences (ledger : list Observation) : list Observation :=
  filter (fun o => 0 <? count o) ledger.

(** An occurrence joined with the catalog entry it addresses. *)
Record Occurrence : Type := {
  observed : Observation;
  item : Catalog.Item;
  definition : Catalog.Defect
}.

(** The join fails closed: one dangling reference and there is no list. *)
Fixpoint join (catalog : Catalog.DefectData) (os : list Observation)
  : option (list Occurrence) :=
  match os with
  | [] => Some []
  | o :: rest =>
      match resolve catalog (key o), join catalog rest with
      | Some (i, d), Some joined =>
          Some ({| observed := o; item := i; definition := d |} :: joined)
      | _, _ => None
      end
  end.

Definition isCommon (o : Occurrence) : bool :=
  match scope (key (observed o)) with
  | common => true
  | unit _ => false
  end.

Definition isCritical (o : Occurrence) : bool :=
  Catalog.truthy (Catalog.lt (definition o)).

(** The numbers of an arithmetic and its operations. *)
Record Arithmetic : Type := {
  num : Type;
  ofCount : Z -> num;
  ofWeight : Q -> num;
  add : num -> num -> num;
  sub : num -> num -> num;
  mul : num -> num -> num;
  div : num -> num -> num;
  max : num -> num -> num
}.

Definition exact : Arithmetic :=
  {| num := Q; ofCount := inject_Z; ofWeight := fun w => w;
     add := Qplus; sub := Qminus; mul := Qmult; div := Qdiv; max := Qmax |}.

Definition binary64 : Arithmetic :=
  {| num := Binary64.t; ofCount := Binary64.ofZ; ofWeight := Binary64.ofQ;
     add := Binary64.add; sub := Binary64.sub; mul := Binary64.mul;
     div := Binary64.div; max := Binary64.max |}.

Section Scoring.
Variable A : Arithmetic.

(** [count(key) * weight(key)] *)
Definition points (o : Occurrence) : num A :=
  mul A (ofCount A (count (observed o))) (ofWeight A (Catalog.weight (definition o))).

(** A sum over occurrences, taken in their order from 0. *)
Definition total (os : list Occurrence) : num A :=
  fold_left (fun sum o => add A sum (points o)) os (ofCount A 0).

Definition commonDeductionPoints (os : list Occurrence) : num A :=
  total (filter isCommon os).

Definition totalUnitDeductionPoints (os : list Occurrence) : num A :=
  total (filter (fun o => negb (isCommon o)) os).

Definition extrapolatedInteriorDeduction
  (os : list Occurrence) (sampleSize totalUnits : Z) : num A :=
  mul A (div A (totalUnitDeductionPoints os) (ofCount A sampleSize))
        (ofCount A totalUnits).

(** Step 4 as it is written: [max(0, 100 - common - extrapolated)]. *)
Definition finalScore (os : list Occurrence) (sampleSize totalUnits : Z) : num A :=
  max A (ofCount A 0)
      (sub A (sub A (ofCount A 100) (commonDeductionPoints os))
             (extrapolatedInteriorDeduction os sampleSize totalUnits)).

End Scoring.

End Engine.

(** ** Notions used to state the properties below *)

Module Reading.

(** A string without a given character. *)
Fixpoint lacks (c : ascii) (s : string) : bool :=
  match s with
  | EmptyString => true
  | String c' rest => negb (Ascii.eqb c' c) && lacks c rest
  end.

(** The number a sequence of decimal digits stands for, after the digits
    already read. *)
Fixpoint valueAfter (d : Decimal.uint) (a : Z) : Z :=
  match d with
  | Decimal.Nil => a
  | Decimal.D0 l => valueAfter l (10 * a + 0)
  | Decimal.D1 l => valueAfter l (10 * a + 1)
  | Decimal.D2 l => valueAfter l (10 * a + 2)
  | Decimal.D3 l => valueAfter l (10 * a + 3)
  | Decimal.D4 l => valueAfter l (10 * a + 4)
  | Decimal.D5 l => valueAfter l (10 * a + 5)
  | Decimal.D6 l => valueAfter l (10 * a + 6)
  | Decimal.D7 l => valueAfter l (10 * a + 7)
  | Decimal.D8 l => valueAfter l (10 * a + 8)
  | Decimal.D9 l => valueAfter l (10 * a + 9)
  end.

(** How a label of the sample-size table reads: a number stands for
    itself, "a-b" for the numbers from [a] to [b], "a+" for [a] and above. *)
Definition covers (label : Z + string) (n : Z) : bool :=
  match label with
  | inl k => n =? k
  | inr s =>
      match Js.split "-" s with
      | [a] =>
          match Js.parseInt (Some a) with
          | Some lo => if lacks "+" a then n =? lo else lo <=? n
          | None => false
          end
      | [a; b] =>
          match Js.parseInt (Some a), Js.parseInt (Some b) with
          | Some lo, Some hi => (lo <=? n) && (n <=? hi)
          | _, _ => false
          end
      | _ => false
      end
  end.

(** Equality of two lists of numbers, as a test. *)
Fixpoint sameNumbers (xs ys : list Z) : bool :=
  match xs, ys with
  | [], [] => true
  | x :: xs', y :: ys' => (x =? y) && sameNumbers xs' ys'
  | _, _ => false
  end.

(** The samples shown by the rows of the table that cover [n]. *)
Definition shownFor (n : Z) : list Z :=
  map FieldGuide.sample
      (filter (fun row => covers (FieldGuide.total row) n) FieldGuide.sampleSizeData).

(** The text key the inspection screen of [part_000] builds for a typed
    observation key: the tab is "outside" for the common scope and "inside"
    for a unit, whose number closes the key. *)
Definition locationName (s : Engine.Scope) : string :=
  match s with
  | Engine.common => "outside"
  | Engine.unit _ => "inside"
  end.

Definition unitNumber (s : Engine.Scope) : Z :=
  match s with
  | Engine.common => 1
  | Engine.unit n => n
  end.

Definition tierName (t : Engine.SeverityTier) : string :=
  match t with
  | Engine.low => "low"
  | Engine.moderate => "moderate"
  | Engine.severe => "severe"
  end.

Definition keyOf (k : Engine.ObservationKey) : string :=
  TechSpector.unitSpecificKey (locationName (Engine.scope k)) (unitNumber (Engine.scope k))
    (Engine.categoryIndex k) (Engine.itemIndex k)
    (tierName (Engine.severityTier k)) (Engine.defectIndex k).

(** The ledger of the app that holds the given observations, in their
    order. *)
Definition defectCountsOf (ledger : list Engine.Observation) : TechSpector.DefectCounts :=
  map (fun o => (keyOf (Engine.key o), Engine.count o)) ledger.

(** An observation with the common scope, and one in a unit. *)
Definition commonObservation (ci ii : nat) (t : Engine.SeverityTier) (di : nat) (c : Z)
  : Engine.Observation :=
  {| Engine.key := {| Engine.scope := Engine.common; Engine.categoryIndex := ci;
                      Engine.itemIndex := ii; Engine.severityTier := t;
                      Engine.defectIndex := di |};
     Engine.count := c |}.

Definition unitObservation (n : Z) (ci ii : nat) (t : Engine.SeverityTier) (di : nat) (c : Z)
  : Engine.Observation :=
  {| Engine.key := {| Engine.scope := Engine.unit n; Engine.categoryIndex := ci;
                      Engine.itemIndex := ii; Engine.severityTier := t;
                      Engine.defectIndex := di |};
     Engine.count := c |}.

(** The term a row of the list of recorded defects stands for in the
    score: weight times count in binary64, nothing for a row without a
    defect. *)
Definition rowTerm (row : TechSpector.Row.t) : Binary64.t :=
  match TechSpector.Row.defect row with
  | Some d =>
      Binary64.mul (Binary64.ofQ (Catalog.weight d))
                   (Binary64.ofZ (TechSpector.Row.count row))
  | None => Binary64.ofZ 0
  end.

(** A sum of doubles, taken in their order from 0. *)
Definition sum64 (xs : list Binary64.t) : Binary64.t :=
  fold_left Binary64.add xs (Binary64.ofZ 0).

Definition isOutsideRow (row : TechSpector.Row.t) : bool :=
  String.eqb (TechSpector.Row.location row) "Outside".

(** What a row of the list says of the occurrence it was made from. *)
Definition rowOf (row : TechSpector.Row.t) (o : Engine.Occurrence) : Prop :=
  TechSpector.Row.defect row = Some (Engine.definition o) /\
  TechSpector.Row.itemName row = Catalog.name (Engine.item o) /\
  TechSpector.Row.count row = Engine.count (Engine.observed o) /\
  isOutsideRow row = Engine.isCommon o.

(** Ledgers used as examples: one common-area sighting of the first
    "Litter" defect (0.1) and three sightings, in unit 1, of the first "Bath
    Ventilation" defect (0.23); nine and ten sightings, in units 1 and 2, of
    the 0.1-point defect of "Range / Oven". *)
Definition tieLedger : list Engine.Observation :=
  [ commonObservation 0 0 Engine.low 0 1; unitObservation 1 0 0 Engine.moderate 0 3 ].

Definition thresholdLedger : list Engine.Observation :=
  [ unitObservation 1 0 6 Engine.low 0 9; unitObservation 2 0 6 Engine.low 0 10 ].

End Reading.

(** * Properties *)

(** ** Sanity checks of the primitives *)

Example split_key :
  Js.split "-" "inside-0-9-severe-0-3" =
  ["inside"; "0"; "9"; "severe"; "0"; "3"]%string.
Proof. reflexivity. Qed.

Example split_empty : Js.split "-" "" = [""%string].
Proof. reflexivity. Qed.

Example parseInt_samples :
  Js.parseInt (Some "100"%string) = Some 100 /\
  Js.parseInt (Some " -7x"%string) = Some (-7) /\
  Js.parseInt (Some ""%string) = None /\
  Js.parseInt (Some "low"%string) = None /\
  Js.parseInt None = None.
Proof. repeat split. Qed.

Example toFixed_samples :
  Js.toFixed 2 75 = "75.00"%string /\
  Js.toFixed 2 (1 # 8) = "0.13"%string /\
  Js.toFixed 2 (9999 # 100) = "99.99"%string /\
  Js.toFixed 1 (-(5 # 4)) = "-1.3"%string /\
  Js.toFixed 2 100 = "100.00"%string.
Proof. repeat split. Qed.

Example lookup_toilet_missing :
  option_map (fun p => (Catalog.name (fst p), Catalog.description (snd p)))
    (TechSpector.lookup Catalog.firstCategories "inside-0-9-severe-0-3") =
  Some ("Toilet", "Toilet missing")%string.
Proof. reflexivity. Qed.

(** ** Dictionaries *)

Section ObjectFacts.
Context {V : Type}.
Implicit Types (o : Js.object V) (k : string) (v : V).

Lemma get_set_same o k v : Js.get (Js.set o k v) k = Some v.
Proof.
  induction o as [|[k' v'] rest IH]; simpl.
  - now rewrite String.eqb_refl.
  - destruct (String.eqb k' k) eqn:E; simpl; rewrite E; auto.
Qed.

Lemma get_set_other o k k' v : k' <> k -> Js.get (Js.set o k v) k' = Js.get o k'.
Proof.
  intros Hne.
  induction o as [|[k0 v0] rest IH]; simpl.
  - destruct (String.eqb k k') eqn:E; auto.
    apply String.eqb_eq in E. congruence.
  - destruct (String.eqb k0 k) eqn:E; simpl.
    + apply String.eqb_eq in E. subst k0.
      destruct (String.eqb k k') eqn:E'; auto.
      apply String.eqb_eq in E'. congruence.
    + destruct (String.eqb k0 k'); auto.
Qed.

(** Setting a key keeps the keys distinct, and keeps their order when the
    key was there. *)
Lemma keys_set_present o k v :
  In k (Js.keys o) -> Js.keys (Js.set o k v) = Js.keys o.
Proof.
  unfold Js.keys.
  induction o as [|[k0 v0] rest IH]; simpl; intros Hin; [tauto|].
  destruct (String.eqb k0 k) eqn:E; simpl; auto.
  f_equal. apply IH. destruct Hin as [->|]; auto.
  rewrite String.eqb_refl in E. discriminate.
Qed.

Lemma keys_set_absent o k v :
  ~ In k (Js.keys o) -> Js.keys (Js.set o k v) = Js.keys o ++ [k].
Proof.
  unfold Js.keys.
  induction o as [|[k0 v0] rest IH]; simpl; intros Hin; auto.
  destruct (String.eqb k0 k) eqn:E; simpl.
  - apply String.eqb_eq in E. tauto.
  - f_equal. apply IH. tauto.
Qed.

Lemma keys_set_NoDup o k v : NoDup (Js.keys o) -> NoDup (Js.keys (Js.set o k v)).
Proof.
  intros Hnd.
  destruct (in_dec string_dec k (Js.keys o)) as [Hin|Hout].
  - now rewrite keys_set_present.
  - rewrite keys_set_absent by assumption.
    apply NoDup_app; repeat split; auto.
    + constructor; [simpl; tauto | constructor].
    + intros x Hx [<-|[]]. contradiction.
Qed.

End ObjectFacts.

(** ** Formatting respects equality of rationals *)


Lemma Qltb_comp (x x' y y' : Q) :
  (x == x')%Q -> (y == y')%Q -> Js.Qltb x y = Js.Qltb x' y'.
Proof. intros Hx Hy. unfold Js.Qltb. now rewrite Hx, Hy. Qed.

Lemma toFixed_comp (f : nat) (x y : Q) : (x == y)%Q -> Js.toFixed f x = Js.toFixed f y.
Proof.
  intros H. unfold Js.toFixed.
  rewrite (Qltb_comp x y 0 0 H (Qeq_refl 0)).
  assert (E : Qfloor (Qabs x * inject_Z (10 ^ Z.of_nat f) + (1 # 2)) =
              Qfloor (Qabs y * inject_Z (10 ^ Z.of_nat f) + (1 # 2))).
  { apply Qfloor_comp. now rewrite H. }
  now rewrite E.
Qed.

(** ** Sample size *)

Ltac bool_to_Z :=
  repeat match goal with
    | H : (_ && _) = true |- _ => apply andb_true_iff in H; destruct H
    | H : (_ && _) = false |- _ => apply andb_false_iff in H
    | H : (_ <=? _) = true |- _ => apply Z.leb_le in H
    | H : (_ <=? _) = false |- _ => apply Z.leb_gt in H
    | H : (_ <? _) = true |- _ => apply Z.ltb_lt in H
    | H : (_ <? _) = false |- _ => apply Z.ltb_ge in H
    | H : (_ =? _) = true |- _ => apply Z.eqb_eq in H
    | H : (_ =? _) = false |- _ => apply Z.eqb_neq in H
    end.

Ltac by_cases :=
  repeat match goal with
    | |- context [if ?c then _ else _] => destruct c eqn:?; bool_to_Z
    end;
  try lia.

Lemma TechSpector_sample_bounds n :
  1 <= n -> 1 <= TechSpector.calculateSampleSize n <= n.
Proof. intros H. unfold TechSpector.calculateSampleSize. by_cases. Qed.

Lemma ActionPlan_sample_bounds n :
  1 <= n -> 1 <= ActionPlan.calculateSampleSize n <= n.
Proof. intros H. unfold ActionPlan.calculateSampleSize. by_cases. Qed.

Lemma FieldGuide_sample_bounds n :
  1 <= n -> 1 <= FieldGuide.getSampleSize n <= n.
Proof. intros H. unfold FieldGuide.getSampleSize. by_cases. Qed.

(** Monotonicity, bucket by bucket: the bucket of [a] is fixed first, then
    every bucket [b] can fall in is compared with it. *)
Lemma TechSpector_sample_mono a b :
  a <= b -> TechSpector.calculateSampleSize a <= TechSpector.calculateSampleSize b.
Proof.
  intros H. unfold TechSpector.calculateSampleSize.
  destruct (a <=? 0) eqn:?; bool_to_Z; [by_cases|].
  destruct (a =? 1) eqn:?; bool_to_Z; [by_cases|].
  destruct (a <=? 10) eqn:?; bool_to_Z; [by_cases|].
  by_cases.
Qed.

Lemma ActionPlan_sample_mono a b :
  a <= b -> ActionPlan.calculateSampleSize a <= ActionPlan.calculateSampleSize b.
Proof.
  intros H. unfold ActionPlan.calculateSampleSize.
  destruct (a <=? 0) eqn:?; bool_to_Z; [by_cases|].
  destruct (a =? 1) eqn:?; bool_to_Z; [by_cases|].
  by_cases.
Qed.

Lemma FieldGuide_sample_mono a b :
  1 <= a -> a <= b -> FieldGuide.getSampleSize a <= FieldGuide.getSampleSize b.
Proof.
  intros H1 H. unfold FieldGuide.getSampleSize.
  destruct (a =? 1) eqn:?; bool_to_Z; [by_cases|].
  by_cases.
Qed.

(** Without its caller's guard the third table answers 2 below 1. *)
Example getSampleSize_unguarded :
  FieldGuide.getSampleSize 0 = 2 /\ FieldGuide.getSampleSize (-5) = 2.
Proof. split; reflexivity. Qed.

(** C7. On both [calculateSampleSize] tables the sample size never shrinks
    as the number of units grows from 1 upwards, and for every number of
    units [n >= 1] it lies between 1 and [n]. *)
Theorem calculateSampleSize_monotone_bounded :
  (forall a b, 1 <= a -> 1 <= b -> a <= b ->
     TechSpector.calculateSampleSize a <= TechSpector.calculateSampleSize b /\
     ActionPlan.calculateSampleSize a <= ActionPlan.calculateSampleSize b) /\
  (forall n, 1 <= n ->
     1 <= TechSpector.calculateSampleSize n <= n /\
     1 <= ActionPlan.calculateSampleSize n <= n).
Proof.
  split.
  - intros a b _ _ Hab. split.
    + now apply TechSpector_sample_mono.
    + now apply ActionPlan_sample_mono.
  - intros n Hn. split.
    + now apply TechSpector_sample_bounds.
    + now apply ActionPlan_sample_bounds.
Qed.

Lemma calculateSampleSize_monotone_bounded_witness :
  (TechSpector.calculateSampleSize 100 <= TechSpector.calculateSampleSize 101 /\
   ActionPlan.calculateSampleSize 100 <= ActionPlan.calculateSampleSize 101) /\
  (1 <= TechSpector.calculateSampleSize 7 <= 7 /\
   1 <= ActionPlan.calculateSampleSize 7 <= 7).
Proof.
  split.
  - apply (proj1 calculateSampleSize_monotone_bounded 100 101); lia.
  - apply (proj2 calculateSampleSize_monotone_bounded 7); lia.
Defined.

(** C5, as stated, fails: at 0 units the resolver of [part_000] ends
    normally with the value 0. *)
Lemma calculateSampleSize_zero_returns :
  Js.returns (TechSpector.calculateSampleSize 0) = Js.Normal 0 /\
  Js.returns (TechSpector.calculateSampleSize 0) <> Js.Throw "InvalidPopulationSize".
Proof. split; [reflexivity | discriminate]. Qed.

(** C5, amended. For every number of units [n <= 0] both
    [calculateSampleSize] functions end normally with the value 0, and the
    setup screen of the third app, which guards its call of [getSampleSize],
    takes the sample size to be 0. *)
Theorem sample_size_of_nonpositive n :
  n <= 0 ->
  Js.returns (TechSpector.calculateSampleSize n) = Js.Normal 0 /\
  Js.returns (ActionPlan.calculateSampleSize n) = Js.Normal 0 /\
  (forall totalUnits, Js.parseInt (Some totalUnits) = Some n ->
     FieldGuide.setupSampleSize totalUnits = 0).
Proof.
  intros Hn. repeat split.
  - unfold Js.returns, TechSpector.calculateSampleSize.
    destruct (n <=? 0) eqn:E; bool_to_Z; [reflexivity | lia].
  - unfold Js.returns, ActionPlan.calculateSampleSize.
    destruct (n <=? 0) eqn:E; bool_to_Z; [reflexivity | lia].
  - intros totalUnits Hp. unfold FieldGuide.setupSampleSize. rewrite Hp.
    destruct (0 <? n) eqn:E; bool_to_Z; [lia | reflexivity].
Qed.

Lemma sample_size_of_nonpositive_witness :
  Js.returns (TechSpector.calculateSampleSize (-2)) = Js.Normal 0 /\
  Js.returns (ActionPlan.calculateSampleSize (-2)) = Js.Normal 0 /\
  FieldGuide.setupSampleSize "-2" = 0.
Proof.
  destruct (sample_size_of_nonpositive (-2) ltac:(lia)) as (H1 & H2 & H3).
  split; [exact H1 | split; [exact H2 | apply H3; reflexivity]].
Defined.

(** ** Ledger *)

Import TechSpector.

Lemma updateDefectCount_counts key change st :
  defectCounts (updateDefectCount key change st) =
  Js.set (defectCounts st) key (Z.max 0 (countAt st key + change)).
Proof. reflexivity. Qed.

Lemma updateNoteText_notes key t st :
  notes (updateNoteText key t st) =
  Js.set (notes st) key (withText (Js.get (notes st) key) t).
Proof. reflexivity. Qed.

Lemma get_updateDefectCount st key change :
  Js.get (defectCounts (updateDefectCount key change st)) key
  = Some (Z.max 0 (countAt st key + change)).
Proof. rewrite updateDefectCount_counts. apply get_set_same. Qed.

Lemma countAt_updateDefectCount st key change :
  countAt (updateDefectCount key change st) key = Z.max 0 (countAt st key + change).
Proof. unfold countAt at 1. now rewrite get_updateDefectCount. Qed.

(** C8. For every key, every starting count [c >= 0] (an absent key counts
    as 0) and every integer change, [updateDefectCount] is a total state
    update that leaves exactly [max 0 (c + change)] stored at the key; taking
    one away from a count of 0 leaves 0. *)
Theorem updateDefectCount_clamps :
  (forall st key c change,
     0 <= c -> countAt st key = c ->
     Js.get (defectCounts (updateDefectCount key change st)) key
       = Some (Z.max 0 (c + change)) /\
     countAt (updateDefectCount key change st) key = Z.max 0 (c + change)) /\
  (forall st key,
     countAt st key = 0 -> countAt (updateDefectCount key (-1) st) key = 0).
Proof.
  split.
  - intros st key c change _ <-. split.
    + apply get_updateDefectCount.
    + apply countAt_updateDefectCount.
  - intros st key H0. now rewrite countAt_updateDefectCount, H0.
Qed.

Lemma updateDefectCount_clamps_witness :
  countAt (updateDefectCount "outside-0-0-low-0" (-5)
             (updateDefectCount "outside-0-0-low-0" 3 emptyState))
          "outside-0-0-low-0" = 0 /\
  countAt (updateDefectCount "outside-0-0-low-0" (-1) emptyState)
          "outside-0-0-low-0" = 0.
Proof.
  split.
  - apply (proj1 updateDefectCount_clamps
             (updateDefectCount "outside-0-0-low-0" 3 emptyState)
             "outside-0-0-low-0"%string 3 (-5)); [lia | reflexivity].
  - apply (proj2 updateDefectCount_clamps emptyState "outside-0-0-low-0"%string).
    reflexivity.
Defined.

(** One increment and one decrement bring a count back (section 8 of the
    specification). *)
Lemma updateDefectCount_undo st key :
  0 <= countAt st key ->
  countAt (updateDefectCount key (-1) (updateDefectCount key 1 st)) key
  = countAt st key.
Proof. intros H. rewrite !countAt_updateDefectCount. lia. Qed.

(** C10. [updateDefectCount key change] changes at most the count stored at
    [key]: every other key reads as before and the notes, the unit total and
    the sample size are untouched; [updateNoteText key t] changes only the
    note of [key] and leaves the whole ledger of counts untouched. *)
Theorem ledger_updates_frame :
  (forall st key change,
     (forall other, other <> key ->
        Js.get (defectCounts (updateDefectCount key change st)) other
        = Js.get (defectCounts st) other) /\
     notes (updateDefectCount key change st) = notes st /\
     totalUnits (updateDefectCount key change st) = totalUnits st /\
     sampleSize (updateDefectCount key change st) = sampleSize st) /\
  (forall st key t,
     (forall other, other <> key ->
        Js.get (notes (updateNoteText key t st)) other = Js.get (notes st) other) /\
     option_map text (Js.get (notes (updateNoteText key t st)) key) = Some t /\
     defectCounts (updateNoteText key t st) = defectCounts st /\
     totalUnits (updateNoteText key t st) = totalUnits st /\
     sampleSize (updateNoteText key t st) = sampleSize st).
Proof.
  split.
  - intros st key change. repeat split.
    intros other Hne. rewrite updateDefectCount_counts. now apply get_set_other.
  - intros st key t. repeat split.
    + intros other Hne. rewrite updateNoteText_notes. now apply get_set_other.
    + rewrite updateNoteText_notes, get_set_same. destruct (Js.get (notes st) key); reflexivity.
Qed.

Lemma ledger_updates_frame_witness :
  Js.get (defectCounts (updateDefectCount "outside-0-0-low-0" 1
            (updateDefectCount "outside-0-1-low-0" 4 emptyState)))
         "outside-0-1-low-0" = Some 4 /\
  Js.get (notes (updateNoteText "outside-0-0-low-0" "wrappers by the fence"
            (updateNoteText "outside-0-1-low-0" "culvert" emptyState)))
         "outside-0-1-low-0"
  = Js.get (notes (updateNoteText "outside-0-1-low-0" "culvert" emptyState))
           "outside-0-1-low-0".
Proof.
  split.
  - rewrite (proj1 (proj1 ledger_updates_frame _ _ _) "outside-0-1-low-0"%string).
    + reflexivity.
    + discriminate.
  - apply (proj1 (proj2 ledger_updates_frame _ _ _) "outside-0-1-low-0"%string).
    discriminate.
Defined.

(** ** The loop over the ledger and the critical findings *)

Section Tally.
Variable DEFECT_DATA : Catalog.DefectData.

Local Open Scope Q_scope.




(** A key resolves exactly when each of its four steps does: category
    index, item index, severity tier, defect index. *)
Lemma lookup_resolves key item d :
  lookup DEFECT_DATA key = Some (item, d) <->
  exists category ds,
    let parts := Js.split "-" key in
    Js.index (if isOutside (nth_error parts 0)
              then Catalog.outside DEFECT_DATA else Catalog.inside DEFECT_DATA)
             (Js.parseInt (nth_error parts 1)) = Some category /\
    Js.index (Catalog.items category) (Js.parseInt (nth_error parts 2)) = Some item /\
    Catalog.tier (Catalog.defects item) (nth_error parts 3) = Some ds /\
    Js.index ds (Js.parseInt (nth_error parts 4)) = Some d.
Proof.
  unfold lookup. cbv zeta.
  set (parts := Js.split "-" key).
  destruct (Js.index _ (Js.parseInt (nth_error parts 1))) as [category|] eqn:C.
  - destruct (Js.index (Catalog.items category) _) as [item'|] eqn:I.
    + destruct (Catalog.tier (Catalog.defects item') _) as [ds|] eqn:T.
      * destruct (Js.index ds _) as [d'|] eqn:X.
        -- split.
           ++ intros [= <- <-]. now exists category, ds.
           ++ intros (c & ds' & Hc & Hi & Ht & Hx).
              congruence.
        -- split; [discriminate|].
           intros (c & ds' & Hc & Hi & Ht & Hx). congruence.
      * split; [discriminate|].
        intros (c & ds' & Hc & Hi & Ht & Hx). congruence.
    + split; [discriminate|].
      intros (c & ds' & Hc & Hi & Ht & Hx). congruence.
  - split; [discriminate|].
    intros (c & ds' & Hc & Hi & Ht & Hx). congruence.
Qed.

(** An entry whose key addresses nothing leaves the loop variables as they
    were. *)
Lemma visit_dangling acc key count :
  lookup DEFECT_DATA key = None -> visit DEFECT_DATA acc (key, count) = acc.
Proof. intros L. unfold visit. rewrite L. now destruct (0 <? count)%Z. Qed.

Lemma tally_dangling before after key count :
  lookup DEFECT_DATA key = None ->
  tally DEFECT_DATA (before ++ (key, count) :: after)
  = tally DEFECT_DATA (before ++ after).
Proof.
  intros L. unfold tally, Js.entries.
  rewrite !fold_left_app. cbn [fold_left]. now rewrite visit_dangling.
Qed.

End Tally.

(** ** The score *)

Section ScoreFacts.
Variable DEFECT_DATA : Catalog.DefectData.
Implicit Types (ledger : DefectCounts) (units : string) (sample : Z).

Local Open Scope Q_scope.



End ScoreFacts.

(** ** Scenarios of section 8, run on the first categories of the catalog *)

(** Scenario A: nothing recorded. *)
Example scenario_A :
  calculateSampleSize 100 = 14 /\
  score Catalog.firstCategories [] "100" 14 =
  {| outsideScore := "100.00"; insideScore := "100.00"; finalScore := "100.00";
     failing := false; lifeThreateningDefects := [] |}.
Proof. split; reflexivity. Qed.

(** Scenarios B and C: one unit defect of weight 2.50 seen once in a sample
    of 10 out of 100 units; the defect at that weight in the first inside
    category is flagged life-threatening. *)
Example scenario_B_C :
  score Catalog.firstCategories [("inside-0-9-severe-0-1"%string, 1%Z)] "100" 10 =
  {| outsideScore := "100.00"; insideScore := "75.00"; finalScore := "75.00";
     failing := true;
     lifeThreateningDefects := ["Toilet: Toilet missing (x1)"%string] |}.
Proof. reflexivity. Qed.

(** Scenario D, with the 0.1-point defect of "Litter" seen 440 times. *)
Example scenario_D :
  score Catalog.firstCategories [("outside-0-0-low-0"%string, 440%Z)] "100" 14 =
  {| outsideScore := "56.00"; insideScore := "100.00"; finalScore := "56.00";
     failing := true; lifeThreateningDefects := [] |}.
Proof. reflexivity. Qed.

(** ** The claims about the score *)




(** C4, as stated, fails: a ledger holding a key whose defect index is
    out of range is scored without any error, the entry weighing nothing. *)
Lemma dangling_key_scored :
  lookup Catalog.firstCategories "outside-0-0-low-9" = None /\
  Js.returns (score Catalog.firstCategories
                [("outside-0-0-low-0"%string, 2); ("outside-0-0-low-9"%string, 3)]
                "100" 14)
  = Js.Normal
      {| outsideScore := "99.80"; insideScore := "100.00"; finalScore := "99.80";
         failing := false; lifeThreateningDefects := [] |} /\
  Js.returns (score Catalog.firstCategories
                [("outside-0-0-low-0"%string, 2); ("outside-0-0-low-9"%string, 3)]
                "100" 14)
  <> Js.Throw "DanglingDefectReference".
Proof. split; [reflexivity | split; [reflexivity | discriminate]]. Qed.

(** On that ledger the list of recorded defects is built without error as
    well, the dangling row carrying no description and no weight.  A key
    whose category, item or tier is missing stops that memo with a
    [TypeError], while the score is still computed. *)
Example collectedDefects_dangling_index :
  collectedDefects Catalog.firstCategories
    [("outside-0-0-low-0"%string, 2); ("outside-0-0-low-9"%string, 3)] []
  = Js.Normal
      [ {| Row.defect :=
             Some (Catalog.defect
                     "10 small items (food wrapper, paper, etc.) noted within 100sf area" 0.1);
           Row.itemName := "Litter"; Row.severity := Some "low"%string;
           Row.count := 2; Row.note := ""; Row.location := "Outside" |};
        {| Row.defect := None;
           Row.itemName := "Litter"; Row.severity := Some "low"%string;
           Row.count := 3; Row.note := ""; Row.location := "Outside" |} ].
Proof. reflexivity. Qed.

Example collectedDefects_dangling_category :
  collectedDefects Catalog.firstCategories [("outside-99-0-low-0"%string, 3)] []
  = Js.Throw "TypeError" /\
  finalScore (score Catalog.firstCategories [("outside-99-0-low-0"%string, 3)] "100" 14)
  = "100.00"%string.
Proof. split; reflexivity. Qed.

(** C4, amended. An entry whose key addresses no defect of the catalog is
    passed over by the score computation: the computation ends normally and
    returns what it returns for the ledger without that entry. *)
Theorem dangling_key_skipped DEFECT_DATA before after key count units sample :
  lookup DEFECT_DATA key = None ->
  Js.returns (score DEFECT_DATA (before ++ (key, count) :: after) units sample)
  = Js.Normal (score DEFECT_DATA (before ++ after) units sample).
Proof.
  intros L. unfold Js.returns. f_equal.
  unfold score, finalScoreValue, insideScoreVal, totalDeductions, unitWeight,
    outsideWeight, insideWeight.
  now rewrite (tally_dangling DEFECT_DATA before after key count L).
Qed.

Lemma dangling_key_skipped_witness :
  Js.returns (score Catalog.firstCategories
                ([("outside-0-0-low-0"%string, 2)]
                 ++ ("outside-0-7-low-0"%string, 3) :: [("inside-0-9-low-0-1"%string, 1)])
                "100" 14)
  = Js.Normal (score Catalog.firstCategories
                 ([("outside-0-0-low-0"%string, 2)] ++ [("inside-0-9-low-0-1"%string, 1)])
                 "100" 14).
Proof.
  apply (dangling_key_skipped Catalog.firstCategories
           [("outside-0-0-low-0"%string, 2)] [("inside-0-9-low-0-1"%string, 1)]
           "outside-0-7-low-0"%string 3 "100"%string 14).
  reflexivity.
Defined.

(** C6, as stated, fails: with a sample size of 0 the score computation
    ends normally with a numeric score. *)
Lemma zero_sample_scored :
  Js.returns (score Catalog.firstCategories
                [("inside-0-9-severe-1-1"%string, 2)] "4" 0)
  = Js.Normal
      {| outsideScore := "100.00"; insideScore := "94.80"; finalScore := "94.80";
         failing := false; lifeThreateningDefects := [] |} /\
  Js.returns (score Catalog.firstCategories
                [("inside-0-9-severe-1-1"%string, 2)] "4" 0)
  <> Js.Throw "InvalidPopulationSize".
Proof. split; [reflexivity | discriminate]. Qed.

(** C6, amended. A sample size of 0 (or below) raises no error at the
    extrapolation step: [part_000] divides by 1 instead, so that it returns
    the score of a sample of one unit, and the running score of the third
    app of [index.tsx] takes the deduction to be 0 and shows "100.00". *)
Theorem zero_sample_divisor :
  (forall DEFECT_DATA ledger units sample,
     sample <= 0 ->
     (unitWeight DEFECT_DATA ledger units sample
      == insideWeight DEFECT_DATA ledger / 1 * inject_Z (positiveOr1 (numUnits units)))%Q /\
     Js.returns (score DEFECT_DATA ledger units sample)
     = Js.Normal (score DEFECT_DATA ledger units 1)) /\
  (forall inspection,
     FieldGuide.sampleSize inspection <= 0 ->
     FieldGuide.deduction inspection = 0%Q /\
     FieldGuide.reacScore inspection = "100.00"%string).
Proof.
  split.
  - intros D ledger units sample Hs.
    assert (E : positiveOr1 (Some sample) = 1).
    { unfold positiveOr1. destruct (0 <? sample) eqn:P; bool_to_Z; [lia | reflexivity]. }
    split.
    + unfold unitWeight. rewrite E. reflexivity.
    + unfold Js.returns. f_equal.
      unfold score, finalScoreValue, insideScoreVal, totalDeductions, unitWeight.
      now rewrite E.
  - intros inspection Hs.
    assert (E : FieldGuide.deduction inspection = 0%Q).
    { unfold FieldGuide.deduction.
      destruct (0 <? FieldGuide.sampleSize inspection) eqn:P; bool_to_Z;
        [lia | reflexivity]. }
    split; [exact E|].
    unfold FieldGuide.reacScore. now rewrite E.
Qed.

Lemma zero_sample_divisor_witness :
  Js.returns (score Catalog.firstCategories
                [("inside-0-9-severe-1-1"%string, 2)] "4" 0)
  = Js.Normal (score Catalog.firstCategories
                 [("inside-0-9-severe-1-1"%string, 2)] "4" 1) /\
  FieldGuide.reacScore
    {| FieldGuide.totalUnits := 0; FieldGuide.sampleSize := 0;
       FieldGuide.loggedDefects := []; FieldGuide.defectNotes := [] |}
  = "100.00"%string.
Proof.
  split.
  - apply (proj1 zero_sample_divisor Catalog.firstCategories
             [("inside-0-9-severe-1-1"%string, 2)] "4"%string 0). lia.
  - apply (proj2 zero_sample_divisor
             {| FieldGuide.totalUnits := 0; FieldGuide.sampleSize := 0;
                FieldGuide.loggedDefects := []; FieldGuide.defectNotes := [] |}).
    simpl. lia.
Defined.

(** * Further properties of the three apps *)

(** ** Numbers as text and back *)

Lemma append_assoc (a b c : string) : ((a ++ b) ++ c = a ++ (b ++ c))%string.
Proof. induction a as [|x a IH]; simpl; [reflexivity | now rewrite IH]. Qed.

Lemma split_lacks sep s : Reading.lacks sep s = true -> Js.split sep s = [s].
Proof.
  induction s as [|c s IH]; simpl; [reflexivity|].
  intros H. apply andb_true_iff in H. destruct H as [Hc Hs].
  apply negb_true_iff in Hc. rewrite Hc, (IH Hs). reflexivity.
Qed.

Lemma split_append sep a b :
  Reading.lacks sep a = true ->
  Js.split sep (a ++ String sep b) = a :: Js.split sep b.
Proof.
  induction a as [|c a IH]; simpl.
  - intros _. now rewrite Ascii.eqb_refl.
  - intros H. apply andb_true_iff in H. destruct H as [Hc Hs].
    apply negb_true_iff in Hc. rewrite Hc, (IH Hs). reflexivity.
Qed.

Lemma lacks_append c a b :
  Reading.lacks c (a ++ b) = Reading.lacks c a && Reading.lacks c b.
Proof.
  induction a as [|x a IH]; simpl; [reflexivity|].
  now rewrite IH, andb_assoc.
Qed.

Lemma lacks_digits c d :
  Js.digitValue c = None -> Reading.lacks c (NilEmpty.string_of_uint d) = true.
Proof.
  intros H.
  induction d; cbn [NilEmpty.string_of_uint Reading.lacks]; auto;
    rewrite IHd, andb_true_r; apply negb_true_iff;
    match goal with
    | |- Ascii.eqb ?x c = false =>
        destruct (Ascii.eqb_spec x c) as [<-|]; [discriminate H | reflexivity]
    end.
Qed.

Lemma valueAfter_acc d acc :
  Z.pos (Pos.of_uint_acc d acc) = Reading.valueAfter d (Z.pos acc).
Proof.
  revert acc.
  induction d; intros acc; cbn [Pos.of_uint_acc Reading.valueAfter]; auto;
    rewrite IHd; f_equal; lia.
Qed.

Lemma valueAfter_of_uint d : Z.of_N (Pos.of_uint d) = Reading.valueAfter d 0.
Proof.
  induction d; cbn [Pos.of_uint Reading.valueAfter Z.of_N]; auto;
    now rewrite valueAfter_acc.
Qed.

Lemma digits_string_of_uint d acc :
  d <> Decimal.Nil ->
  Js.digits (NilEmpty.string_of_uint d) acc
  = Some (Reading.valueAfter d match acc with Some a => a | None => 0 end).
Proof.
  revert acc.
  induction d; intros acc Hd; [congruence| ..];
    cbn [NilEmpty.string_of_uint Js.digits];
    match goal with
    | |- context [Js.digitValue ?c] =>
        let v := eval vm_compute in (Js.digitValue c) in
        change (Js.digitValue c) with v
    end;
    cbv iota beta;
    (destruct d; [reflexivity | rewrite IHd by discriminate; reflexivity ..]).
Qed.

Lemma toString_nonneg n :
  0 <= n ->
  exists d, d <> Decimal.Nil /\
            Js.toString n = NilEmpty.string_of_uint d /\
            Reading.valueAfter d 0 = n.
Proof.
  intros Hn. unfold Js.toString.
  destruct n as [|p|p]; [| |lia].
  - exists (Decimal.D0 Decimal.Nil). repeat split. discriminate.
  - exists (Pos.to_uint p). split; [apply DecimalPos.Unsigned.to_uint_nonnil|]. split.
    + cbn [Z.to_int NilZero.string_of_int NilZero.string_of_uint].
      destruct (Pos.to_uint p) eqn:E; try reflexivity.
      now apply DecimalPos.Unsigned.to_uint_nonnil in E.
    + rewrite <- valueAfter_of_uint, DecimalPos.Unsigned.of_to. reflexivity.
Qed.


Lemma parseInt_leading_digit c rest :
  Js.digitValue c <> None ->
  Js.parseInt (Some (String c rest)) = Js.digits (String c rest) None.
Proof.
  intros H.
  destruct c as [[] [] [] [] [] [] [] []];
    try (exfalso; apply H; reflexivity); reflexivity.
Qed.

Lemma string_of_uint_leading d :
  d <> Decimal.Nil ->
  exists c rest, NilEmpty.string_of_uint d = String c rest /\ Js.digitValue c <> None.
Proof.
  destruct d; [congruence| ..]; intros _;
    cbn [NilEmpty.string_of_uint]; eexists; eexists; (split; [reflexivity | discriminate]).
Qed.

(** Reading back a printed count, index or unit number gives the number. *)
Lemma parseInt_toString n : 0 <= n -> Js.parseInt (Some (Js.toString n)) = Some n.
Proof.
  intros Hn.
  destruct (toString_nonneg n Hn) as (d & Hd & -> & Hv).
  destruct (string_of_uint_leading d Hd) as (c & rest & E & Hc).
  rewrite E, (parseInt_leading_digit c rest Hc), <- E.
  now rewrite (digits_string_of_uint d None Hd), Hv.
Qed.

Lemma lacks_toString c n :
  0 <= n -> Js.digitValue c = None -> Reading.lacks c (Js.toString n) = true.
Proof.
  intros Hn Hc.
  destruct (toString_nonneg n Hn) as (d & _ & -> & _).
  now apply lacks_digits.
Qed.

Lemma index_of_nat {A : Type} (xs : list A) (i : nat) :
  Js.index xs (Some (Z.of_nat i)) = nth_error xs i.
Proof.
  unfold Js.index.
  destruct (Z.of_nat i <? 0) eqn:E; bool_to_Z; [lia|].
  now rewrite Nat2Z.id.
Qed.

(** ** [part_000]: the keys of the inspection screen *)

Lemma one_char_append c x : (String c "" ++ x)%string = String c x.
Proof. reflexivity. Qed.

Lemma split_unitSpecificKey location selectedUnit ci ii severity di :
  Reading.lacks "-" location = true ->
  Reading.lacks "-" severity = true ->
  Js.split "-" (unitSpecificKey location selectedUnit ci ii severity di)
  = [location; Js.toString (Z.of_nat ci); Js.toString (Z.of_nat ii); severity]
    ++ (if String.eqb location "inside"
        then Js.toString (Z.of_nat di) :: Js.split "-" (Js.toString selectedUnit)
        else [Js.toString (Z.of_nat di)]).
Proof.
  intros Hl Hs.
  assert (Hn : forall n : nat, Reading.lacks "-" (Js.toString (Z.of_nat n)) = true).
  { intros n. apply lacks_toString; [lia | reflexivity]. }
  unfold unitSpecificKey, baseKey.
  destruct (String.eqb location "inside");
    rewrite !append_assoc, !one_char_append;
    repeat (rewrite split_append by auto);
    [reflexivity | now rewrite split_lacks by auto].
Qed.

Lemma unitSpecificKey_parts location selectedUnit ci ii severity di :
  Reading.lacks "-" location = true ->
  Reading.lacks "-" severity = true ->
  let parts := Js.split "-" (unitSpecificKey location selectedUnit ci ii severity di) in
  nth_error parts 0 = Some location /\
  Js.parseInt (nth_error parts 1) = Some (Z.of_nat ci) /\
  Js.parseInt (nth_error parts 2) = Some (Z.of_nat ii) /\
  nth_error parts 3 = Some severity /\
  Js.parseInt (nth_error parts 4) = Some (Z.of_nat di).
Proof.
  intros Hl Hs parts. subst parts.
  rewrite (split_unitSpecificKey _ _ _ _ _ _ Hl Hs).
  cbn [app nth_error].
  repeat split; try (apply parseInt_toString; lia).
  destruct (String.eqb location "inside"); cbn [nth_error];
    apply parseInt_toString; lia.
Qed.

(** X1. A key made by the inspection screen reads back, part by part, as
    the tab, the category, item and defect positions, the severity tier and
    (inside a unit) the unit number it was made from. *)
Theorem unitSpecificKey_reads_back location selectedUnit ci ii severity di :
  Reading.lacks "-" location = true ->
  Reading.lacks "-" severity = true ->
  let parts := Js.split "-" (unitSpecificKey location selectedUnit ci ii severity di) in
  nth_error parts 0 = Some location /\
  Js.parseInt (nth_error parts 1) = Some (Z.of_nat ci) /\
  Js.parseInt (nth_error parts 2) = Some (Z.of_nat ii) /\
  nth_error parts 3 = Some severity /\
  Js.parseInt (nth_error parts 4) = Some (Z.of_nat di) /\
  (location = "inside"%string -> 0 <= selectedUnit ->
   Js.parseInt (nth_error parts 5) = Some selectedUnit) /\
  (location <> "inside"%string -> nth_error parts 5 = None).
Proof.
  intros Hl Hs parts.
  destruct (unitSpecificKey_parts location selectedUnit ci ii severity di Hl Hs)
    as (P0 & P1 & P2 & P3 & P4).
  repeat (split; [assumption|]).
  subst parts. rewrite (split_unitSpecificKey _ _ _ _ _ _ Hl Hs).
  cbn [app nth_error]. split.
  - intros -> Hu. rewrite String.eqb_refl. cbn [nth_error].
    rewrite split_lacks by (apply lacks_toString; [lia | reflexivity]).
    cbn [nth_error]. now apply parseInt_toString.
  - intros Hne. apply String.eqb_neq in Hne. now rewrite Hne.
Qed.

Lemma unitSpecificKey_reads_back_witness :
  Js.parseInt (nth_error (Js.split "-" (unitSpecificKey "inside" 3 0 9 "severe" 1)) 5)
  = Some 3.
Proof.
  apply (unitSpecificKey_reads_back "inside" 3 0 9 "severe" 1); try reflexivity. lia.
Defined.

(** X2. Every key the inspection screen makes for a defect it lists is
    resolved by the score to that very item and defect. *)
Theorem unitSpecificKey_resolves
  DEFECT_DATA activeTab selectedUnit ci ii severity di category item ds d :
  Reading.lacks "-" activeTab = true ->
  nth_error (dataOf DEFECT_DATA activeTab) ci = Some category ->
  nth_error (Catalog.items category) ii = Some item ->
  Catalog.tier (Catalog.defects item) (Some severity) = Some ds ->
  nth_error ds di = Some d ->
  lookup DEFECT_DATA (unitSpecificKey activeTab selectedUnit ci ii severity di)
  = Some (item, d).
Proof.
  intros Hl Hc Hi Ht Hd.
  assert (Hs : Reading.lacks "-" severity = true).
  { unfold Catalog.tier in Ht.
    destruct (String.eqb_spec severity "low") as [->|]; [reflexivity|].
    destruct (String.eqb_spec severity "moderate") as [->|]; [reflexivity|].
    destruct (String.eqb_spec severity "severe") as [->|]; [reflexivity|].
    discriminate. }
  destruct (unitSpecificKey_parts activeTab selectedUnit ci ii severity di Hl Hs)
    as (P0 & P1 & P2 & P3 & P4).
  unfold lookup. cbv zeta. rewrite P0, P1, P2, P3, P4.
  unfold dataOf in Hc. unfold isOutside.
  rewrite index_of_nat, Hc, index_of_nat, Hi, Ht, index_of_nat, Hd. reflexivity.
Qed.

Lemma unitSpecificKey_resolves_witness :
  option_map (fun p => (Catalog.name (fst p), Catalog.description (snd p)))
    (lookup Catalog.firstCategories (unitSpecificKey "inside" 2 0 9 "severe" 0))
  = Some ("Toilet", "Toilet missing")%string.
Proof.
  rewrite (unitSpecificKey_resolves Catalog.firstCategories "inside" 2 0 9 "severe" 0
             _ _ _ _ eq_refl eq_refl eq_refl eq_refl eq_refl).
  reflexivity.
Defined.

(** ** [part_000]: how the score follows the ledger *)

Section ScoreUnderUpdates.
Variable DEFECT_DATA : Catalog.DefectData.

Local Open Scope Q_scope.

Lemma visit_additive acc entry :
  Loop.outsideWeight (visit DEFECT_DATA acc entry)
    == Loop.outsideWeight acc + Loop.outsideWeight (visit DEFECT_DATA start entry) /\
  Loop.insideWeight (visit DEFECT_DATA acc entry)
    == Loop.insideWeight acc + Loop.insideWeight (visit DEFECT_DATA start entry).
Proof.
  destruct entry as [key count]. unfold visit.
  destruct (0 <? count)%Z; [|simpl; split; ring].
  destruct (lookup DEFECT_DATA key) as [[item d]|]; [|simpl; split; ring].
  destruct (isOutside (locationOf key)); simpl; split; ring.
Qed.

Lemma fold_additive entries :
  forall acc,
    Loop.outsideWeight (fold_left (visit DEFECT_DATA) entries acc)
      == Loop.outsideWeight acc
         + Loop.outsideWeight (fold_left (visit DEFECT_DATA) entries start) /\
    Loop.insideWeight (fold_left (visit DEFECT_DATA) entries acc)
      == Loop.insideWeight acc
         + Loop.insideWeight (fold_left (visit DEFECT_DATA) entries start).
Proof.
  induction entries as [|entry rest IH]; intros acc; simpl.
  - split; ring.
  - destruct (IH (visit DEFECT_DATA acc entry)) as [Ho Hi].
    destruct (IH (visit DEFECT_DATA start entry)) as [Ho' Hi'].
    destruct (visit_additive acc entry) as [Vo Vi].
    rewrite Ho, Hi, Ho', Hi', Vo, Vi. split; ring.
Qed.

(** Overwriting one count trades the points of the old count for the
    points of the new one. *)
Lemma tally_set ledger key v :
  Loop.outsideWeight (tally DEFECT_DATA (Js.set ledger key v))
    + Loop.outsideWeight (visit DEFECT_DATA start (key, Js.orZero (Js.get ledger key)))
  == Loop.outsideWeight (tally DEFECT_DATA ledger)
     + Loop.outsideWeight (visit DEFECT_DATA start (key, v)) /\
  Loop.insideWeight (tally DEFECT_DATA (Js.set ledger key v))
    + Loop.insideWeight (visit DEFECT_DATA start (key, Js.orZero (Js.get ledger key)))
  == Loop.insideWeight (tally DEFECT_DATA ledger)
     + Loop.insideWeight (visit DEFECT_DATA start (key, v)).
Proof.
  unfold tally, Js.entries.
  induction ledger as [|[k c] rest IH].
  - simpl. split; ring.
  - cbn [Js.set Js.get]. destruct (String.eqb k key) eqn:E.
    + apply String.eqb_eq in E. subst k. cbn [Js.orZero fold_left].
      destruct (fold_additive rest (visit DEFECT_DATA start (key, v))) as [A1 A2].
      destruct (fold_additive rest (visit DEFECT_DATA start (key, c))) as [B1 B2].
      rewrite A1, A2, B1, B2. split; ring.
    + cbn [fold_left].
      destruct (fold_additive (Js.set rest key v) (visit DEFECT_DATA start (k, c)))
        as [A1 A2].
      destruct (fold_additive rest (visit DEFECT_DATA start (k, c))) as [B1 B2].
      destruct IH as [I1 I2].
      rewrite A1, A2, B1, B2. split.
      * rewrite <- Qplus_assoc, I1. ring.
      * rewrite <- Qplus_assoc, I2. ring.
Qed.

Lemma visit_start_resolved key count item d :
  lookup DEFECT_DATA key = Some (item, d) -> (0 <= count)%Z ->
  Loop.outsideWeight (visit DEFECT_DATA start (key, count))
    == (if isOutside (locationOf key) then Catalog.weight d * inject_Z count else 0) /\
  Loop.insideWeight (visit DEFECT_DATA start (key, count))
    == (if isOutside (locationOf key) then 0 else Catalog.weight d * inject_Z count).
Proof.
  intros L Hc. unfold visit. rewrite L.
  destruct (0 <? count)%Z eqn:P; bool_to_Z.
  - destruct (isOutside (locationOf key)); simpl; split; ring.
  - assert (count = 0%Z) by lia. subst count.
    destruct (isOutside (locationOf key)); simpl; split; ring.
Qed.

(** What a change of one count does to the two totals. *)
Lemma totals_after_update st key change item d :
  lookup DEFECT_DATA key = Some (item, d) ->
  (0 <= countAt st key)%Z ->
  let st' := updateDefectCount key change st in
  let gain := Catalog.weight d * inject_Z (countAt st' key - countAt st key) in
  outsideWeight DEFECT_DATA (defectCounts st')
    == outsideWeight DEFECT_DATA (defectCounts st)
       + (if isOutside (locationOf key) then gain else 0) /\
  insideWeight DEFECT_DATA (defectCounts st')
    == insideWeight DEFECT_DATA (defectCounts st)
       + (if isOutside (locationOf key) then 0 else gain).
Proof.
  intros L Hc st' gain. subst st' gain.
  rewrite countAt_updateDefectCount, updateDefectCount_counts.
  unfold outsideWeight, insideWeight.
  set (n := Z.max 0 (countAt st key + change)).
  destruct (tally_set (defectCounts st) key n) as [To Ti].
  fold (countAt st key) in To, Ti.
  destruct (visit_start_resolved key n item d L ltac:(subst n; lia)) as [No Ni].
  destruct (visit_start_resolved key (countAt st key) item d L Hc) as [Oo Oi].
  rewrite No, Oo in To. rewrite Ni, Oi in Ti.
  unfold Zminus. rewrite inject_Z_plus, inject_Z_opp.
  destruct (isOutside (locationOf key)); split.
  - apply (Qplus_inj_r _ _ (Catalog.weight d * inject_Z (countAt st key))).
    rewrite To. ring.
  - apply (Qplus_inj_r _ _ 0). rewrite Ti. ring.
  - apply (Qplus_inj_r _ _ 0). rewrite To. ring.
  - apply (Qplus_inj_r _ _ (Catalog.weight d * inject_Z (countAt st key))).
    rewrite Ti. ring.
Qed.

End ScoreUnderUpdates.

Lemma positiveOr1_pos n : 1 <= positiveOr1 n.
Proof.
  unfold positiveOr1. destruct n as [z|]; [|lia].
  destruct (0 <? z) eqn:E; bool_to_Z; lia.
Qed.

(** The extrapolation is a non-negative multiple of the unit total. *)
Lemma unitWeight_factor DEFECT_DATA units sample :
  exists f, (0 <= f)%Q /\
    forall ledger',
      (unitWeight DEFECT_DATA ledger' units sample
       == insideWeight DEFECT_DATA ledger' * f)%Q.
Proof.
  exists (/ inject_Z (positiveOr1 (Some sample))
          * inject_Z (positiveOr1 (numUnits units)))%Q.
  split.
  - apply Qmult_le_0_compat.
    + apply Qinv_le_0_compat. change 0%Q with (inject_Z 0). rewrite <- Zle_Qle.
      pose proof (positiveOr1_pos (Some sample)). lia.
    + change 0%Q with (inject_Z 0). rewrite <- Zle_Qle.
      pose proof (positiveOr1_pos (numUnits units)). lia.
  - intros ledger'. unfold unitWeight, Qdiv. ring.
Qed.

(** X4. The final score never rises when sightings of a defect of
    non-negative weight are added, and never falls when they are taken
    back. *)
Theorem finalScore_monotone DEFECT_DATA st key change item d units sample :
  lookup DEFECT_DATA key = Some (item, d) ->
  (0 <= Catalog.weight d)%Q ->
  0 <= countAt st key ->
  let before := finalScoreValue DEFECT_DATA (defectCounts st) units sample in
  let after :=
    finalScoreValue DEFECT_DATA (defectCounts (updateDefectCount key change st))
                    units sample in
  (0 <= change -> (after <= before)%Q) /\ (change <= 0 -> (before <= after)%Q).
Proof.
  intros L Hw Hc before after. subst before after.
  pose proof (totals_after_update DEFECT_DATA st key change item d L Hc) as [To Ti].
  cbv zeta in To, Ti. rewrite countAt_updateDefectCount in To, Ti.
  destruct (unitWeight_factor DEFECT_DATA units sample)
    as (f & Hf & Hu).
  unfold finalScoreValue, totalDeductions.
  rewrite (Hu (defectCounts st)), (Hu (defectCounts (updateDefectCount key change st))).
  rewrite To, Ti.
  set (g := (Catalog.weight d
             * inject_Z (Z.max 0 (countAt st key + change) - countAt st key))%Q).
  set (ow := outsideWeight DEFECT_DATA (defectCounts st)).
  set (iw := insideWeight DEFECT_DATA (defectCounts st)).
  split; intros Hch.
  - assert (Hg : (0 <= g)%Q).
    { apply Qmult_le_0_compat; [assumption|].
      change 0%Q with (inject_Z 0). rewrite <- Zle_Qle. lia. }
    assert (Hgf : (0 <= g * f)%Q) by now apply Qmult_le_0_compat.
    apply Q.max_le_compat_l.
    destruct (isOutside (locationOf key)); nra.
  - assert (Hg : (0 <= - g)%Q).
    { unfold g. setoid_replace
        (- (Catalog.weight d
            * inject_Z (Z.max 0 (countAt st key + change) - countAt st key)))%Q
        with (Catalog.weight d
              * inject_Z (countAt st key - Z.max 0 (countAt st key + change)))%Q.
      - apply Qmult_le_0_compat; [assumption|].
        change 0%Q with (inject_Z 0). rewrite <- Zle_Qle. lia.
      - unfold Zminus. rewrite !inject_Z_plus, !inject_Z_opp. ring. }
    assert (Hgf : (0 <= (- g) * f)%Q) by now apply Qmult_le_0_compat.
    apply Q.max_le_compat_l.
    destruct (isOutside (locationOf key)); nra.
Qed.

Lemma finalScore_monotone_witness :
  (finalScoreValue Catalog.firstCategories
     (defectCounts (updateDefectCount (unitSpecificKey "outside" 1 0 0 "low" 0) 2 emptyState))
     "100" 14
   <= finalScoreValue Catalog.firstCategories (defectCounts emptyState) "100" 14)%Q.
Proof.
  apply (proj1 (finalScore_monotone Catalog.firstCategories emptyState
                  (unitSpecificKey "outside" 1 0 0 "low" 0) 2 _ _ "100"%string 14
                  eq_refl ltac:(vm_compute; discriminate) ltac:(vm_compute; discriminate))).
  lia.
Defined.

Section MoreObjectFacts.
Context {V : Type}.
Implicit Types (o : Js.object V) (k : string) (v : V).

Lemma set_set o k v v' : Js.set (Js.set o k v) k v' = Js.set o k v'.
Proof.
  induction o as [|[k0 v0] rest IH]; simpl.
  - now rewrite String.eqb_refl.
  - destruct (String.eqb k0 k) eqn:E; simpl; rewrite E; [reflexivity | now rewrite IH].
Qed.

Lemma set_get_same o k v : Js.get o k = Some v -> Js.set o k v = o.
Proof.
  induction o as [|[k0 v0] rest IH]; simpl; [discriminate|].
  destruct (String.eqb k0 k).
  - now intros [= ->].
  - intros H. now rewrite IH.
Qed.

Lemma set_absent o k v : Js.get o k = None -> Js.set o k v = o ++ [(k, v)].
Proof.
  induction o as [|[k0 v0] rest IH]; simpl; [reflexivity|].
  destruct (String.eqb k0 k); [discriminate|].
  intros H. now rewrite IH.
Qed.

Lemma get_delete_same o k : Js.get (Js.delete o k) k = None.
Proof.
  unfold Js.delete.
  induction o as [|[k0 v0] rest IH]; simpl; [reflexivity|].
  destruct (String.eqb k0 k) eqn:E; simpl; [assumption|].
  now rewrite E.
Qed.

Lemma get_delete_other o k k' : k' <> k -> Js.get (Js.delete o k) k' = Js.get o k'.
Proof.
  intros Hne. unfold Js.delete.
  induction o as [|[k0 v0] rest IH]; simpl; [reflexivity|].
  destruct (String.eqb k0 k) eqn:E; simpl.
  - apply String.eqb_eq in E. subst k0.
    destruct (String.eqb k k') eqn:E'; [|assumption].
    apply String.eqb_eq in E'. congruence.
  - destruct (String.eqb k0 k'); [reflexivity | assumption].
Qed.

Lemma In_set o k v k' v' :
  In (k', v') (Js.set o k v) -> (k' = k /\ v' = v) \/ In (k', v') o.
Proof.
  induction o as [|[k0 v0] rest IH]; simpl.
  - intros [[= <- <-]|[]]. now left.
  - destruct (String.eqb k0 k) eqn:E; simpl.
    + apply String.eqb_eq in E. subst k0.
      intros [[= <- <-]|H]; [now left | now right; right].
    + intros [H|H]; [now right; left|].
      destruct (IH H) as [?|?]; [now left | now right; right].
Qed.

Lemma In_delete o k k' v' : In (k', v') (Js.delete o k) -> In (k', v') o.
Proof. unfold Js.delete. intros H. now apply filter_In in H. Qed.

End MoreObjectFacts.

(** X5. A tap on "+" taken back by a tap on "-" leaves the score exactly
    as it was: every field of the score of the resulting state equals the
    one before, whether or not the key was in the ledger. *)
Theorem mis_tap_undone DEFECT_DATA st key :
  0 <= countAt st key ->
  scoreIn DEFECT_DATA (updateDefectCount key (-1) (updateDefectCount key 1 st))
  = scoreIn DEFECT_DATA st.
Proof.
  intros Hc.
  assert (T : tally DEFECT_DATA
                (defectCounts (updateDefectCount key (-1) (updateDefectCount key 1 st)))
              = tally DEFECT_DATA (defectCounts st)).
  { rewrite updateDefectCount_counts, countAt_updateDefectCount, updateDefectCount_counts.
    rewrite set_set.
    replace (Z.max 0 (Z.max 0 (countAt st key + 1) + -1)) with (countAt st key) by lia.
    unfold countAt in *.
    destruct (Js.get (defectCounts st) key) as [c|] eqn:G; cbn [Js.orZero] in *.
    - now rewrite (set_get_same _ _ _ G).
    - rewrite (set_absent _ _ _ G). unfold tally, Js.entries.
      rewrite fold_left_app. reflexivity. }
  unfold scoreIn, score, finalScoreValue, insideScoreVal, totalDeductions, unitWeight,
    outsideWeight, insideWeight.
  rewrite T. reflexivity.
Qed.

Lemma mis_tap_undone_witness :
  scoreIn Catalog.firstCategories
    (updateDefectCount "inside-0-9-severe-0-1" (-1)
       (updateDefectCount "inside-0-9-severe-0-1" 1 emptyState))
  = scoreIn Catalog.firstCategories emptyState.
Proof.
  apply (mis_tap_undone Catalog.firstCategories emptyState "inside-0-9-severe-0-1").
  vm_compute. discriminate.
Defined.

Lemma visit_nonneg DEFECT_DATA acc key count :
  (forall item d, lookup DEFECT_DATA key = Some (item, d) -> (0 <= Catalog.weight d)%Q) ->
  (0 <= Loop.outsideWeight acc)%Q -> (0 <= Loop.insideWeight acc)%Q ->
  (0 <= Loop.outsideWeight (visit DEFECT_DATA acc (key, count)))%Q /\
  (0 <= Loop.insideWeight (visit DEFECT_DATA acc (key, count)))%Q.
Proof.
  intros Hw Ho Hi. unfold visit.
  destruct (0 <? count) eqn:P; bool_to_Z; [|now split].
  destruct (lookup DEFECT_DATA key) as [[item d]|] eqn:L; [|now split].
  assert (Hp : (0 <= Catalog.weight d * inject_Z count)%Q).
  { apply Qmult_le_0_compat; [now apply (Hw item d)|].
    change 0%Q with (inject_Z 0). rewrite <- Zle_Qle. lia. }
  destruct (isOutside (locationOf key)); simpl; split; lra.
Qed.

Lemma tally_nonneg DEFECT_DATA entries :
  (forall key count item d,
     In (key, count) entries -> lookup DEFECT_DATA key = Some (item, d) ->
     (0 <= Catalog.weight d)%Q) ->
  forall acc,
    (0 <= Loop.outsideWeight acc)%Q -> (0 <= Loop.insideWeight acc)%Q ->
    (0 <= Loop.outsideWeight (fold_left (visit DEFECT_DATA) entries acc))%Q /\
    (0 <= Loop.insideWeight (fold_left (visit DEFECT_DATA) entries acc))%Q.
Proof.
  induction entries as [|[key count] rest IH]; intros Hw acc Ho Hi; simpl.
  - now split.
  - destruct (visit_nonneg DEFECT_DATA acc key count) as [Vo Vi]; auto.
    { intros item d. apply (Hw key count). now left. }
    apply IH; auto.
    intros k c item d Hin. apply (Hw k c). now right.
Qed.

(** X6. When the defects recorded in the ledger have non-negative weights,
    the final score, the outside score and the inside score all lie between
    0 and 100, whatever the counts, the unit total and the sample size. *)
Theorem scores_within_0_100 DEFECT_DATA ledger units sample :
  (forall key count item d,
     In (key, count) (Js.entries ledger) ->
     lookup DEFECT_DATA key = Some (item, d) -> (0 <= Catalog.weight d)%Q) ->
  (0 <= finalScoreValue DEFECT_DATA ledger units sample <= 100)%Q /\
  (0 <= insideScoreVal DEFECT_DATA ledger units sample <= 100)%Q /\
  (0 <= Qmax 0 (100 - outsideWeight DEFECT_DATA ledger) <= 100)%Q.
Proof.
  intros Hw.
  destruct (tally_nonneg DEFECT_DATA (Js.entries ledger) Hw start) as [Ho Hi];
    [discriminate | discriminate |].
  fold (tally DEFECT_DATA ledger) in Ho, Hi.
  fold (outsideWeight DEFECT_DATA ledger) in Ho.
  fold (insideWeight DEFECT_DATA ledger) in Hi.
  destruct (unitWeight_factor DEFECT_DATA units sample) as (f & Hf & Hu).
  assert (Huw : (0 <= unitWeight DEFECT_DATA ledger units sample)%Q).
  { rewrite Hu. now apply Qmult_le_0_compat. }
  unfold finalScoreValue, insideScoreVal, totalDeductions.
  repeat split; try apply Q.le_max_l; apply Q.max_lub; lra.
Qed.

Lemma scores_within_0_100_witness :
  (0 <= finalScoreValue Catalog.firstCategories
          [("inside-0-9-severe-0-1"%string, 500%Z)] "100" 10%Z <= 100)%Q.
Proof.
  apply (scores_within_0_100 Catalog.firstCategories
           [("inside-0-9-severe-0-1"%string, 500)] "100"%string 10).
  intros key count item d [[= <- <-]|[]] [= <- <-]. vm_compute. discriminate.
Defined.

(** ** [part_000]: setting up an inspection *)

Lemma unitOptions_spec sampleSize u :
  In u (unitOptions sampleSize) <-> 1 <= u <= sampleSize.
Proof.
  unfold unitOptions. rewrite in_map_iff. split.
  - intros (i & <- & Hi). apply in_seq in Hi. lia.
  - intros Hu. exists (Z.to_nat (u - 1)). split; [lia|].
    apply in_seq. lia.
Qed.

(** X7. Typing the number of units sets the sample size to 0 unless the
    text starts with a positive whole number [n]; then the sample size lies
    between 1 and [n], and the units offered for inspection are exactly
    1 to the sample size.  The ledger and the notes are not touched. *)
Theorem handleTotalUnitsChange_sample value st :
  let st' := handleTotalUnitsChange value st in
  totalUnits st' = value /\
  defectCounts st' = defectCounts st /\ notes st' = notes st /\
  (forall n, Js.parseInt (Some value) = Some n -> 0 < n ->
     sampleSize st' = calculateSampleSize n /\ 1 <= sampleSize st' <= n /\
     forall u, In u (unitOptions (sampleSize st')) <-> 1 <= u <= sampleSize st') /\
  ((forall n, Js.parseInt (Some value) = Some n -> n <= 0) ->
     sampleSize st' = 0 /\ unitOptions (sampleSize st') = []).
Proof.
  unfold handleTotalUnitsChange.
  destruct (Js.parseInt (Some value)) as [n|] eqn:P.
  - destruct (0 <? n) eqn:E; bool_to_Z; cbn;
      (split; [reflexivity|]); (split; [reflexivity|]); (split; [reflexivity|]); split.
    + intros m [= <-] _. split; [reflexivity|].
      split; [apply TechSpector_sample_bounds; lia | intros u; apply unitOptions_spec].
    + intros H. specialize (H n eq_refl). lia.
    + intros m [= <-] Hm. lia.
    + intros _. split; reflexivity.
  - cbn. (split; [reflexivity|]); (split; [reflexivity|]); (split; [reflexivity|]); split.
    + intros m [=].
    + intros _. split; reflexivity.
Qed.

Lemma handleTotalUnitsChange_sample_witness :
  sampleSize (handleTotalUnitsChange "100" emptyState) = 14 /\
  sampleSize (handleTotalUnitsChange "none" emptyState) = 0.
Proof.
  destruct (handleTotalUnitsChange_sample "100" emptyState) as (_ & _ & _ & H & _).
  destruct (handleTotalUnitsChange_sample "none" emptyState) as (_ & _ & _ & _ & H').
  split.
  - destruct (H 100 eq_refl ltac:(lia)) as (-> & _). reflexivity.
  - apply H'. intros n [=].
Defined.

Lemma score_of_empty_ledger DEFECT_DATA units sample :
  score DEFECT_DATA [] units sample =
  {| outsideScore := "100.00"; insideScore := "100.00"; finalScore := "100.00";
     failing := false; lifeThreateningDefects := [] |}.
Proof.
  assert (U : (unitWeight DEFECT_DATA [] units sample == 0)%Q).
  { unfold unitWeight, insideWeight, tally, Qdiv. simpl. ring. }
  assert (F : (finalScoreValue DEFECT_DATA [] units sample == 100)%Q).
  { unfold finalScoreValue, totalDeductions. rewrite U.
    unfold outsideWeight, tally. simpl. reflexivity. }
  assert (I : (insideScoreVal DEFECT_DATA [] units sample == 100)%Q).
  { unfold insideScoreVal. rewrite U. reflexivity. }
  unfold score. f_equal.
  - rewrite (toFixed_comp 2 _ 100%Q I). reflexivity.
  - rewrite (toFixed_comp 2 _ 100%Q F). reflexivity.
  - rewrite (Qltb_comp _ 100%Q 60%Q 60%Q F (Qeq_refl 60%Q)).
    rewrite (Qleb_comp 30%Q 30%Q (Qeq_refl 30%Q) _ 0%Q U).
    reflexivity.
Qed.

(** X8. "Start Inspection" goes ahead only when the number of units typed
    starts with a positive whole number; it then opens the inspection with
    an empty ledger and no notes, which scores 100.00 on all three scores
    and passes.  Otherwise nothing changes. *)
Theorem startInspection_fresh DEFECT_DATA v :
  let v' := startInspection v in
  (forall n, Js.parseInt (Some (totalUnits (state v))) = Some n -> 0 < n ->
     screen v' = "inspection"%string /\
     defectCounts (state v') = [] /\ notes (state v') = [] /\
     totalUnits (state v') = totalUnits (state v) /\
     sampleSize (state v') = sampleSize (state v) /\
     scoreIn DEFECT_DATA (state v') =
     {| outsideScore := "100.00"; insideScore := "100.00"; finalScore := "100.00";
        failing := false; lifeThreateningDefects := [] |}) /\
  ((forall n, Js.parseInt (Some (totalUnits (state v))) = Some n -> n <= 0) -> v' = v).
Proof.
  unfold startInspection.
  destruct (Js.parseInt (Some (totalUnits (state v)))) as [n|] eqn:P.
  - destruct (0 <? n) eqn:E; bool_to_Z; cbn; split.
    + intros m _ _. repeat (split; [reflexivity|]).
      unfold scoreIn. cbn. apply score_of_empty_ledger.
    + intros H. specialize (H n eq_refl). lia.
    + intros m [= <-] Hm. lia.
    + reflexivity.
  - cbn. split; [intros m [=] | reflexivity].
Qed.

Lemma startInspection_fresh_witness :
  failing (scoreIn Catalog.firstCategories
             (state (startInspection
                       {| screen := "setup"; lastSaved := Some "10:15:00"%string;
                          state := updateDefectCount "inside-0-9-severe-0-1" 1
                                     (handleTotalUnitsChange "40" emptyState) |})))
  = false.
Proof.
  destruct (startInspection_fresh Catalog.firstCategories
              {| screen := "setup"; lastSaved := Some "10:15:00"%string;
                 state := updateDefectCount "inside-0-9-severe-0-1" 1
                            (handleTotalUnitsChange "40" emptyState) |}) as [H _].
  destruct (H 40 eq_refl ltac:(lia)) as (_ & _ & _ & _ & _ & ->). reflexivity.
Defined.

(** ** [part_000]: the list of recorded defects *)

Section CollectedDefects.
Variable DEFECT_DATA : Catalog.DefectData.
Variable notes' : Notes.

(** Where the list is built, the row carries what the score resolved. *)
Lemma collect_lookup key count row :
  collect DEFECT_DATA notes' key count = Js.Normal row ->
  Row.defect row = option_map snd (lookup DEFECT_DATA key) /\
  (forall item d, lookup DEFECT_DATA key = Some (item, d) ->
                  Row.itemName row = Catalog.name item) /\
  Row.count row = count /\
  Row.note row = noteText notes' key.
Proof.
  unfold collect, lookup. cbv zeta.
  destruct (Js.index _ (Js.parseInt (nth_error (Js.split "-" key) 1)))
    as [category|]; [|discriminate].
  cbn [Js.deref Js.bind].
  destruct (Js.index (Catalog.items category) _) as [item|]; [|discriminate].
  cbn [Js.deref Js.bind].
  destruct (Catalog.tier (Catalog.defects item) _) as [ds|]; [|discriminate].
  cbn [Js.deref Js.bind].
  intros [= <-]. cbn.
  destruct (Js.index ds _) as [d|]; cbn; repeat split; auto.
  - now intros item' d' [= <- <-].
  - discriminate.
Qed.

Lemma collect_resolved key count item d :
  lookup DEFECT_DATA key = Some (item, d) ->
  exists row, collect DEFECT_DATA notes' key count = Js.Normal row.
Proof.
  unfold collect, lookup. cbv zeta.
  destruct (Js.index _ (Js.parseInt (nth_error (Js.split "-" key) 1)))
    as [category|]; [|discriminate].
  cbn [Js.deref Js.bind].
  destruct (Js.index (Catalog.items category) _) as [item'|]; [|discriminate].
  cbn [Js.deref Js.bind].
  destruct (Catalog.tier (Catalog.defects item') _) as [ds|]; [|discriminate].
  intros _. cbn [Js.deref Js.bind]. eexists. reflexivity.
Qed.

Lemma collectFrom_acc entries acc :
  collectFrom DEFECT_DATA notes' entries acc
  = Js.bind (collectFrom DEFECT_DATA notes' entries [])
            (fun fresh => Js.Normal (acc ++ fresh)).
Proof.
  revert acc.
  induction entries as [|[key count] rest IH]; intros acc; cbn [collectFrom].
  - cbn. now rewrite app_nil_r.
  - destruct (0 <? count); [|apply IH].
    destruct (collect DEFECT_DATA notes' key count) as [row|name]; cbn [Js.bind];
      [|reflexivity].
    rewrite (IH (acc ++ [row])), (IH ([] ++ [row])).
    destruct (collectFrom DEFECT_DATA notes' rest []) as [fresh|name]; cbn;
      [now rewrite <- app_assoc | reflexivity].
Qed.

End CollectedDefects.

(** X10. When every key of the ledger with a positive count resolves in
    the catalog, the list of recorded defects is built without error, has
    one row per such entry in the order of the ledger, and each row carries
    the entry's count, the defect and item the score resolved, and the text
    of the note kept under the same key. *)
Theorem collectedDefects_complete DEFECT_DATA ledger notes' :
  (forall key count,
     In (key, count) (Js.entries ledger) -> 0 < count ->
     lookup DEFECT_DATA key <> None) ->
  exists rows,
    collectedDefects DEFECT_DATA ledger notes' = Js.Normal rows /\
    Forall2
      (fun row entry =>
         Row.count row = snd entry /\
         Row.note row = noteText notes' (fst entry) /\
         exists item d,
           lookup DEFECT_DATA (fst entry) = Some (item, d) /\
           Row.defect row = Some d /\ Row.itemName row = Catalog.name item)
      rows (filter (fun entry => 0 <? snd entry) (Js.entries ledger)).
Proof.
  unfold collectedDefects, Js.entries.
  induction ledger as [|[key count] rest IH]; intros Hr; cbn [collectFrom filter snd].
  - exists []. split; [reflexivity | constructor].
  - destruct IH as (rows & Hrows & HF).
    { intros k c Hin. apply Hr. now right. }
    destruct (0 <? count) eqn:P; bool_to_Z.
    + destruct (lookup DEFECT_DATA key) as [[item d]|] eqn:L;
        [|exfalso; apply (Hr key count); [now left | assumption | assumption]].
      destruct (collect_resolved DEFECT_DATA notes' key count item d L) as (row & C).
      destruct (collect_lookup DEFECT_DATA notes' key count row C) as (Hd & Hn & Hc & Ht).
      rewrite C. cbn [Js.bind]. rewrite collectFrom_acc, Hrows. cbn.
      exists (row :: rows). split; [reflexivity|].
      constructor; [|assumption].
      cbn. repeat split; auto.
      exists item, d. rewrite L in Hd. repeat split; auto.
      now apply (Hn item d).
    + exists rows. split; assumption.
Qed.

Lemma collectedDefects_complete_witness :
  exists rows,
    collectedDefects Catalog.firstCategories
      [("outside-0-1-moderate-0"%string, 2); ("inside-0-9-severe-0-3"%string, 1)]
      (notes (updateNoteText "inside-0-9-severe-0-3" "removed by tenant" emptyState))
    = Js.Normal rows /\
    map Row.note rows = [""; "removed by tenant"]%string.
Proof.
  destruct (collectedDefects_complete Catalog.firstCategories
              [("outside-0-1-moderate-0"%string, 2); ("inside-0-9-severe-0-3"%string, 1)]
              (notes (updateNoteText "inside-0-9-severe-0-3" "removed by tenant"
                        emptyState)))
    as (rows & H & HF).
  - intros key count [[= <- <-]|[[= <- <-]|[]]] _; vm_compute; discriminate.
  - exists rows. split; [exact H|].
    vm_compute in H. injection H as <-. reflexivity.
Defined.

(** ** [part_000]: notes, photos and the saved draft *)

Lemma get_In_keys {V : Type} (o : Js.object V) k v :
  Js.get o k = Some v -> In k (Js.keys o).
Proof.
  unfold Js.keys.
  induction o as [|[k0 v0] rest IH]; simpl; [discriminate|].
  destruct (String.eqb k0 k) eqn:E.
  - apply String.eqb_eq in E. now left.
  - intros H. right. now apply IH.
Qed.

Section NotesToSave.
Variable notes' : Notes.

Let keep (acc : Notes) (key : string) : Notes :=
  match Js.get notes' key with
  | Some n => if String.eqb (text n) "" then acc else Js.set acc key (textOnly (text n))
  | None => acc
  end.

Lemma keep_other acc key k : k <> key -> Js.get (keep acc key) k = Js.get acc k.
Proof.
  intros Hne. unfold keep.
  destruct (Js.get notes' key) as [n|]; [|reflexivity].
  destruct (String.eqb (text n) ""); [reflexivity | now apply get_set_other].
Qed.

Lemma kept_nothing ks k :
  noteText notes' k = ""%string ->
  forall acc, Js.get (fold_left keep ks acc) k = Js.get acc k.
Proof.
  intros Hk. induction ks as [|key rest IH]; intros acc; simpl; [reflexivity|].
  rewrite IH. destruct (string_dec k key) as [->|Hne]; [|now apply keep_other].
  unfold keep. unfold noteText in Hk.
  destruct (Js.get notes' key) as [n|]; [|reflexivity].
  rewrite Hk. reflexivity.
Qed.

Lemma kept_absent ks k :
  ~ In k ks -> forall acc, Js.get (fold_left keep ks acc) k = Js.get acc k.
Proof.
  induction ks as [|key rest IH]; intros Hin acc; simpl; [reflexivity|].
  rewrite IH by (simpl in Hin; tauto).
  apply keep_other. simpl in Hin. intros ->. tauto.
Qed.

Lemma kept_text ks k n :
  In k ks -> Js.get notes' k = Some n -> text n <> ""%string ->
  forall acc, Js.get (fold_left keep ks acc) k = Some (textOnly (text n)).
Proof.
  intros Hin Hg Ht.
  induction ks as [|key rest IH]; intros acc; simpl; [contradiction|].
  destruct (in_dec string_dec k rest) as [Hr|Hr]; [now apply IH|].
  rewrite (kept_absent rest k Hr).
  destruct Hin as [->|Hin]; [|contradiction].
  unfold keep. rewrite Hg.
  apply String.eqb_neq in Ht. rewrite Ht. apply get_set_same.
Qed.

Lemma noteText_notesToSave k : noteText (notesToSave notes') k = noteText notes' k.
Proof.
  unfold notesToSave. change (fun acc key => _) with keep.
  destruct (string_dec (noteText notes' k) "") as [E|E].
  - unfold noteText at 1. rewrite (kept_nothing _ k E). simpl. now rewrite E.
  - unfold noteText in *.
    destruct (Js.get notes' k) as [n|] eqn:G; [|congruence].
    rewrite (kept_text (Js.keys notes') k n (get_In_keys _ _ _ G) G E). reflexivity.
Qed.

(** Only texts are saved: a saved note has some text and no recording or
    photo. *)
Lemma saved_notes_text_only ks :
  forall acc,
    Forall (fun entry => snd entry = textOnly (text (snd entry))
                         /\ text (snd entry) <> ""%string) acc ->
    Forall (fun entry => snd entry = textOnly (text (snd entry))
                         /\ text (snd entry) <> ""%string) (fold_left keep ks acc).
Proof.
  induction ks as [|key rest IH]; intros acc Hacc; simpl; [assumption|].
  apply IH. unfold keep.
  destruct (Js.get notes' key) as [n|]; [|assumption].
  destruct (String.eqb (text n) "") eqn:E; [assumption|].
  apply String.eqb_neq in E.
  apply Forall_forall. intros [k v] Hin.
  destruct (In_set _ _ _ _ _ Hin) as [[-> ->]|Hold].
  - now split.
  - rewrite Forall_forall in Hacc. apply (Hacc (k, v) Hold).
Qed.

End NotesToSave.

Lemma collectedDefects_notes DEFECT_DATA ledger notes1 notes2 :
  (forall key, noteText notes1 key = noteText notes2 key) ->
  collectedDefects DEFECT_DATA ledger notes1 = collectedDefects DEFECT_DATA ledger notes2.
Proof.
  intros H. unfold collectedDefects.
  generalize (@nil Row.t) as acc.
  induction (Js.entries ledger) as [|[key count] rest IH]; intros acc; cbn [collectFrom].
  - reflexivity.
  - assert (C : collect DEFECT_DATA notes1 key count = collect DEFECT_DATA notes2 key count).
    { unfold collect. fold (noteText notes1 key). fold (noteText notes2 key).
      now rewrite H. }
    rewrite C. destruct (0 <? count); [|apply IH].
    destruct (collect DEFECT_DATA notes2 key count); cbn [Js.bind]; [apply IH | reflexivity].
Qed.

(** X11. Taking back a saved draft brings back the inspection as far as
    results go: the score is the same in every field, the note text read
    under any key is the same, and so is the list of recorded defects.
    Recordings and photos are not part of the draft: every saved note holds
    a non-empty text and nothing else. *)
Theorem draft_round_trip DEFECT_DATA st other :
  let st' := restore (draftOf st) other in
  scoreIn DEFECT_DATA st' = scoreIn DEFECT_DATA st /\
  (forall key, noteText (notes st') key = noteText (notes st) key) /\
  collectedDefects DEFECT_DATA (defectCounts st') (notes st')
  = collectedDefects DEFECT_DATA (defectCounts st) (notes st) /\
  Forall (fun entry => snd entry = textOnly (text (snd entry))
                       /\ text (snd entry) <> ""%string) (notes st').
Proof.
  cbn. split; [reflexivity|]. split; [apply noteText_notesToSave|]. split.
  - apply collectedDefects_notes, noteText_notesToSave.
  - unfold notesToSave. apply (saved_notes_text_only (notes st)). constructor.
Qed.

(** X12. A photo attached to a defect and removed again leaves the note as
    it read before: same text, same recording, no photo; the notes of other
    keys and the ledger are untouched.  Removing a photo where there is no
    note changes nothing. *)
Theorem photo_round_trip key file url st :
  let st' := removePhoto key (handlePhotoUpload key file url st) in
  (exists n, Js.get (notes st') key = Some n /\
             text n = noteText (notes st) key /\
             photo n = None /\ photoURL n = None /\
             audio n = match Js.get (notes st) key with Some o => audio o | None => None end /\
             audioURL n = match Js.get (notes st) key with
                          | Some o => audioURL o | None => None end) /\
  (forall other, other <> key ->
     Js.get (notes st') other = Js.get (notes st) other) /\
  defectCounts st' = defectCounts st /\
  (Js.get (notes st) key = None -> removePhoto key st = st).
Proof.
  cbn. rewrite get_set_same, set_set. repeat split.
  - eexists. rewrite get_set_same. repeat split.
  - intros other Hne. now apply get_set_other.
  - intros G. unfold removePhoto, setNotes. rewrite G. now destruct st.
Qed.

Lemma photo_round_trip_witness :
  removePhoto "outside-0-0-low-0" emptyState = emptyState /\
  Js.get (notes (removePhoto "outside-0-0-low-0"
                   (handlePhotoUpload "outside-0-0-low-0" "IMG_0042.jpg" "blob:42"
                      (updateNoteText "outside-0-1-low-0" "culvert" emptyState))))
         "outside-0-1-low-0"
  = Js.get (notes (updateNoteText "outside-0-1-low-0" "culvert" emptyState))
           "outside-0-1-low-0".
Proof.
  split.
  - apply (photo_round_trip "outside-0-0-low-0" "" "" emptyState). reflexivity.
  - apply (photo_round_trip "outside-0-0-low-0" "IMG_0042.jpg" "blob:42"
             (updateNoteText "outside-0-1-low-0" "culvert" emptyState)).
    discriminate.
Defined.

(** ** [part_000]: the severity filter of the report *)

Lemma includes_In xs s : Js.includes xs s = true <-> In s xs.
Proof.
  unfold Js.includes. rewrite existsb_exists. split.
  - intros (x & Hx & E). apply String.eqb_eq in E. now subst.
  - intros H. exists s. split; [assumption | apply String.eqb_refl].
Qed.

(** X13. A tap on a severity filter flips that filter and no other: the
    severity is active afterwards exactly if it was not before, every other
    severity stays as it was, and a list of filters without repetition stays
    without repetition. *)
Theorem handleFilterToggle_flips severity prev :
  Js.includes (handleFilterToggle severity prev) severity
  = negb (Js.includes prev severity) /\
  (forall other, other <> severity ->
     Js.includes (handleFilterToggle severity prev) other = Js.includes prev other) /\
  (NoDup prev -> NoDup (handleFilterToggle severity prev)).
Proof.
  unfold handleFilterToggle.
  destruct (Js.includes prev severity) eqn:I; cbn [negb].
  - split; [|split].
    + apply not_true_iff_false. rewrite includes_In, filter_In.
      intros [_ H]. now rewrite String.eqb_refl in H.
    + intros other Hne. apply eq_true_iff_eq. rewrite !includes_In, filter_In.
      split; [tauto|]. intros H. split; [assumption|].
      apply negb_true_iff, String.eqb_neq. assumption.
    + apply NoDup_filter.
  - apply not_true_iff_false in I. rewrite includes_In in I. split; [|split].
    + apply includes_In, in_or_app. right. now left.
    + intros other Hne. apply eq_true_iff_eq. rewrite !includes_In, in_app_iff.
      split; [|tauto]. intros [H|[H|[]]]; [assumption | congruence].
    + intros Hnd. apply NoDup_app; repeat split; auto.
      * constructor; [simpl; tauto | constructor].
      * intros x Hx [<-|[]]. contradiction.
Qed.

Lemma handleFilterToggle_flips_witness :
  NoDup (handleFilterToggle "low" (handleFilterToggle "moderate" allSeverities)).
Proof.
  apply (handleFilterToggle_flips "low" (handleFilterToggle "moderate" allSeverities)).
  apply (handleFilterToggle_flips "moderate" allSeverities).
  repeat constructor; simpl; intuition discriminate.
Defined.

(** ** [index.tsx], first app: the ledger *)

Lemma split_itemKeyOf location unit' item :
  Reading.lacks "." location = true ->
  Reading.lacks "." (Catalog.name item) = true ->
  exists tail,
    Js.split "." (ActionPlan.itemKeyOf location unit' item)
    = location :: "undefined"%string :: Catalog.name item :: tail.
Proof.
  intros Hl Hn. unfold ActionPlan.itemKeyOf.
  cbn [Js.show]. rewrite !one_char_append.
  rewrite split_append by assumption.
  rewrite split_append by reflexivity.
  rewrite split_append by assumption.
  eexists. reflexivity.
Qed.

Lemma sameText_refl a : Js.sameText a (Some a) = true.
Proof. apply String.eqb_refl. Qed.

(** The catalog entry found for a key the screen makes. *)
Lemma defectInfo_of_item DEFECT_DATA location unit' item severity di categories ds :
  Reading.lacks "." (Catalog.name item) = true ->
  ActionPlan.area DEFECT_DATA (Some location) = Some categories ->
  Js.find (fun i => String.eqb (Catalog.name i) (Catalog.name item))
          (flat_map Catalog.items categories) = Some item ->
  Catalog.tier (Catalog.defects item) (Some severity) = Some ds ->
  ActionPlan.defectInfo DEFECT_DATA (ActionPlan.itemKeyOf location unit' item)
                        severity (Z.of_nat di)
  = Js.Normal (nth_error ds di).
Proof.
  intros Hn Ha Hf Ht.
  assert (Hl : Reading.lacks "." location = true).
  { unfold ActionPlan.area in Ha.
    destruct (String.eqb_spec location "outside") as [->|]; [reflexivity|].
    destruct (String.eqb_spec location "inside") as [->|]; [reflexivity|].
    discriminate. }
  destruct (split_itemKeyOf location unit' item Hl Hn) as (tail & S).
  unfold ActionPlan.defectInfo. cbv zeta. rewrite S. cbn [nth_error].
  rewrite Ha. cbn [Js.deref Js.bind].
  unfold Js.sameText. rewrite Hf. cbn [Js.deref Js.bind].
  rewrite Ht. cbn [Js.deref Js.bind].
  now rewrite index_of_nat.
Qed.

(** X14. A tap on "+" or "-" for a defect the screen lists ends without
    error and leaves, under the key of that defect, the count
    [max 0 (old + delta)] together with the weight, the life-threatening
    flag and the description of the catalog entry and the name of the item;
    the category is recorded as the text "undefined", since the items carry no
    category.  At a count of 0 the key is removed.  No other key of the
    ledger and none of the notes change. *)
Theorem handleCountChange_records
  DEFECT_DATA location unit' item severity di delta prev categories ds d :
  Reading.lacks "." (Catalog.name item) = true ->
  ActionPlan.area DEFECT_DATA (Some location) = Some categories ->
  Js.find (fun i => String.eqb (Catalog.name i) (Catalog.name item))
          (flat_map Catalog.items categories) = Some item ->
  Catalog.tier (Catalog.defects item) (Some severity) = Some ds ->
  nth_error ds di = Some d ->
  let itemKey := ActionPlan.itemKeyOf location unit' item in
  let defectKey := ActionPlan.defectKeyOf itemKey severity (Z.of_nat di) in
  let n := Z.max 0 (ActionPlan.currentCount (ActionPlan.defects prev) defectKey + delta) in
  exists next,
    ActionPlan.handleCountChange DEFECT_DATA itemKey severity (Z.of_nat di) delta prev
    = Js.Normal next /\
    Js.get (ActionPlan.defects next) defectKey
    = (if 0 <? n
       then Some {| ActionPlan.count := n;
                    ActionPlan.weight := Catalog.weight d;
                    ActionPlan.lt := Catalog.truthy (Catalog.lt d);
                    ActionPlan.description := Catalog.description d;
                    ActionPlan.name := Catalog.name item;
                    ActionPlan.category := "undefined";
                    ActionPlan.severity := severity |}
       else None) /\
    (forall other, other <> defectKey ->
       Js.get (ActionPlan.defects next) other = Js.get (ActionPlan.defects prev) other) /\
    ActionPlan.notes next = ActionPlan.notes prev.
Proof.
  intros Hn Ha Hf Ht Hd. cbv zeta.
  assert (Hl : Reading.lacks "." location = true).
  { unfold ActionPlan.area in Ha.
    destruct (String.eqb_spec location "outside") as [->|]; [reflexivity|].
    destruct (String.eqb_spec location "inside") as [->|]; [reflexivity|].
    discriminate. }
  destruct (split_itemKeyOf location unit' item Hl Hn) as (tail & S).
  unfold ActionPlan.handleCountChange.
  rewrite (defectInfo_of_item DEFECT_DATA location unit' item severity di
             categories ds Hn Ha Hf Ht).
  cbn [Js.bind]. cbv zeta.
  set (defectKey := ActionPlan.defectKeyOf _ severity (Z.of_nat di)).
  set (n := Z.max 0 _).
  destruct (0 <? n) eqn:P.
  - rewrite Hd. cbn [Js.deref Js.bind]. eexists. split; [reflexivity|].
    cbn [ActionPlan.withDefects ActionPlan.defects ActionPlan.notes].
    rewrite S. cbn [nth_error Js.show].
    split; [apply get_set_same|]. split; [|reflexivity].
    intros other Hne. now apply get_set_other.
  - eexists. split; [reflexivity|].
    cbn [ActionPlan.withDefects ActionPlan.defects ActionPlan.notes].
    split; [apply get_delete_same|]. split; [|reflexivity].
    intros other Hne. now apply get_delete_other.
Qed.

(** The first category of each area is the same in the catalog of this app
    (lines 33-55 and 395-487 of [index.tsx]) as in [part_000]. *)
Lemma handleCountChange_records_witness :
  exists next,
    ActionPlan.handleCountChange Catalog.firstCategories
      "inside.undefined.Toilet.unit-2" "severe" 0 1 (ActionPlan.initialState 2024)
    = Js.Normal next /\
    option_map (fun e => (ActionPlan.count e, ActionPlan.weight e, ActionPlan.lt e,
                          ActionPlan.name e, ActionPlan.category e))
      (Js.get (ActionPlan.defects next) "inside.undefined.Toilet.unit-2.severe.0")
    = Some (1, 2.50%Q, true, "Toilet"%string, "undefined"%string).
Proof.
  destruct (handleCountChange_records Catalog.firstCategories "inside" 2
              (nth 9 (Catalog.items Catalog.restroomKitchenLaundry)
                   (Catalog.moderateOnly "" []))
              "severe" 0 1 (ActionPlan.initialState 2024) _ _ _
              eq_refl eq_refl eq_refl eq_refl eq_refl)
    as (next & H & G & _).
  exists next. split; [exact H|].
  cbv zeta in G. change (ActionPlan.defectKeyOf _ _ _)
    with "inside.undefined.Toilet.unit-2.severe.0"%string in G.
  rewrite G. reflexivity.
Defined.

(** X15. The ledger of the first app never keeps a count of 0: if every
    entry has a positive count, so has every entry after any tap that ends
    without error.  The report then has one row for every entry of the ledger,
    in its order, and the
    life-threatening figure of the score is the number of flagged entries. *)
Theorem handleCountChange_keeps_positive
  DEFECT_DATA itemKey severity defectIndex delta prev next :
  ActionPlan.handleCountChange DEFECT_DATA itemKey severity defectIndex delta prev
  = Js.Normal next ->
  Forall (fun entry => 0 < ActionPlan.count (snd entry)) (ActionPlan.defects prev) ->
  Forall (fun entry => 0 < ActionPlan.count (snd entry)) (ActionPlan.defects next) /\
  map (fun d => (ActionPlan.r_key d, ActionPlan.r_value d))
      (ActionPlan.allDefects (ActionPlan.defects next))
  = Js.entries (ActionPlan.defects next) /\
  ActionPlan.lifeThreateningDefects (ActionPlan.defects next)
  = Z.of_nat (List.length (filter ActionPlan.lt (Js.values (ActionPlan.defects next)))).
Proof.
  intros H Hpos.
  assert (P : Forall (fun entry => 0 < ActionPlan.count (snd entry))
                (ActionPlan.defects next)).
  { unfold ActionPlan.handleCountChange in H.
    destruct (ActionPlan.defectInfo DEFECT_DATA itemKey severity defectIndex)
      as [info|]; [|discriminate].
    cbn [Js.bind] in H. cbv zeta in H.
    destruct (0 <? _) eqn:E in H; bool_to_Z.
    - destruct info as [d|]; [|discriminate]. cbn [Js.deref Js.bind] in H.
      injection H as <-. cbn [ActionPlan.withDefects ActionPlan.defects].
      apply Forall_forall. intros [k v] Hin.
      destruct (In_set _ _ _ _ _ Hin) as [[-> ->]|Hold].
      + exact E.
      + rewrite Forall_forall in Hpos. apply (Hpos (k, v) Hold).
    - injection H as <-. cbn [ActionPlan.withDefects ActionPlan.defects].
      apply Forall_forall. intros [k v] Hin. apply In_delete in Hin.
      rewrite Forall_forall in Hpos. apply (Hpos (k, v) Hin). }
  split; [exact P|]. split.
  - unfold ActionPlan.allDefects, Js.entries.
    induction P as [|[key' value] rest Hentry _ IH];
      cbn [map filter fst snd ActionPlan.r_value]; [reflexivity|].
    cbn [snd] in Hentry. apply Z.ltb_lt in Hentry. rewrite Hentry.
    cbn [map ActionPlan.r_key ActionPlan.r_value]. now rewrite IH.
  - unfold ActionPlan.lifeThreateningDefects, Js.values. do 2 f_equal.
    induction P as [|entry rest Hentry _ IH]; simpl; [reflexivity|].
    apply Z.ltb_lt in Hentry. rewrite Hentry, andb_true_r, IH. reflexivity.
Qed.

Lemma handleCountChange_keeps_positive_witness :
  ActionPlan.lifeThreateningDefects
    [("inside.undefined.Toilet.unit-2.severe.0"%string,
      {| ActionPlan.count := 1; ActionPlan.weight := 2.50; ActionPlan.lt := true;
         ActionPlan.description := "Toilet missing"; ActionPlan.name := "Toilet";
         ActionPlan.category := "undefined"; ActionPlan.severity := "severe" |})]
  = 1.
Proof.
  apply (handleCountChange_keeps_positive Catalog.firstCategories
           "inside.undefined.Toilet.unit-2" "severe" 0 1
           (ActionPlan.initialState 2024)
           (ActionPlan.withDefects
              [("inside.undefined.Toilet.unit-2.severe.0"%string,
                {| ActionPlan.count := 1; ActionPlan.weight := 2.50;
                   ActionPlan.lt := true;
                   ActionPlan.description := "Toilet missing";
                   ActionPlan.name := "Toilet";
                   ActionPlan.category := "undefined";
                   ActionPlan.severity := "severe" |})]
              (ActionPlan.initialState 2024))
           eq_refl).
  constructor.
Defined.

(** ** [index.tsx], first app: grade, verdict and setup *)

(** X17. The setup form of the first app starts an inspection only with a
    name, a number of units of at least 1 and a year after 1800.  The number
    of units typed is read as a whole number, a text that is none counting
    as 0 and being refused.  For a started inspection the sample size lies
    between 1 and the number of units, and the units offered are 1 to the
    sample size. *)
Theorem setup_starts_valid value prev started :
  ActionPlan.handleSubmit (ActionPlan.handleChange "totalUnits" value prev) = Some started ->
  exists n,
    Js.parseInt (Some value) = Some n /\ 1 <= n /\
    ActionPlan.d_totalUnits started = n /\
    ActionPlan.d_propertyName started = ActionPlan.d_propertyName prev /\
    ActionPlan.d_propertyName started <> ""%string /\
    1800 < ActionPlan.d_yearBuilt started /\
    1 <= ActionPlan.calculateSampleSize n <= n /\
    forall u, In u (ActionPlan.unitOptions n) <->
              1 <= u <= ActionPlan.calculateSampleSize n.
Proof.
  unfold ActionPlan.handleSubmit, ActionPlan.handleChange. cbn -[Js.parseInt].
  unfold ActionPlan.numberOr0.
  destruct (negb (String.eqb (ActionPlan.d_propertyName prev) "")) eqn:N;
    [|discriminate].
  destruct (Js.parseInt (Some value)) as [n|] eqn:PI;
    cbn [andb]; [|discriminate].
  destruct (0 <? n) eqn:P; [|discriminate].
  destruct (1800 <? ActionPlan.d_yearBuilt prev) eqn:Y; [|discriminate].
  cbn -[Js.parseInt]. intros [= <-]. cbn -[Js.parseInt]. bool_to_Z.
  exists n. split; [reflexivity|]. split; [lia|]. split; [reflexivity|].
  split; [reflexivity|]. split; [|split; [assumption|split]].
  - apply negb_true_iff, String.eqb_neq in N. assumption.
  - apply ActionPlan_sample_bounds. lia.
  - intros u. unfold ActionPlan.unitOptions. rewrite in_map_iff. split.
    + intros (i & <- & Hi). apply in_seq in Hi. lia.
    + intros Hu. exists (Z.to_nat (u - 1)). split; [lia|]. apply in_seq. lia.
Qed.

Lemma setup_starts_valid_witness :
  exists n, Js.parseInt (Some "120"%string) = Some n /\ 1 <= n /\
            1 <= ActionPlan.calculateSampleSize n <= n.
Proof.
  destruct (setup_starts_valid "120"
              {| ActionPlan.d_propertyName := "Maple Street Apartments";
                 ActionPlan.d_totalUnits := 1; ActionPlan.d_yearBuilt := 1987 |}
              _ eq_refl) as (n & H1 & H2 & _ & _ & _ & _ & H3 & _).
  exists n. split; [exact H1 | split; [exact H2 | exact H3]].
Defined.

(** ** [index.tsx], third app: logging and removing defects *)

Lemma scanDown_prefix key' ds extra i :
  (i <= List.length ds)%nat ->
  FieldGuide.scanDown key' (ds ++ extra) i = FieldGuide.scanDown key' ds i.
Proof.
  induction i as [|j IH]; intros Hi; simpl; [reflexivity|].
  rewrite nth_error_app1 by lia.
  destruct (nth_error ds j) as [d|]; [|apply IH; lia].
  destruct (String.eqb (FieldGuide.key d) key'); [reflexivity | apply IH; lia].
Qed.

Lemma scanDown_none key' ds i :
  Forall (fun d => FieldGuide.key d <> key') ds -> FieldGuide.scanDown key' ds i = None.
Proof.
  intros H. induction i as [|j IH]; simpl; [reflexivity|].
  destruct (nth_error ds j) as [d|] eqn:E; [|assumption].
  apply nth_error_In in E. rewrite Forall_forall in H.
  apply H, String.eqb_neq in E. now rewrite E.
Qed.

Lemma scanDown_last key' before d after :
  FieldGuide.key d = key' -> Forall (fun x => FieldGuide.key x <> key') after ->
  FieldGuide.scanDown key' (before ++ d :: after) (List.length (before ++ d :: after))
  = Some (List.length before).
Proof.
  intros Hd. induction after as [|x after' IH] using rev_ind; intros Ha.
  - rewrite length_app. simpl. rewrite Nat.add_1_r. simpl.
    rewrite nth_error_app2 by lia. rewrite Nat.sub_diag. simpl.
    now rewrite Hd, String.eqb_refl.
  - apply Forall_app in Ha. destruct Ha as [Ha' Hx].
    inversion Hx as [|? ? Hx' _]; subst.
    change (before ++ d :: after' ++ [x]) with (before ++ (d :: after') ++ [x]).
    rewrite app_assoc, length_app. simpl. rewrite Nat.add_1_r. simpl.
    rewrite nth_error_app2 by lia. rewrite Nat.sub_diag. simpl.
    apply String.eqb_neq in Hx'. rewrite Hx'.
    rewrite scanDown_prefix by lia. now apply IH.
Qed.

Lemma splice1_middle {A : Type} (before : list A) x after :
  FieldGuide.splice1 (before ++ x :: after) (List.length before) = before ++ after.
Proof.
  unfold FieldGuide.splice1.
  induction before as [|a before' IH]; [reflexivity|].
  cbn [List.length app firstn].
  change (skipn (S (S (List.length before'))) (a :: before' ++ x :: after))
    with (skipn (S (List.length before')) (before' ++ x :: after)).
  cbn [app]. f_equal. exact IH.
Qed.

Lemma removeDefect_at key' prev before d after :
  FieldGuide.loggedDefects prev = before ++ d :: after ->
  FieldGuide.key d = key' -> Forall (fun x => FieldGuide.key x <> key') after ->
  FieldGuide.removeDefect key' prev = FieldGuide.withLogged (before ++ after) prev.
Proof.
  intros E Hd Ha. unfold FieldGuide.removeDefect. rewrite E.
  rewrite (scanDown_last key' before d after Hd Ha). now rewrite splice1_middle.
Qed.

Lemma removeDefect_none key' prev :
  Forall (fun d => FieldGuide.key d <> key') (FieldGuide.loggedDefects prev) ->
  FieldGuide.removeDefect key' prev = prev.
Proof.
  intros H. unfold FieldGuide.removeDefect. rewrite (scanDown_none key' _ _ H). now destruct prev.
Qed.


(** X18. "Remove" takes away the defect logged last under the key, and
    only that one: the entries before and after it stay in their order, and
    the notes, the unit total and the sample size are untouched.  With no
    entry under the key nothing changes. *)
Theorem removeDefect_takes_last key' prev :
  (forall before d after,
     FieldGuide.loggedDefects prev = before ++ d :: after ->
     FieldGuide.key d = key' ->
     Forall (fun x => FieldGuide.key x <> key') after ->
     FieldGuide.loggedDefects (FieldGuide.removeDefect key' prev) = before ++ after /\
     FieldGuide.defectNotes (FieldGuide.removeDefect key' prev)
     = FieldGuide.defectNotes prev /\
     FieldGuide.sampleSize (FieldGuide.removeDefect key' prev)
     = FieldGuide.sampleSize prev /\
     FieldGuide.totalUnits (FieldGuide.removeDefect key' prev)
     = FieldGuide.totalUnits prev) /\
  (Forall (fun d => FieldGuide.key d <> key') (FieldGuide.loggedDefects prev) ->
   FieldGuide.removeDefect key' prev = prev).
Proof.
  split.
  - intros before d after E Hd Ha.
    rewrite (removeDefect_at key' prev before d after E Hd Ha). now repeat split.
  - apply removeDefect_none.
Qed.

Example started100_is_made :
  FieldGuide.handleSubmit "100" = Some FieldGuide.started100 /\
  FieldGuide.addDefect FieldGuide.firstCategories "unit" 3 "Cabinets" "moderate" 0
    (Catalog.defect "50% of cabinets or components missing/ damaged/inop" 0.25)
    FieldGuide.started100
  = Js.Normal (FieldGuide.withLogged [FieldGuide.loggedCabinets 3] FieldGuide.started100).
Proof. split; reflexivity. Qed.

Lemma removeDefect_takes_last_witness :
  FieldGuide.loggedDefects
    (FieldGuide.removeDefect "Cabinets-moderate-0"
       (FieldGuide.withLogged [FieldGuide.loggedCabinets 2; FieldGuide.loggedCabinets 3]
          FieldGuide.started100))
  = [FieldGuide.loggedCabinets 2].
Proof.
  apply (proj1 (removeDefect_takes_last "Cabinets-moderate-0"
                  (FieldGuide.withLogged
                     [FieldGuide.loggedCabinets 2; FieldGuide.loggedCabinets 3]
                     FieldGuide.started100))
               [FieldGuide.loggedCabinets 2] (FieldGuide.loggedCabinets 3) []
               eq_refl eq_refl (Forall_nil _)).
Defined.

Lemma addDefect_logs DEFECT_DATA activeTab currentUnit itemName severity di defect prev next :
  FieldGuide.addDefect DEFECT_DATA activeTab currentUnit itemName severity di defect prev
  = Js.Normal next ->
  exists entry,
    next = FieldGuide.withLogged (FieldGuide.loggedDefects prev ++ [entry]) prev /\
    FieldGuide.key entry = FieldGuide.keyOf itemName severity di /\
    FieldGuide.area entry = activeTab /\
    FieldGuide.unitIndex entry
    = (if String.eqb activeTab "unit" then Some currentUnit else None) /\
    FieldGuide.weight entry = Catalog.weight defect /\
    FieldGuide.lt entry = Catalog.truthy (Catalog.lt defect) /\
    FieldGuide.description entry = Catalog.description defect.
Proof.
  unfold FieldGuide.addDefect.
  destruct (FieldGuide.areaOf DEFECT_DATA activeTab) as [categories|]; [|discriminate].
  cbn [Js.deref Js.bind].
  destruct (Js.find _ categories) as [c|]; [|discriminate].
  cbn [Js.deref Js.bind]. intros [= <-].
  eexists. split; [reflexivity|]. cbn. repeat split.
Qed.

Lemma withLogged_same prev :
  FieldGuide.withLogged (FieldGuide.loggedDefects prev) prev = prev.
Proof. now destruct prev. Qed.

(** X19. A defect logged with "+" and taken back with "-" leaves the
    inspection exactly as it was: the list of logged defects, the notes, the
    unit total and the sample size. *)
Theorem add_then_remove DEFECT_DATA activeTab currentUnit itemName severity di defect
  prev next :
  FieldGuide.addDefect DEFECT_DATA activeTab currentUnit itemName severity di defect prev
  = Js.Normal next ->
  FieldGuide.removeDefect (FieldGuide.keyOf itemName severity di) next = prev.
Proof.
  intros H.
  destruct (addDefect_logs _ _ _ _ _ _ _ _ _ H) as (entry & -> & Hk & _).
  rewrite (removeDefect_at _
             (FieldGuide.withLogged (FieldGuide.loggedDefects prev ++ [entry]) prev)
             (FieldGuide.loggedDefects prev) entry [] eq_refl Hk (Forall_nil _)).
  rewrite app_nil_r. now destruct prev.
Qed.

Lemma add_then_remove_witness :
  FieldGuide.removeDefect (FieldGuide.keyOf "Cabinets" "moderate" 0)
    (FieldGuide.withLogged [FieldGuide.loggedCabinets 3] FieldGuide.started100)
  = FieldGuide.started100.
Proof.
  apply (add_then_remove FieldGuide.firstCategories "unit" 3 "Cabinets" "moderate" 0
           (Catalog.defect "50% of cabinets or components missing/ damaged/inop" 0.25)
           FieldGuide.started100).
  reflexivity.
Defined.

Lemma countOf_app key' xs ys :
  FieldGuide.countOf key' (xs ++ ys)
  = (FieldGuide.countOf key' xs + FieldGuide.countOf key' ys)%nat.
Proof. unfold FieldGuide.countOf. now rewrite filter_app, length_app. Qed.

Lemma scope_app activeTab currentUnit xs ys :
  FieldGuide.loggedDefectsForCurrentScope activeTab currentUnit (xs ++ ys)
  = FieldGuide.loggedDefectsForCurrentScope activeTab currentUnit xs
    ++ FieldGuide.loggedDefectsForCurrentScope activeTab currentUnit ys.
Proof. unfold FieldGuide.loggedDefectsForCurrentScope. apply filter_app. Qed.

(** X20. "Remove" does not look at the tab or unit on screen: it takes
    away the defect logged last under the key wherever that was logged.  The
    count shown for the key on the current tab and unit goes down by one if
    that defect belongs there and stays as it is if it was logged somewhere
    else. *)
Theorem removeDefect_ignores_scope key' prev before d after activeTab currentUnit :
  FieldGuide.loggedDefects prev = before ++ d :: after ->
  FieldGuide.key d = key' ->
  Forall (fun x => FieldGuide.key x <> key') after ->
  let shown inspection :=
    FieldGuide.countOf key'
      (FieldGuide.loggedDefectsForCurrentScope activeTab currentUnit
         (FieldGuide.loggedDefects inspection)) in
  let here := List.length (FieldGuide.loggedDefectsForCurrentScope activeTab currentUnit [d]) in
  (shown prev = shown (FieldGuide.removeDefect key' prev) + here)%nat /\
  (here <= 1)%nat /\
  S (List.length (FieldGuide.loggedDefects (FieldGuide.removeDefect key' prev)))
  = List.length (FieldGuide.loggedDefects prev).
Proof.
  intros E Hd Ha shown here. subst shown here.
  rewrite (removeDefect_at key' prev before d after E Hd Ha), E. cbn [FieldGuide.withLogged FieldGuide.loggedDefects].
  change (before ++ d :: after) with (before ++ [d] ++ after).
  rewrite !scope_app, !countOf_app, !length_app.
  assert (C : FieldGuide.countOf key'
                (FieldGuide.loggedDefectsForCurrentScope activeTab currentUnit [d])
              = List.length (FieldGuide.loggedDefectsForCurrentScope activeTab currentUnit [d])).
  { unfold FieldGuide.loggedDefectsForCurrentScope, FieldGuide.countOf. cbn [filter].
    destruct (_ && _); cbn [filter]; [|reflexivity].
    now rewrite Hd, String.eqb_refl. }
  rewrite C. split; [lia|]. split; [|cbn; lia].
  unfold FieldGuide.loggedDefectsForCurrentScope. cbn [filter].
  destruct (_ && _); cbn; lia.
Qed.

Lemma removeDefect_ignores_scope_witness :
  FieldGuide.countOf "Cabinets-moderate-0"
    (FieldGuide.loggedDefectsForCurrentScope "unit" 2
       (FieldGuide.loggedDefects
          (FieldGuide.removeDefect "Cabinets-moderate-0"
             (FieldGuide.withLogged
                [FieldGuide.loggedCabinets 2; FieldGuide.loggedCabinets 3]
                FieldGuide.started100))))
  = 1%nat.
Proof.
  pose proof (proj1 (removeDefect_ignores_scope "Cabinets-moderate-0"
                       (FieldGuide.withLogged
                          [FieldGuide.loggedCabinets 2; FieldGuide.loggedCabinets 3]
                          FieldGuide.started100)
                       [FieldGuide.loggedCabinets 2] (FieldGuide.loggedCabinets 3) []
                       "unit" 2 eq_refl eq_refl (Forall_nil _))) as H.
  cbv zeta in H.
  change (List.length
            (FieldGuide.loggedDefectsForCurrentScope "unit" 2
               [FieldGuide.loggedCabinets 3])) with 0%nat in H.
  rewrite Nat.add_0_r in H. rewrite <- H. reflexivity.
Defined.

(** ** [index.tsx], third app: the sample-size table on screen *)

Lemma sameNumbers_eq xs ys : Reading.sameNumbers xs ys = true -> xs = ys.
Proof.
  revert ys. induction xs as [|x xs IH]; intros [|y ys]; simpl; try discriminate;
    [reflexivity|].
  intros H. apply andb_true_iff in H. destruct H as [E H].
  apply Z.eqb_eq in E. subst. now rewrite (IH ys H).
Qed.

Lemma shownFor_small :
  forallb (fun i => Reading.sameNumbers (Reading.shownFor (Z.of_nat i))
                      [FieldGuide.getSampleSize (Z.of_nat i)])
          (seq 1 920) = true.
Proof. vm_compute. reflexivity. Qed.

Ltac compute_closed :=
  repeat match goal with
    | |- context [Js.split ?c ?s] =>
        let v := eval vm_compute in (Js.split c s) in
        change (Js.split c s) with v; cbv iota beta
    | |- context [Js.parseInt (Some ?a)] =>
        let v := eval vm_compute in (Js.parseInt (Some a)) in
        change (Js.parseInt (Some a)) with v; cbv iota beta
    | |- context [Reading.lacks ?c ?a] =>
        let v := eval vm_compute in (Reading.lacks c a) in
        change (Reading.lacks c a) with v; cbv iota beta
    end.

Ltac split_comparisons :=
  repeat match goal with
    | |- context [Z.leb ?a ?b] => destruct (Z.leb_spec a b); try lia
    | |- context [Z.eqb ?a ?b] => destruct (Z.eqb_spec a b); try lia
    end.

(** From 921 units on, a row covers the number exactly if it covers 921. *)
Lemma covers_from_921 n row :
  921 <= n -> In row FieldGuide.sampleSizeData ->
  Reading.covers (FieldGuide.total row) n = Reading.covers (FieldGuide.total row) 921.
Proof.
  intros Hn Hin. unfold FieldGuide.sampleSizeData in Hin.
  do 32 (destruct Hin as [<-|Hin];
          [ cbn [FieldGuide.total FieldGuide.exactly FieldGuide.range];
            match goal with
            | |- _ = ?r => let v := eval vm_compute in r in change r with v
            end;
            unfold Reading.covers; compute_closed; split_comparisons; reflexivity
          | ]).
  destruct Hin.
Qed.

(** X21. The table of sample sizes shown on the setup screen agrees with
    the sample size the app computes: for every number of units from 1
    upwards exactly one row of the table covers it, and that row shows the
    value of [getSampleSize]. *)
Theorem sampleSizeData_agrees n :
  1 <= n -> Reading.shownFor n = [FieldGuide.getSampleSize n].
Proof.
  intros Hn.
  destruct (Z_le_gt_dec 921 n) as [Hbig|Hsmall].
  - assert (E : Reading.shownFor n = Reading.shownFor 921).
    { unfold Reading.shownFor. apply (f_equal (map FieldGuide.sample)).
      apply filter_ext_in.
      intros row Hin. now apply covers_from_921. }
    rewrite E.
    assert (G : FieldGuide.getSampleSize n = 32).
    { unfold FieldGuide.getSampleSize. split_comparisons; reflexivity. }
    rewrite G. reflexivity.
  - apply sameNumbers_eq.
    pose proof shownFor_small as S. rewrite forallb_forall in S.
    specialize (S (Z.to_nat n)). rewrite Z2Nat.id in S by lia.
    apply S. apply in_seq. lia.
Qed.

Lemma sampleSizeData_agrees_witness : Reading.shownFor 100 = [25].
Proof. apply (sampleSizeData_agrees 100). lia. Defined.

(** ** [index.tsx], third app: starting and scoring *)

(** X22. The third app starts an inspection only for a number of units of
    at least 1; the inspection then holds that number, a sample size between
    1 and it, no logged defect and no note, so that its running score is
    "100.00". *)
Theorem handleSubmit_starts_valid totalUnits inspection :
  FieldGuide.handleSubmit totalUnits = Some inspection ->
  exists n,
    Js.parseInt (Some totalUnits) = Some n /\ 1 <= n /\
    FieldGuide.totalUnits inspection = n /\
    FieldGuide.sampleSize inspection = FieldGuide.getSampleSize n /\
    1 <= FieldGuide.sampleSize inspection <= n /\
    FieldGuide.loggedDefects inspection = [] /\
    FieldGuide.defectNotes inspection = [] /\
    FieldGuide.reacScore inspection = "100.00"%string.
Proof.
  unfold FieldGuide.handleSubmit, FieldGuide.setupSampleSize.
  destruct (Js.parseInt (Some totalUnits)) as [n|]; [|discriminate].
  destruct (0 <? n) eqn:P; [|discriminate]. bool_to_Z.
  intros [= <-]. exists n. cbn [FieldGuide.totalUnits FieldGuide.sampleSize
                                FieldGuide.loggedDefects FieldGuide.defectNotes].
  pose proof (FieldGuide_sample_bounds n ltac:(lia)) as B.
  repeat (split; [first [reflexivity | lia]|]).
  unfold FieldGuide.reacScore.
  apply (toFixed_comp 2 _ 100%Q).
  unfold FieldGuide.deduction, FieldGuide.totalWeight.
  cbn [FieldGuide.sampleSize FieldGuide.loggedDefects fold_left].
  destruct (0 <? FieldGuide.getSampleSize n); [|reflexivity].
  unfold Qdiv. setoid_replace (100 - 0 * / inject_Z (FieldGuide.getSampleSize n))%Q
    with 100%Q by ring.
  reflexivity.
Qed.

Lemma handleSubmit_starts_valid_witness :
  exists n, Js.parseInt (Some "100"%string) = Some n /\ 1 <= n /\
            FieldGuide.totalUnits FieldGuide.started100 = n.
Proof.
  destruct (handleSubmit_starts_valid "100" FieldGuide.started100 eq_refl)
    as (n & H1 & H2 & H3 & _).
  exists n. split; [exact H1 | split; [exact H2 | exact H3]].
Defined.

(** X23. Logging a defect raises the count shown for it on the current tab
    and unit by one, adds its weight to the total weight, adds it to the unit
    weight exactly when the tab is "unit", and, given a non-negative weight,
    never raises the running score. *)
Theorem addDefect_counts
  DEFECT_DATA activeTab currentUnit itemName severity di defect prev next :
  FieldGuide.addDefect DEFECT_DATA activeTab currentUnit itemName severity di defect prev
  = Js.Normal next ->
  let key' := FieldGuide.keyOf itemName severity di in
  let shown inspection :=
    FieldGuide.countOf key'
      (FieldGuide.loggedDefectsForCurrentScope activeTab currentUnit
         (FieldGuide.loggedDefects inspection)) in
  shown next = S (shown prev) /\
  FieldGuide.totalWeight next
  = (FieldGuide.totalWeight prev + Catalog.weight defect)%Q /\
  FieldGuide.unitWeight next
  = (if String.eqb activeTab "unit"
     then (FieldGuide.unitWeight prev + Catalog.weight defect)%Q
     else FieldGuide.unitWeight prev) /\
  ((0 <= Catalog.weight defect)%Q ->
   (FieldGuide.reacScoreValue next <= FieldGuide.reacScoreValue prev)%Q).
Proof.
  intros H key' shown. subst key' shown.
  destruct (addDefect_logs _ _ _ _ _ _ _ _ _ H)
    as (entry & -> & Hk & Ha & Hu & Hw & _).
  cbn [FieldGuide.withLogged FieldGuide.loggedDefects].
  assert (S1 : FieldGuide.loggedDefectsForCurrentScope activeTab currentUnit [entry]
               = [entry]).
  { unfold FieldGuide.loggedDefectsForCurrentScope. cbn [filter].
    rewrite Ha, Hu, String.eqb_refl.
    destruct (String.eqb activeTab "unit"); cbn; [now rewrite Z.eqb_refl | reflexivity]. }
  assert (T : FieldGuide.totalWeight
                (FieldGuide.withLogged (FieldGuide.loggedDefects prev ++ [entry]) prev)
              = (FieldGuide.totalWeight prev + Catalog.weight defect)%Q).
  { unfold FieldGuide.totalWeight. cbn [FieldGuide.withLogged FieldGuide.loggedDefects].
    rewrite fold_left_app. cbn [fold_left]. now rewrite Hw. }
  split; [|split; [exact T|split]].
  - rewrite scope_app, countOf_app, S1.
    unfold FieldGuide.countOf at 2. cbn [filter]. rewrite Hk, String.eqb_refl.
    cbn. lia.
  - unfold FieldGuide.unitWeight. cbn [FieldGuide.withLogged FieldGuide.loggedDefects].
    rewrite filter_app. cbn [filter]. rewrite Ha.
    destruct (String.eqb activeTab "unit").
    + rewrite fold_left_app. cbn [fold_left]. now rewrite Hw.
    + now rewrite app_nil_r.
  - intros Hpos. unfold FieldGuide.reacScoreValue, FieldGuide.deduction.
    rewrite T. cbn [FieldGuide.withLogged FieldGuide.sampleSize].
    apply Q.max_le_compat_l.
    destruct (0 <? FieldGuide.sampleSize prev) eqn:P; bool_to_Z; [|lra].
    assert (Hinv : (0 <= / inject_Z (FieldGuide.sampleSize prev))%Q).
    { apply Qinv_le_0_compat. change 0%Q with (inject_Z 0). rewrite <- Zle_Qle. lia. }
    unfold Qdiv.
    assert (Hprod : (0 <= Catalog.weight defect * / inject_Z (FieldGuide.sampleSize prev))%Q)
      by now apply Qmult_le_0_compat.
    nra.
Qed.

Lemma addDefect_counts_witness :
  FieldGuide.countOf "Cabinets-moderate-0"
    (FieldGuide.loggedDefectsForCurrentScope "unit" 3
       (FieldGuide.loggedDefects
          (FieldGuide.withLogged [FieldGuide.loggedCabinets 3] FieldGuide.started100)))
  = 1%nat.
Proof.
  apply (addDefect_counts FieldGuide.firstCategories "unit" 3 "Cabinets" "moderate" 0
           (Catalog.defect "50% of cabinets or components missing/ damaged/inop" 0.25)
           FieldGuide.started100
           (FieldGuide.withLogged [FieldGuide.loggedCabinets 3] FieldGuide.started100)
           eq_refl).
Defined.

(** ** Where the handlers stop with an error *)

(** X25. In the first app a tap stops with a [TypeError] when its key names
    an area the catalog does not have, an item the area does not hold, or a
    severity tier the item does not have.  With a defect position beyond the
    tier it stops with a [TypeError] only if the new count is positive; when
    the new count is 0 it ends normally and the key is absent afterwards. *)
Theorem handleCountChange_errors DEFECT_DATA itemKey severity defectIndex delta prev :
  let parts := Js.split "." itemKey in
  let run :=
    ActionPlan.handleCountChange DEFECT_DATA itemKey severity defectIndex delta prev in
  let n := Z.max 0 (ActionPlan.currentCount (ActionPlan.defects prev)
                      (ActionPlan.defectKeyOf itemKey severity defectIndex) + delta) in
  (ActionPlan.area DEFECT_DATA (nth_error parts 0) = None -> run = Js.Throw "TypeError") /\
  (forall categories,
     ActionPlan.area DEFECT_DATA (nth_error parts 0) = Some categories ->
     Js.find (fun i => Js.sameText (Catalog.name i) (nth_error parts 2))
             (flat_map Catalog.items categories) = None ->
     run = Js.Throw "TypeError") /\
  (forall categories found,
     ActionPlan.area DEFECT_DATA (nth_error parts 0) = Some categories ->
     Js.find (fun i => Js.sameText (Catalog.name i) (nth_error parts 2))
             (flat_map Catalog.items categories) = Some found ->
     (Catalog.tier (Catalog.defects found) (Some severity) = None ->
      run = Js.Throw "TypeError") /\
     (forall ds,
        Catalog.tier (Catalog.defects found) (Some severity) = Some ds ->
        Js.index ds (Some defectIndex) = None ->
        (0 < n -> run = Js.Throw "TypeError") /\
        (n = 0 ->
         exists next, run = Js.Normal next /\
                      Js.get (ActionPlan.defects next)
                             (ActionPlan.defectKeyOf itemKey severity defectIndex)
                      = None))).
Proof.
  cbv zeta. unfold ActionPlan.handleCountChange, ActionPlan.defectInfo. cbv zeta.
  split; [|split].
  - intros ->. reflexivity.
  - intros categories -> Hfind. cbn [Js.deref Js.bind]. rewrite Hfind. reflexivity.
  - intros categories found -> Hfind. cbn [Js.deref Js.bind]. rewrite Hfind.
    cbn [Js.deref Js.bind]. split.
    + intros ->. reflexivity.
    + intros ds -> Hindex. cbn [Js.deref Js.bind]. rewrite Hindex. split.
      * intros Hn. apply Z.ltb_lt in Hn. rewrite Hn. reflexivity.
      * intros Hn. rewrite Hn. cbn [Z.ltb Z.compare].
        eexists. split; [reflexivity|].
        cbn [ActionPlan.withDefects ActionPlan.defects]. apply get_delete_same.
Qed.

Lemma handleCountChange_errors_witness :
  ActionPlan.handleCountChange Catalog.firstCategories
    "inside.undefined.Sauna.unit-2" "severe" 0 1 (ActionPlan.initialState 2024)
  = Js.Throw "TypeError" /\
  ActionPlan.handleCountChange Catalog.firstCategories
    "inside.undefined.Toilet.unit-2" "severe" 7 1 (ActionPlan.initialState 2024)
  = Js.Throw "TypeError".
Proof.
  split.
  - apply (proj1 (proj2 (handleCountChange_errors Catalog.firstCategories
                           "inside.undefined.Sauna.unit-2" "severe" 0 1
                           (ActionPlan.initialState 2024)))
                 [Catalog.restroomKitchenLaundry]); reflexivity.
  - eapply (proj2 (proj2 (handleCountChange_errors Catalog.firstCategories
                            "inside.undefined.Toilet.unit-2" "severe" 7 1
                            (ActionPlan.initialState 2024)))
                  [Catalog.restroomKitchenLaundry]);
      [reflexivity | reflexivity | reflexivity | reflexivity | reflexivity].
Defined.

(** ** Notes of the third app *)

(** X26. In the third app a note is kept under the key of the defect alone,
    which names neither the area nor the unit: after [updateDefectNote] every
    logged entry with that key, whatever its area or unit, reads the new note;
    the notes under other keys, the logged entries and both scores are as
    before; and the note stays when sightings of the defect are removed
    afterwards. *)
Theorem updateDefectNote_shared defectKey note prev :
  let next := FieldGuide.updateDefectNote defectKey note prev in
  (forall d, In d (FieldGuide.loggedDefects next) ->
             FieldGuide.key d = defectKey ->
             Js.get (FieldGuide.defectNotes next) (FieldGuide.key d) = Some note) /\
  (forall other, other <> defectKey ->
                 Js.get (FieldGuide.defectNotes next) other
                 = Js.get (FieldGuide.defectNotes prev) other) /\
  FieldGuide.loggedDefects next = FieldGuide.loggedDefects prev /\
  FieldGuide.reacScore next = FieldGuide.reacScore prev /\
  FieldGuide.unitScore next = FieldGuide.unitScore prev /\
  (forall removed,
     Js.get (FieldGuide.defectNotes (FieldGuide.removeDefect removed next)) defectKey
     = Some note).
Proof.
  cbv zeta. repeat split.
  - intros d _ ->. apply get_set_same.
  - intros other Hne. now apply get_set_other.
  - intros removed. unfold FieldGuide.removeDefect.
    destruct (FieldGuide.scanDown _ _ _); apply get_set_same.
Qed.

Lemma updateDefectNote_shared_witness :
  Js.get (FieldGuide.defectNotes
            (FieldGuide.updateDefectNote "Cabinets-moderate-0" "door off"
               (FieldGuide.withLogged
                  [FieldGuide.loggedCabinets 3; FieldGuide.loggedCabinets 7]
                  FieldGuide.started100)))
         (FieldGuide.key (FieldGuide.loggedCabinets 7))
  = Some "door off"%string.
Proof.
  apply (proj1 (updateDefectNote_shared "Cabinets-moderate-0" "door off"
                  (FieldGuide.withLogged
                     [FieldGuide.loggedCabinets 3; FieldGuide.loggedCabinets 7]
                     FieldGuide.started100))
               (FieldGuide.loggedCabinets 7)).
  - right. left. reflexivity.
  - reflexivity.
Defined.


(** * The scores as the engine computes them, in binary64 *)

(** ** Facts about doubles *)

Lemma binary64_mul_comm x y : Binary64.mul x y = Binary64.mul y x.
Proof.
  unfold Binary64.mul, SFmul.
  destruct x as [sx|sx| |sx mx ex], y as [sy|sy| |sy my ey];
    try reflexivity; try (now rewrite xorb_comm).
  now rewrite xorb_comm, Pos.mul_comm, Z.add_comm.
Qed.

(** The result of [Math.max(0, x)] is never below 0. *)
Lemma max_0_not_negative x :
  Binary64.ltb (Binary64.max (Binary64.ofZ 0) x) (Binary64.ofZ 0) = false.
Proof. destruct x as [s|[|]| |[|] m e]; reflexivity. Qed.

(** A double that is at least a positive double [a] is at least any
    positive double with a smaller exponent. *)
Lemma leb_lower ma ea mb eb x :
  eb < ea ->
  Binary64.leb (S754_finite false ma ea) x = true ->
  Binary64.leb (S754_finite false mb eb) x = true.
Proof.
  intros He. unfold Binary64.leb, SFleb, SFcompare.
  destruct x as [s|[|]| |[|] m e]; try discriminate; try reflexivity.
  destruct (Z.compare_spec ea e) as [->|H|H].
  - intros _. now rewrite (proj2 (Z.compare_lt_iff eb e) He).
  - intros _. rewrite (proj2 (Z.compare_lt_iff eb e)) by lia. reflexivity.
  - discriminate.
Qed.

(** Doubles behave as they are known to: 0.1 + 0.2 is not 0.3, integers
    above 2^53 are rounded, [toFixed] prints the digits of the double, not of
    the literal, and takes the larger neighbour on an exact tie. *)
Example double_samples :
  Binary64.add (Binary64.ofQ 0.1) (Binary64.ofQ 0.2) = Binary64.ofQ 0.30000000000000004 /\
  Binary64.add (Binary64.ofQ 0.1) (Binary64.ofQ 0.2) <> Binary64.ofQ 0.3 /\
  Binary64.ofZ (2 ^ 53 + 1) = Binary64.ofZ (2 ^ 53) /\
  Binary64.toFixed 2 (Binary64.ofQ 1.005) = Binary64.Digits "1.00" /\
  Binary64.toFixed 2 (Binary64.ofQ 0.125) = Binary64.Digits "0.13" /\
  Binary64.toFixed 2 (Binary64.div (Binary64.ofZ 0) (Binary64.ofZ 0))
  = Binary64.Digits "NaN" /\
  Binary64.max (Binary64.ofZ 0) (Binary64.sub (Binary64.ofZ 100) (Binary64.ofZ 250))
  = Binary64.ofZ 0 /\
  Binary64.max (Binary64.ofZ 0) Binary64.NaN = Binary64.NaN.
Proof.
  repeat match goal with
         | |- _ /\ _ => split
         | |- _ <> _ => vm_compute; discriminate
         | |- _ => vm_compute; reflexivity
         end.
Qed.

(** The weights of the catalogs are short decimals: their doubles are the
    rounded quotients of two small integers. *)
Example weight_literals :
  map Binary64.ofQ [0.1; 0.2; 0.23; 0.25; 0.55; 0.65; 0.7; 2.25; 2.50; 2.75]%Q
  = map (fun nd => Binary64.div (Binary64.ofZ (fst nd)) (Binary64.ofZ (snd nd)))
        [(1, 10); (2, 10); (23, 100); (25, 100); (55, 100); (65, 100); (7, 10);
         (225, 100); (250, 100); (275, 100)].
Proof. vm_compute. reflexivity. Qed.

(** The scenarios of section 8 in binary64: nothing recorded; one unit
    defect of weight 2.50, flagged life-threatening, in a sample of 10 out of
    100 units; 440 common-area sightings of a 0.1-point defect. *)
Example scenarios_binary64 :
  TechSpector64.score Catalog.firstCategories [] "100" 14
  = {| TechSpector64.outsideScore := Binary64.Digits "100.00";
       TechSpector64.insideScore := Binary64.Digits "100.00";
       TechSpector64.finalScore := Binary64.Digits "100.00";
       TechSpector64.failing := false;
       TechSpector64.lifeThreateningDefects := [] |} /\
  TechSpector64.score Catalog.firstCategories
    [("inside-0-9-severe-0-1"%string, 1)] "100" 10
  = {| TechSpector64.outsideScore := Binary64.Digits "100.00";
       TechSpector64.insideScore := Binary64.Digits "75.00";
       TechSpector64.finalScore := Binary64.Digits "75.00";
       TechSpector64.failing := true;
       TechSpector64.lifeThreateningDefects :=
         ["Toilet: Toilet missing (x1)"%string] |} /\
  TechSpector64.score Catalog.firstCategories
    [("outside-0-0-low-0"%string, 440)] "100" 14
  = {| TechSpector64.outsideScore := Binary64.Digits "56.00";
       TechSpector64.insideScore := Binary64.Digits "100.00";
       TechSpector64.finalScore := Binary64.Digits "56.00";
       TechSpector64.failing := true;
       TechSpector64.lifeThreateningDefects := [] |}.
Proof. split; [|split]; vm_compute; reflexivity. Qed.

(** ** Typed keys and the keys of the app *)

Lemma lacks_locationName s : Reading.lacks "-" (Reading.locationName s) = true.
Proof. now destruct s. Qed.

Lemma lacks_tierName t : Reading.lacks "-" (Reading.tierName t) = true.
Proof. now destruct t. Qed.

Lemma tier_tierName d t :
  Catalog.tier d (Some (Reading.tierName t)) = Engine.tier d t.
Proof. now destruct t. Qed.

Lemma isOutside_keyOf k :
  TechSpector.isOutside (TechSpector.locationOf (Reading.keyOf k))
  = match Engine.scope k with Engine.common => true | Engine.unit _ => false end.
Proof.
  unfold TechSpector.locationOf, Reading.keyOf.
  destruct (unitSpecificKey_parts (Reading.locationName (Engine.scope k))
              (Reading.unitNumber (Engine.scope k)) (Engine.categoryIndex k)
              (Engine.itemIndex k) (Reading.tierName (Engine.severityTier k))
              (Engine.defectIndex k) (lacks_locationName _) (lacks_tierName _))
    as (P0 & _).
  rewrite P0. now destruct (Engine.scope k).
Qed.

(** The code resolves the key built for a typed key exactly as section 4.3
    resolves the typed key. *)
Lemma lookup_keyOf catalog k :
  TechSpector.lookup catalog (Reading.keyOf k) = Engine.resolve catalog k.
Proof.
  unfold Reading.keyOf.
  destruct (unitSpecificKey_parts (Reading.locationName (Engine.scope k))
              (Reading.unitNumber (Engine.scope k)) (Engine.categoryIndex k)
              (Engine.itemIndex k) (Reading.tierName (Engine.severityTier k))
              (Engine.defectIndex k) (lacks_locationName _) (lacks_tierName _))
    as (P0 & P1 & P2 & P3 & P4).
  unfold TechSpector.lookup, Engine.resolve. cbv zeta.
  rewrite P0, P1, P2, P3, P4, !index_of_nat.
  assert (E : (if TechSpector.isOutside (Some (Reading.locationName (Engine.scope k)))
               then Catalog.outside catalog else Catalog.inside catalog)
              = Engine.categories catalog (Engine.scope k)).
  { now destruct (Engine.scope k). }
  rewrite E.
  destruct (nth_error (Engine.categories catalog (Engine.scope k)) (Engine.categoryIndex k))
    as [c|]; [|reflexivity].
  rewrite index_of_nat.
  destruct (nth_error (Catalog.items c) (Engine.itemIndex k)) as [i|]; [|reflexivity].
  rewrite tier_tierName.
  destruct (Engine.tier (Catalog.defects i) (Engine.severityTier k)) as [ds|];
    [|reflexivity].
  now rewrite index_of_nat.
Qed.

(** ** The loop over the ledger against the sums of the engine *)

Lemma join_total catalog os :
  Forall (fun o => Engine.resolve catalog (Engine.key o) <> None) os ->
  exists joined, Engine.join catalog os = Some joined.
Proof.
  induction 1 as [|o rest Ho _ [joined IH]]; cbn [Engine.join].
  - now exists [].
  - destruct (Engine.resolve catalog (Engine.key o)) as [[i d]|]; [|contradiction].
    rewrite IH. eexists. reflexivity.
Qed.

Lemma visit64_skips catalog acc k c :
  c <= 0 -> TechSpector64.visit catalog acc (k, c) = acc.
Proof.
  intros Hc. unfold TechSpector64.visit.
  destruct (0 <? c) eqn:E; bool_to_Z; [lia | reflexivity].
Qed.

Lemma tally64_join catalog ledger :
  forall joined acc,
    Engine.join catalog (Engine.occurrences ledger) = Some joined ->
    let after :=
      fold_left (TechSpector64.visit catalog) (Reading.defectCountsOf ledger) acc in
    TechSpector64.Loop.outsideWeight after
    = fold_left (fun sum o => Binary64.add sum (Engine.points Engine.binary64 o))
                (filter Engine.isCommon joined)
                (TechSpector64.Loop.outsideWeight acc) /\
    TechSpector64.Loop.insideWeight after
    = fold_left (fun sum o => Binary64.add sum (Engine.points Engine.binary64 o))
                (filter (fun o => negb (Engine.isCommon o)) joined)
                (TechSpector64.Loop.insideWeight acc) /\
    TechSpector64.Loop.lifeThreateningDefects after
    = TechSpector64.Loop.lifeThreateningDefects acc
      ++ map (fun o => TechSpector.finding (Engine.item o) (Engine.definition o)
                         (Engine.count (Engine.observed o)))
             (filter Engine.isCritical joined).
Proof.
  induction ledger as [|o rest IH]; intros joined acc;
    cbn [Engine.occurrences filter Reading.defectCountsOf map fold_left].
  - intros [= <-]. cbn. now rewrite app_nil_r.
  - destruct (0 <? Engine.count o) eqn:P.
    + cbn [Engine.join].
      destruct (Engine.resolve catalog (Engine.key o)) as [[i d]|] eqn:R;
        [|discriminate].
      fold (Engine.occurrences rest).
      destruct (Engine.join catalog (Engine.occurrences rest)) as [joined'|] eqn:J;
        [|discriminate].
      intros [= <-].
      fold (Reading.defectCountsOf rest).
      destruct (IH joined'
                  (TechSpector64.visit catalog acc
                     (Reading.keyOf (Engine.key o), Engine.count o)) eq_refl)
        as (Ho & Hi & Hf).
      cbv zeta in Ho, Hi, Hf. cbv zeta. rewrite Ho, Hi, Hf.
      unfold TechSpector64.visit.
      rewrite P, lookup_keyOf, R, isOutside_keyOf.
      set (occ := {| Engine.observed := o; Engine.item := i; Engine.definition := d |}).
      assert (Ep : Engine.points Engine.binary64 occ
                   = Binary64.mul (Binary64.ofQ (Catalog.weight d))
                                  (Binary64.ofZ (Engine.count o))).
      { unfold Engine.points. cbn. apply binary64_mul_comm. }
      assert (Ec : Engine.isCommon occ
                   = match Engine.scope (Engine.key o) with
                     | Engine.common => true
                     | Engine.unit _ => false
                     end) by reflexivity.
      assert (Et : Engine.isCritical occ = Catalog.truthy (Catalog.lt d)) by reflexivity.
      cbn [filter]. rewrite Ec, Et.
      destruct (Engine.scope (Engine.key o));
        destruct (Catalog.truthy (Catalog.lt d));
        cbn [negb fold_left map TechSpector64.Loop.outsideWeight
               TechSpector64.Loop.insideWeight
               TechSpector64.Loop.lifeThreateningDefects];
        rewrite ?Ep, <- ?app_assoc; auto.
    + fold (Engine.occurrences rest). fold (Reading.defectCountsOf rest).
      intros J. bool_to_Z.
      rewrite visit64_skips by lia. now apply IH.
Qed.

Lemma positiveOr1_of_positive n : 1 <= n -> TechSpector.positiveOr1 (Some n) = n.
Proof.
  intros H. unfold TechSpector.positiveOr1.
  destruct (0 <? n) eqn:E; bool_to_Z; [reflexivity | lia].
Qed.

(** The quantities of the code against those of the engine, in binary64. *)
Lemma engine_quantities catalog ledger text totalUnits sampleSize :
  Js.parseInt (Some text) = Some totalUnits ->
  1 <= totalUnits -> 1 <= sampleSize ->
  Forall (fun o => Engine.resolve catalog (Engine.key o) <> None)
         (Engine.occurrences ledger) ->
  exists os,
    Engine.join catalog (Engine.occurrences ledger) = Some os /\
    TechSpector64.outsideWeight catalog (Reading.defectCountsOf ledger)
    = Engine.commonDeductionPoints Engine.binary64 os /\
    TechSpector64.insideWeight catalog (Reading.defectCountsOf ledger)
    = Engine.totalUnitDeductionPoints Engine.binary64 os /\
    TechSpector64.unitWeight catalog (Reading.defectCountsOf ledger) text sampleSize
    = Engine.extrapolatedInteriorDeduction Engine.binary64 os sampleSize totalUnits /\
    TechSpector64.finalScoreValue catalog (Reading.defectCountsOf ledger) text sampleSize
    = Binary64.max (Binary64.ofZ 0)
        (Binary64.sub (Binary64.ofZ 100)
           (Binary64.add
              (Engine.commonDeductionPoints Engine.binary64 os)
              (Engine.extrapolatedInteriorDeduction Engine.binary64 os
                 sampleSize totalUnits))) /\
    TechSpector64.lifeThreateningDefects
      (TechSpector64.score catalog (Reading.defectCountsOf ledger) text sampleSize)
    = map (fun o => TechSpector.finding (Engine.item o) (Engine.definition o)
                      (Engine.count (Engine.observed o)))
          (filter Engine.isCritical os).
Proof.
  intros Hp Hu Hs Hr.
  destruct (join_total catalog _ Hr) as [os J].
  exists os. split; [exact J|].
  destruct (tally64_join catalog ledger os TechSpector64.start J) as (Ho & Hi & Hf).
  cbv zeta in Ho, Hi, Hf.
  assert (Ec : TechSpector64.outsideWeight catalog (Reading.defectCountsOf ledger)
               = Engine.commonDeductionPoints Engine.binary64 os) by exact Ho.
  assert (Eu : TechSpector64.insideWeight catalog (Reading.defectCountsOf ledger)
               = Engine.totalUnitDeductionPoints Engine.binary64 os) by exact Hi.
  assert (Ee : TechSpector64.unitWeight catalog (Reading.defectCountsOf ledger)
                 text sampleSize
               = Engine.extrapolatedInteriorDeduction Engine.binary64 os
                   sampleSize totalUnits).
  { unfold TechSpector64.unitWeight, Engine.extrapolatedInteriorDeduction.
    rewrite Eu, Hp, !positiveOr1_of_positive by assumption. reflexivity. }
  split; [exact Ec|]. split; [exact Eu|]. split; [exact Ee|]. split.
  - unfold TechSpector64.finalScoreValue, TechSpector64.totalDeductions.
    now rewrite Ec, Ee.
  - cbn [TechSpector64.score TechSpector64.lifeThreateningDefects].
    exact Hf.
Qed.

(** ** The claims about the formula and the verdict *)

(** C1, as stated, fails.  With 10 units, a sample of 4, one common-area
    sighting of a 0.1-point defect and three unit sightings of a 0.23-point
    defect, the value of [max(0, 100 - common - extrapolated)] is 98.175,
    shown as 98.18, in exact arithmetic, and the formula evaluated as it is
    written in binary64 shows 98.18 as well; the score computation returns
    another number, shown as 98.17. *)
Lemma finalScore_formula_rounds :
  exists os v,
    Engine.join Catalog.firstCategories (Engine.occurrences Reading.tieLedger) = Some os /\
    Binary64.toQ
      (TechSpector64.finalScoreValue Catalog.firstCategories
         (Reading.defectCountsOf Reading.tieLedger) "10" 4) = Some v /\
    TechSpector64.finalScore
      (TechSpector64.score Catalog.firstCategories
         (Reading.defectCountsOf Reading.tieLedger) "10" 4)
    = Binary64.Digits "98.17" /\
    (Engine.finalScore Engine.exact os 4 10 == 98.175)%Q /\
    ~ (v == Engine.finalScore Engine.exact os 4 10)%Q /\
    Js.toFixed 2 (Engine.finalScore Engine.exact os 4 10) = "98.18"%string /\
    TechSpector64.finalScoreValue Catalog.firstCategories
      (Reading.defectCountsOf Reading.tieLedger) "10" 4
    <> Engine.finalScore Engine.binary64 os 4 10 /\
    Binary64.toFixed 2 (Engine.finalScore Engine.binary64 os 4 10)
    = Binary64.Digits "98.18".
Proof.
  eexists. eexists.
  split; [reflexivity|].
  split; [vm_compute; reflexivity|].
  split; [vm_compute; reflexivity|].
  split; [vm_compute; reflexivity|].
  split; [intros H; vm_compute in H; discriminate|].
  split; [vm_compute; reflexivity|].
  split; [intros H; vm_compute in H; discriminate | vm_compute; reflexivity].
Qed.

(** C1, amended.  With a sample size and a unit total of at least 1 and a
    ledger whose occurrences all resolve in the catalog, the score
    computation of [part_000] returns the final score
    [max(0, 100 - (commonDeductionPoints + extrapolatedInteriorDeduction))]
    in binary64: every product, sum, quotient and difference is rounded to
    the nearest double, the two totals are accumulated from 0 in the order
    of the ledger over the common-scope and the unit-scope occurrences, the
    extrapolation is [(totalUnitDeductionPoints / sampleSize) * totalUnits],
    and the text returned is that double with two decimals.  With a sample
    of 10 out of 100 units and one unit-scope observation of weight 2.50 and
    count 1 the text is 75.00. *)
Theorem finalScore_formula :
  (forall catalog ledger text totalUnits sampleSize,
     Js.parseInt (Some text) = Some totalUnits ->
     1 <= totalUnits -> 1 <= sampleSize ->
     Forall (fun o => Engine.resolve catalog (Engine.key o) <> None)
            (Engine.occurrences ledger) ->
     exists os,
       Engine.join catalog (Engine.occurrences ledger) = Some os /\
       let counts := Reading.defectCountsOf ledger in
       let c := Engine.commonDeductionPoints Engine.binary64 os in
       let u := Engine.totalUnitDeductionPoints Engine.binary64 os in
       let e :=
         Engine.extrapolatedInteriorDeduction Engine.binary64 os sampleSize totalUnits in
       let final :=
         Binary64.max (Binary64.ofZ 0)
                      (Binary64.sub (Binary64.ofZ 100) (Binary64.add c e)) in
       TechSpector64.outsideWeight catalog counts = c /\
       TechSpector64.insideWeight catalog counts = u /\
       TechSpector64.unitWeight catalog counts text sampleSize = e /\
       TechSpector64.finalScoreValue catalog counts text sampleSize = final /\
       TechSpector64.finalScore (TechSpector64.score catalog counts text sampleSize)
       = Binary64.toFixed 2 final) /\
  (forall catalog k n i d,
     Engine.scope k = Engine.unit n ->
     Engine.resolve catalog k = Some (i, d) ->
     Binary64.ofQ (Catalog.weight d) = Binary64.ofQ 2.50 ->
     TechSpector64.finalScore
       (TechSpector64.score catalog
          (Reading.defectCountsOf [ {| Engine.key := k; Engine.count := 1 |} ])
          "100" 10)
     = Binary64.Digits "75.00").
Proof.
  split.
  - intros catalog ledger text totalUnits sampleSize Hp Hu Hs Hr.
    destruct (engine_quantities catalog ledger text totalUnits sampleSize Hp Hu Hs Hr)
      as (os & J & Ec & Eu & Ee & Ef & _).
    exists os. split; [exact J|].
    cbv zeta. split; [exact Ec|]. split; [exact Eu|]. split; [exact Ee|].
    split; [exact Ef|].
    cbn [TechSpector64.score TechSpector64.finalScore]. now rewrite Ef.
  - intros catalog k n i d Hk Hr Hw.
    cbn [TechSpector64.score TechSpector64.finalScore].
    unfold TechSpector64.finalScoreValue, TechSpector64.totalDeductions,
      TechSpector64.unitWeight, TechSpector64.outsideWeight,
      TechSpector64.insideWeight, TechSpector64.tally.
    cbn [Reading.defectCountsOf map Js.entries fold_left Engine.key Engine.count].
    unfold TechSpector64.visit.
    rewrite lookup_keyOf, Hr, isOutside_keyOf, Hk, Hw.
    cbn [Z.ltb Z.compare].
    destruct (Catalog.truthy (Catalog.lt d)); vm_compute; reflexivity.
Qed.

Lemma finalScore_formula_witness :
  (exists os,
     Engine.join Catalog.firstCategories (Engine.occurrences Reading.tieLedger) = Some os /\
     TechSpector64.finalScore
       (TechSpector64.score Catalog.firstCategories
          (Reading.defectCountsOf Reading.tieLedger) "10" 4)
     = Binary64.toFixed 2
         (Binary64.max (Binary64.ofZ 0)
            (Binary64.sub (Binary64.ofZ 100)
               (Binary64.add
                  (Engine.commonDeductionPoints Engine.binary64 os)
                  (Engine.extrapolatedInteriorDeduction Engine.binary64 os 4 10))))) /\
  TechSpector64.finalScore
    (TechSpector64.score Catalog.firstCategories
       (Reading.defectCountsOf [Reading.unitObservation 1 0 9 Engine.severe 0 1])
       "100" 10)
  = Binary64.Digits "75.00".
Proof.
  split.
  - destruct (proj1 finalScore_formula Catalog.firstCategories Reading.tieLedger
                "10"%string 10 4 eq_refl) as (os & J & _ & _ & _ & _ & F).
    + lia.
    + lia.
    + repeat constructor; discriminate.
    + exists os. split; [exact J | exact F].
  - apply (proj2 finalScore_formula Catalog.firstCategories
             (Engine.key (Reading.unitObservation 1 0 9 Engine.severe 0 1)) 1
             (nth 9 (Catalog.items Catalog.restroomKitchenLaundry)
                  (Catalog.moderateOnly "" []))
             (Catalog.defectLT "Toilet missing" 2.50));
      reflexivity.
Defined.

Lemma failing64_spec catalog ledger units sample :
  TechSpector64.failing (TechSpector64.score catalog ledger units sample) = true <->
  Binary64.ltb (TechSpector64.finalScoreValue catalog ledger units sample)
               (Binary64.ofZ 60) = true \/
  Binary64.leb (Binary64.ofZ 30) (TechSpector64.unitWeight catalog ledger units sample)
  = true \/
  Binary64.leb (Binary64.ofZ 40) (TechSpector64.outsideWeight catalog ledger) = true \/
  TechSpector64.lifeThreateningDefects (TechSpector64.score catalog ledger units sample)
  <> [].
Proof.
  cbn [TechSpector64.score TechSpector64.failing TechSpector64.lifeThreateningDefects].
  rewrite !orb_true_iff, Z.ltb_lt.
  assert (L : forall xs : list string, 0 < Z.of_nat (List.length xs) <-> xs <> []).
  { intros [|x xs]; simpl; split; intros H; try lia; congruence. }
  rewrite L. tauto.
Qed.

Lemma pass64_spec defects :
  ActionPlan64.pass (ActionPlan64.score defects) = false <->
  Binary64.leb (Binary64.ofZ 60) (ActionPlan64.finalScore defects) = false \/
  ActionPlan64.ltCount (ActionPlan64.score defects) <> 0.
Proof.
  cbn [ActionPlan64.score ActionPlan64.pass ActionPlan64.ltCount].
  now rewrite andb_false_iff, Z.eqb_neq.
Qed.

(** C2, as stated, fails on the score of the first app of [index.tsx]:
    400 common-area sightings of the 0.1-point "Litter" defect deduct 40
    points, the score is 60.0, and the inspection passes. *)
Lemma common_deduction_passes :
  ActionPlan64.totalDeductions
    [("outside.undefined.Litter.outside.low.0"%string,
      {| ActionPlan.count := 400; ActionPlan.weight := 0.1; ActionPlan.lt := false;
         ActionPlan.description :=
           "10 small items (food wrapper, paper, etc.) noted within 100sf area";
         ActionPlan.name := "Litter"; ActionPlan.category := "undefined";
         ActionPlan.severity := "low" |})]
  = Binary64.ofZ 40 /\
  ActionPlan64.score
    [("outside.undefined.Litter.outside.low.0"%string,
      {| ActionPlan.count := 400; ActionPlan.weight := 0.1; ActionPlan.lt := false;
         ActionPlan.description :=
           "10 small items (food wrapper, paper, etc.) noted within 100sf area";
         ActionPlan.name := "Litter"; ActionPlan.category := "undefined";
         ActionPlan.severity := "low" |})]
  = {| ActionPlan64.numeric := Binary64.Digits "60.0"; ActionPlan64.grade := "D";
       ActionPlan64.ltCount := 0; ActionPlan64.pass := true |}.
Proof. split; vm_compute; reflexivity. Qed.

(** The thresholds of [part_000] are tested on the doubles the loop
    computed.  With 300 units, a sample of 19 and 19 unit sightings of a
    0.1-point defect the extrapolated deduction is 30 in exact arithmetic;
    the double is just below 30 and the inspection does not fail. *)
Example unit_threshold_rounded :
  exists os,
    Engine.join Catalog.firstCategories (Engine.occurrences Reading.thresholdLedger)
    = Some os /\
    (Engine.extrapolatedInteriorDeduction Engine.exact os 19 300 == 30)%Q /\
    Binary64.leb (Binary64.ofZ 30)
      (TechSpector64.unitWeight Catalog.firstCategories
         (Reading.defectCountsOf Reading.thresholdLedger) "300" 19) = false /\
    TechSpector64.score Catalog.firstCategories
      (Reading.defectCountsOf Reading.thresholdLedger) "300" 19
    = {| TechSpector64.outsideScore := Binary64.Digits "100.00";
         TechSpector64.insideScore := Binary64.Digits "70.00";
         TechSpector64.finalScore := Binary64.Digits "70.00";
         TechSpector64.failing := false;
         TechSpector64.lifeThreateningDefects := [] |}.
Proof.
  eexists. split; [reflexivity|].
  split; [vm_compute; reflexivity|].
  split; vm_compute; reflexivity.
Qed.

(** C2, amended.  The score of [part_000] fails exactly when one of four
    triggers holds of the numbers it computed in binary64: the final score
    is below 60, the extrapolated unit deduction is at least 30, the
    common-area deduction is at least 40, or a life-threatening occurrence
    was found; a common-area deduction of 44 fails on its own account.  The
    score of the first app of [index.tsx] has two triggers only: it does
    not pass exactly when the final score is not at least 60 or the count
    of life-threatening entries is not 0. *)
Theorem failing_policy :
  (forall catalog ledger text totalUnits sampleSize,
     Js.parseInt (Some text) = Some totalUnits ->
     1 <= totalUnits -> 1 <= sampleSize ->
     Forall (fun o => Engine.resolve catalog (Engine.key o) <> None)
            (Engine.occurrences ledger) ->
     exists os,
       Engine.join catalog (Engine.occurrences ledger) = Some os /\
       let c := Engine.commonDeductionPoints Engine.binary64 os in
       let e :=
         Engine.extrapolatedInteriorDeduction Engine.binary64 os sampleSize totalUnits in
       let final :=
         Binary64.max (Binary64.ofZ 0)
                      (Binary64.sub (Binary64.ofZ 100) (Binary64.add c e)) in
       (TechSpector64.failing
          (TechSpector64.score catalog (Reading.defectCountsOf ledger) text sampleSize)
        = true <->
        Binary64.ltb final (Binary64.ofZ 60) = true \/
        Binary64.leb (Binary64.ofZ 30) e = true \/
        Binary64.leb (Binary64.ofZ 40) c = true \/
        filter Engine.isCritical os <> [])) /\
  (forall catalog defectCounts units sample,
     TechSpector64.outsideWeight catalog defectCounts = Binary64.ofZ 44 ->
     TechSpector64.failing (TechSpector64.score catalog defectCounts units sample)
     = true) /\
  (forall defects,
     ActionPlan64.pass (ActionPlan64.score defects) = false <->
     Binary64.leb (Binary64.ofZ 60) (ActionPlan64.finalScore defects) = false \/
     ActionPlan64.ltCount (ActionPlan64.score defects) <> 0).
Proof.
  split; [|split].
  - intros catalog ledger text totalUnits sampleSize Hp Hu Hs Hr.
    destruct (engine_quantities catalog ledger text totalUnits sampleSize Hp Hu Hs Hr)
      as (os & J & Ec & _ & Ee & Ef & Efound).
    exists os. split; [exact J|]. cbv zeta.
    rewrite failing64_spec, Ef, Ee, Ec, Efound.
    assert (M : forall (A B : Type) (f : A -> B) xs, map f xs <> [] <-> xs <> []).
    { intros A B f [|x xs]; simpl; split; intros H; congruence. }
    rewrite M. tauto.
  - intros catalog defectCounts units sample H.
    apply failing64_spec. right; right; left. now rewrite H.
  - apply pass64_spec.
Qed.

Lemma failing_policy_witness :
  (exists os,
     Engine.join Catalog.firstCategories (Engine.occurrences Reading.thresholdLedger)
     = Some os /\
     (TechSpector64.failing
        (TechSpector64.score Catalog.firstCategories
           (Reading.defectCountsOf Reading.thresholdLedger) "300" 19) = true <->
      Binary64.ltb
        (Binary64.max (Binary64.ofZ 0)
           (Binary64.sub (Binary64.ofZ 100)
              (Binary64.add
                 (Engine.commonDeductionPoints Engine.binary64 os)
                 (Engine.extrapolatedInteriorDeduction Engine.binary64 os 19 300))))
        (Binary64.ofZ 60) = true \/
      Binary64.leb (Binary64.ofZ 30)
        (Engine.extrapolatedInteriorDeduction Engine.binary64 os 19 300) = true \/
      Binary64.leb (Binary64.ofZ 40)
        (Engine.commonDeductionPoints Engine.binary64 os) = true \/
      filter Engine.isCritical os <> [])) /\
  TechSpector64.failing
    (TechSpector64.score Catalog.firstCategories
       (Reading.defectCountsOf [Reading.commonObservation 0 0 Engine.low 0 440])
       "100" 14) = true.
Proof.
  split.
  - apply (proj1 failing_policy Catalog.firstCategories Reading.thresholdLedger
             "300"%string 300 19 eq_refl).
    + lia.
    + lia.
    + repeat constructor; discriminate.
  - apply (proj1 (proj2 failing_policy) Catalog.firstCategories
             (Reading.defectCountsOf [Reading.commonObservation 0 0 Engine.low 0 440])
             "100"%string 14).
    vm_compute. reflexivity.
Defined.

(** ** [index.tsx], first app: grade and verdict in binary64 *)

Ltac literal n :=
  let c := eval vm_compute in (Binary64.ofZ n) in
  change (Binary64.ofZ n) with c in *.

Lemma at_least_60 x :
  Binary64.leb (Binary64.ofZ 90) x = true \/
  Binary64.leb (Binary64.ofZ 80) x = true \/
  Binary64.leb (Binary64.ofZ 70) x = true ->
  Binary64.leb (Binary64.ofZ 60) x = true.
Proof.
  literal 90. literal 80. literal 70. literal 60.
  intros [H|[H|H]]; eapply leb_lower; try exact H; lia.
Qed.

Lemma letterGrade64_F defects :
  ActionPlan64.letterGrade defects = "F"%string <->
  Binary64.leb (Binary64.ofZ 60) (ActionPlan64.finalScore defects) = false.
Proof.
  unfold ActionPlan64.letterGrade.
  pose proof (at_least_60 (ActionPlan64.finalScore defects)) as H.
  destruct (Binary64.leb (Binary64.ofZ 90) _);
    [rewrite H by auto; split; discriminate|].
  destruct (Binary64.leb (Binary64.ofZ 80) _);
    [rewrite H by auto; split; discriminate|].
  destruct (Binary64.leb (Binary64.ofZ 70) _);
    [rewrite H by auto; split; discriminate|].
  destruct (Binary64.leb (Binary64.ofZ 60) _); split; auto; discriminate.
Qed.

(** X16. In the first app an inspection passes exactly when its letter
    grade is not F and no life-threatening defect is counted; the grade is F
    exactly when the final score, a double, is not at least 60 (which
    includes a score that is not a number); and the final score is never
    below 0. *)
Theorem grade_and_verdict defects :
  (ActionPlan64.pass (ActionPlan64.score defects) = true <->
   ActionPlan64.grade (ActionPlan64.score defects) <> "F"%string /\
   ActionPlan64.ltCount (ActionPlan64.score defects) = 0) /\
  (ActionPlan64.grade (ActionPlan64.score defects) = "F"%string <->
   Binary64.leb (Binary64.ofZ 60) (ActionPlan64.finalScore defects) = false) /\
  Binary64.ltb (ActionPlan64.finalScore defects) (Binary64.ofZ 0) = false.
Proof.
  cbn [ActionPlan64.score ActionPlan64.pass ActionPlan64.grade ActionPlan64.ltCount].
  split; [|split].
  - rewrite andb_true_iff, Z.eqb_eq, letterGrade64_F.
    destruct (Binary64.leb (Binary64.ofZ 60) (ActionPlan64.finalScore defects));
      intuition congruence.
  - apply letterGrade64_F.
  - apply max_0_not_negative.
Qed.

(** A score printed as 60.0 can carry the grade F: 37, 25 and 4 sightings
    of defects weighing 0.65, 0.55 and 0.55 deduct 40 points in exact
    arithmetic and a little more in binary64. *)
Example grade_F_at_60 :
  ActionPlan64.score
    [("inside.undefined.Shower/Tub & Hardware.unit-1.severe.0"%string,
      {| ActionPlan.count := 37; ActionPlan.weight := 0.65; ActionPlan.lt := false;
         ActionPlan.description := "Tub/shower is inoperable";
         ActionPlan.name := "Shower/Tub & Hardware";
         ActionPlan.category := "undefined"; ActionPlan.severity := "severe" |});
     ("outside.undefined.Roads/Drives.outside.severe.0"%string,
      {| ActionPlan.count := 25; ActionPlan.weight := 0.55; ActionPlan.lt := false;
         ActionPlan.description := "Access to property is blocked/impassable";
         ActionPlan.name := "Roads/Drives";
         ActionPlan.category := "undefined"; ActionPlan.severity := "severe" |});
     ("outside.undefined.Outlets / Switches & GFCI.outside.severe.0"%string,
      {| ActionPlan.count := 4; ActionPlan.weight := 0.55; ActionPlan.lt := false;
         ActionPlan.description := "GFCI/AFCI inoperable";
         ActionPlan.name := "Outlets / Switches & GFCI";
         ActionPlan.category := "undefined"; ActionPlan.severity := "severe" |})]
  = {| ActionPlan64.numeric := Binary64.Digits "60.0"; ActionPlan64.grade := "F";
       ActionPlan64.ltCount := 0; ActionPlan64.pass := false |}.
Proof. vm_compute. reflexivity. Qed.

(** ** [index.tsx], third app: the report in binary64 *)



(** The status is decided on the double, the card beside it prints two
    decimals: 8 sightings of a 0.25-point and 40 of a 0.7-point unit defect
    weigh 30 in exact arithmetic; the report prints 30.00 and "Pass". *)
Example pass_at_30 :
  FieldGuide64.unitScoreShown
    (FieldGuide.withLogged
       (repeat (FieldGuide.loggedCabinets 1) 8 ++ repeat (FieldGuide.loggedOven 1) 40)
       FieldGuide.started100)
  = Binary64.Digits "30.00" /\
  FieldGuide64.unitScoreStatus
    (FieldGuide.withLogged
       (repeat (FieldGuide.loggedCabinets 1) 8 ++ repeat (FieldGuide.loggedOven 1) 40)
       FieldGuide.started100)
  = "Pass"%string.
Proof. split; vm_compute; reflexivity. Qed.

(** ** [part_000]: the first sighting of a defect, in binary64 *)

(** X3. The first sighting logged under a key that resolves in the catalog
    and is not yet in the ledger adds one term to the total of its scope,
    with one rounded addition: the total becomes [old + weight * 1] in
    binary64, and the total of the other scope is as before.  Taking the
    sighting back leaves both totals exactly as they were before the two
    taps. *)
Theorem first_sighting_adds_weight catalog st key item d :
  lookup catalog key = Some (item, d) ->
  Js.get (defectCounts st) key = None ->
  let old := defectCounts st in
  let more := defectCounts (updateDefectCount key 1 st) in
  let back := defectCounts (updateDefectCount key (-1) (updateDefectCount key 1 st)) in
  let term := Binary64.mul (Binary64.ofQ (Catalog.weight d)) (Binary64.ofZ 1) in
  TechSpector64.outsideWeight catalog more
  = (if isOutside (locationOf key)
     then Binary64.add (TechSpector64.outsideWeight catalog old) term
     else TechSpector64.outsideWeight catalog old) /\
  TechSpector64.insideWeight catalog more
  = (if isOutside (locationOf key)
     then TechSpector64.insideWeight catalog old
     else Binary64.add (TechSpector64.insideWeight catalog old) term) /\
  TechSpector64.outsideWeight catalog back = TechSpector64.outsideWeight catalog old /\
  TechSpector64.insideWeight catalog back = TechSpector64.insideWeight catalog old.
Proof.
  intros L G. cbv zeta.
  assert (C0 : countAt st key = 0) by (unfold countAt; now rewrite G).
  assert (M : defectCounts (updateDefectCount key 1 st) = defectCounts st ++ [(key, 1)]).
  { rewrite updateDefectCount_counts, C0. now apply set_absent. }
  assert (B : defectCounts (updateDefectCount key (-1) (updateDefectCount key 1 st))
              = defectCounts st ++ [(key, 0)]).
  { rewrite updateDefectCount_counts, countAt_updateDefectCount, updateDefectCount_counts.
    rewrite set_set, C0. now apply set_absent. }
  unfold TechSpector64.outsideWeight, TechSpector64.insideWeight, TechSpector64.tally,
    Js.entries.
  rewrite M, B, !fold_left_app. cbn [fold_left].
  rewrite (visit64_skips catalog _ key 0) by lia.
  set (acc := fold_left (TechSpector64.visit catalog) (defectCounts st)
                TechSpector64.start).
  unfold TechSpector64.visit. rewrite L. cbn [Z.ltb Z.compare].
  destruct (isOutside (locationOf key));
    (split; [reflexivity|]; split; [reflexivity|]; split; reflexivity).
Qed.

Lemma first_sighting_adds_weight_witness :
  TechSpector64.insideWeight Catalog.firstCategories
    (defectCounts
       (updateDefectCount "inside-0-9-severe-0-2" 1
          (updateDefectCount "inside-0-0-moderate-0-1" 3 emptyState)))
  = Binary64.add
      (TechSpector64.insideWeight Catalog.firstCategories
         (defectCounts (updateDefectCount "inside-0-0-moderate-0-1" 3 emptyState)))
      (Binary64.mul (Binary64.ofQ 2.50) (Binary64.ofZ 1)).
Proof.
  apply (first_sighting_adds_weight Catalog.firstCategories
           (updateDefectCount "inside-0-0-moderate-0-1" 3 emptyState)
           "inside-0-9-severe-0-2"
           (nth 9 (Catalog.items Catalog.restroomKitchenLaundry)
                (Catalog.moderateOnly "" []))
           (Catalog.defectLT "Toilet missing" 2.50));
    reflexivity.
Defined.

(** A later sighting is not a further addition of the weight: the total is
    computed afresh from the counts, and six sightings of a 0.1-point defect
    weigh more than five sightings plus 0.1. *)
Example sixth_sighting :
  TechSpector64.outsideWeight Catalog.firstCategories [("outside-0-0-low-0"%string, 6)]
  <> Binary64.add
       (TechSpector64.outsideWeight Catalog.firstCategories
          [("outside-0-0-low-0"%string, 5)])
       (Binary64.ofQ 0.1).
Proof. vm_compute. discriminate. Qed.

(** ** [part_000]: the list of recorded defects against the totals *)

Lemma collect_location catalog notes' key count row :
  collect catalog notes' key count = Js.Normal row ->
  Row.location row
  = if String.prefix "outside" key then "Outside"%string
    else ("Unit " ++ Js.show (nth_error (Js.split "-" key) 5))%string.
Proof.
  unfold collect. cbv zeta.
  destruct (Js.index _ (Js.parseInt (nth_error (Js.split "-" key) 1)))
    as [category|]; [|discriminate].
  cbn [Js.deref Js.bind].
  destruct (Js.index (Catalog.items category) _) as [item|]; [|discriminate].
  cbn [Js.deref Js.bind].
  destruct (Catalog.tier (Catalog.defects item) _) as [ds|]; [|discriminate].
  cbn [Js.deref Js.bind].
  intros [= <-]. reflexivity.
Qed.

Lemma prefix_keyOf k :
  String.prefix "outside" (Reading.keyOf k)
  = match Engine.scope k with Engine.common => true | Engine.unit _ => false end.
Proof. unfold Reading.keyOf. now destruct (Engine.scope k). Qed.

Lemma collect_keyOf catalog notes' o i d :
  Engine.resolve catalog (Engine.key o) = Some (i, d) ->
  exists row,
    collect catalog notes' (Reading.keyOf (Engine.key o)) (Engine.count o) = Js.Normal row /\
    Reading.rowOf row {| Engine.observed := o; Engine.item := i; Engine.definition := d |}.
Proof.
  intros R. rewrite <- lookup_keyOf in R.
  destruct (collect_resolved catalog notes' _ (Engine.count o) i d R) as [row C].
  exists row. split; [exact C|].
  destruct (collect_lookup catalog notes' _ _ row C) as (Hd & Hn & Hc & _).
  unfold Reading.rowOf. cbn [Engine.observed Engine.item Engine.definition].
  split; [now rewrite Hd, R|]. split; [exact (Hn i d R)|]. split; [exact Hc|].
  unfold Reading.isOutsideRow, Engine.isCommon. cbn [Engine.observed].
  rewrite (collect_location catalog notes' _ _ row C), prefix_keyOf.
  now destruct (Engine.scope (Engine.key o)).
Qed.

Lemma collectFrom_join catalog notes' ledger :
  forall os,
    Engine.join catalog (Engine.occurrences ledger) = Some os ->
    exists rows,
      collectFrom catalog notes' (Reading.defectCountsOf ledger) [] = Js.Normal rows /\
      Forall2 Reading.rowOf rows os.
Proof.
  induction ledger as [|o rest IH]; intros os;
    cbn [Engine.occurrences filter Reading.defectCountsOf map collectFrom].
  - intros [= <-]. exists []. split; [reflexivity | constructor].
  - fold (Engine.occurrences rest). fold (Reading.defectCountsOf rest).
    destruct (0 <? Engine.count o) eqn:P.
    + cbn [Engine.join].
      destruct (Engine.resolve catalog (Engine.key o)) as [[i d]|] eqn:R;
        [|discriminate].
      destruct (Engine.join catalog (Engine.occurrences rest)) as [os'|] eqn:J;
        [|discriminate].
      intros [= <-].
      destruct (IH os' eq_refl) as (rows' & C' & F').
      destruct (collect_keyOf catalog notes' o i d R) as (row & C & Hrow).
      exists (row :: rows'). split; [|now constructor].
      rewrite C. cbn [Js.bind app]. rewrite collectFrom_acc, C'. reflexivity.
    + intros J. now apply IH.
Qed.

Lemma rowTerm_points row o :
  Reading.rowOf row o -> Reading.rowTerm row = Engine.points Engine.binary64 o.
Proof.
  intros (Hd & _ & Hc & _). unfold Reading.rowTerm, Engine.points.
  rewrite Hd, Hc. cbn. apply binary64_mul_comm.
Qed.

Lemma rows_terms rows os :
  Forall2 Reading.rowOf rows os ->
  forall acc,
    fold_left Binary64.add (map Reading.rowTerm (filter Reading.isOutsideRow rows)) acc
    = fold_left (fun sum o => Binary64.add sum (Engine.points Engine.binary64 o))
                (filter Engine.isCommon os) acc /\
    fold_left Binary64.add
      (map Reading.rowTerm (filter (fun r => negb (Reading.isOutsideRow r)) rows)) acc
    = fold_left (fun sum o => Binary64.add sum (Engine.points Engine.binary64 o))
                (filter (fun o => negb (Engine.isCommon o)) os) acc.
Proof.
  induction 1 as [|row o rows os Hrow _ IH]; intros acc; cbn [filter map fold_left].
  - now split.
  - rewrite (proj2 (proj2 (proj2 Hrow))).
    destruct (Engine.isCommon o); cbn [negb map fold_left];
      rewrite ?(rowTerm_points row o Hrow);
      (split; [apply (proj1 (IH _)) | apply (proj2 (IH _))]).
Qed.

(** X9. For a ledger whose occurrences all resolve in the catalog, the
    list of recorded defects is built without error and has one row per
    occurrence, in the order of the ledger, carrying its defect, item name
    and count and reading "Outside" exactly for a common-area occurrence.
    The totals of the score are the sums of the rows' terms: the common-area
    total is the binary64 sum, in order from 0, of [weight * count] over the
    rows that read "Outside", and the unit total that over the other
    rows. *)
Theorem collectedDefects_rows catalog ledger notes' :
  Forall (fun o => Engine.resolve catalog (Engine.key o) <> None)
         (Engine.occurrences ledger) ->
  exists os rows,
    Engine.join catalog (Engine.occurrences ledger) = Some os /\
    collectedDefects catalog (Reading.defectCountsOf ledger) notes' = Js.Normal rows /\
    Forall2 Reading.rowOf rows os /\
    TechSpector64.outsideWeight catalog (Reading.defectCountsOf ledger)
    = Reading.sum64 (map Reading.rowTerm (filter Reading.isOutsideRow rows)) /\
    TechSpector64.insideWeight catalog (Reading.defectCountsOf ledger)
    = Reading.sum64
        (map Reading.rowTerm (filter (fun r => negb (Reading.isOutsideRow r)) rows)).
Proof.
  intros Hr.
  destruct (join_total catalog _ Hr) as [os J].
  destruct (collectFrom_join catalog notes' ledger os J) as (rows & C & F).
  destruct (tally64_join catalog ledger os TechSpector64.start J) as (Ho & Hi & _).
  destruct (rows_terms rows os F (Binary64.ofZ 0)) as [Ro Ri].
  exists os, rows.
  split; [exact J|]. split; [exact C|]. split; [exact F|].
  unfold Reading.sum64. rewrite Ro, Ri. split; [exact Ho | exact Hi].
Qed.

Lemma collectedDefects_rows_witness :
  exists os rows,
    Engine.join Catalog.firstCategories (Engine.occurrences Reading.tieLedger) = Some os /\
    collectedDefects Catalog.firstCategories (Reading.defectCountsOf Reading.tieLedger) []
    = Js.Normal rows /\
    Forall2 Reading.rowOf rows os /\
    TechSpector64.outsideWeight Catalog.firstCategories
      (Reading.defectCountsOf Reading.tieLedger)
    = Reading.sum64 (map Reading.rowTerm (filter Reading.isOutsideRow rows)) /\
    TechSpector64.insideWeight Catalog.firstCategories
      (Reading.defectCountsOf Reading.tieLedger)
    = Reading.sum64
        (map Reading.rowTerm (filter (fun r => negb (Reading.isOutsideRow r)) rows)).
Proof.
  apply (collectedDefects_rows Catalog.firstCategories Reading.tieLedger []).
  repeat constructor; discriminate.
Defined.
